(** * lifetime-pos: billing, receipts, bill history and revenue reports

    A shallow embedding of the point-of-sale front end:
    - the billing page ([Billing]: cart handlers, [calculateTotals],
      [saveBill], [printBill], [loadBill], [clearCart]),
    - the bill history page ([PreviousBills]: [deleteBill], [printBill]),
    - the revenue report page ([Reports]: [fetchRevenueData]),
    - the search boxes of the two pages ([Search]),
    together with a model of the hosted store they talk to ([Store]).

    Conventions.
    - A JavaScript [number] that holds money is a value of the abstract type
      [num] of the class [JsNumber]; the page never relies on an arithmetic
      law, so every statement below holds for any interpretation of the
      operations (IEEE doubles included).  [QNumber] interprets them as exact
      rationals and is used to run the definitions.
    - Quantities, bill numbers and column widths are integers ([Z]).
    - The UUID strings handed out by the store are natural numbers.
    - A character of a string stands for one UTF-16 code unit.
    - React state setters are modelled as immediate updates of the component
      state; an [async] handler is a computation in the monad [M]: it
      threads the state of its page and the environment [Env] (store,
      pending faults, request log, toasts, printed documents). *)

From Stdlib Require Import List ZArith QArith String Ascii Bool Lia DecimalString
  Permutation Sorted.
Import ListNotations.
Local Open Scope string_scope.
Local Open Scope Z_scope.

Set Implicit Arguments.

(** ** JavaScript strings *)

Module Str.

(** [c.repeat(n)] for a one-character string [c]. *)
Fixpoint repeat (c : ascii) (n : nat) : string :=
  match n with
  | O => EmptyString
  | S k => String c (repeat c k)
  end.

Definition spaces (n : nat) : string := repeat " "%char n.

(** [s.padEnd(n)]: spaces are appended until the length is [n]; a string
    that is already that long is returned as it is. *)
Definition padEnd (s : string) (n : nat) : string :=
  s ++ spaces (n - String.length s).

(** [s.padStart(n)]. *)
Definition padStart (s : string) (n : nat) : string :=
  spaces (n - String.length s) ++ s.

(** [s.substring(0, n)]. *)
Definition substring0 (s : string) (n : nat) : string :=
  String.substring 0 n s.

(** [z.toString()] for an integer-valued number. *)
Definition ofZ (z : Z) : string := NilZero.string_of_int (Z.to_int z).

(** [c.toUpperCase()] on the ASCII letters. *)
Definition upper (c : ascii) : ascii :=
  let n := nat_of_ascii c in
  if ((97 <=? n) && (n <=? 122))%nat then ascii_of_nat (n - 32) else c.

(** [s.charAt(0).toUpperCase() + s.slice(1)]. *)
Definition capitalize (s : string) : string :=
  match s with
  | EmptyString => EmptyString
  | String c r => String (upper c) r
  end.

(** Truthiness of a string: only the empty string is falsy. *)
Definition truthy (s : string) : bool :=
  match s with
  | EmptyString => false
  | String _ _ => true
  end.

End Str.

(** ** JavaScript numbers *)

Class JsNumber : Type := {
  num : Type;
  (** an integer literal, or an integer-valued number *)
  of_Z : Z -> num;
  add : num -> num -> num;
  sub : num -> num -> num;
  mul : num -> num -> num;
  div : num -> num -> num;
  (** [a > b] *)
  gtb : num -> num -> bool;
  (** truthiness of a number: [false] for zero and NaN *)
  truthy : num -> bool;
  (** [x.toFixed(2)] *)
  toFixed2 : num -> string;
  (** [Number(x.toFixed(2))] *)
  round2 : num -> num;
  (** the template-literal rendering of a number *)
  toString : num -> string
}.

(** Exact rational arithmetic, every result in lowest terms. *)
Module QNum.

Definition qadd (a b : Q) : Q := Qred (Qplus a b).
Definition qsub (a b : Q) : Q := Qred (Qminus a b).
Definition qmul (a b : Q) : Q := Qred (Qmult a b).
Definition qdiv (a b : Q) : Q := Qred (Qdiv a b).
Definition qgtb (a b : Q) : bool := negb (Qle_bool a b).
Definition qtruthy (a : Q) : bool := negb (Qeq_bool a 0).

(** The number of hundredths nearest to [|x|], ties away from zero. *)
Definition hundredths (x : Q) : Z :=
  (200 * Z.abs (Qnum x) + Zpos (Qden x)) / (2 * Zpos (Qden x)).

Definition isNeg (x : Q) : bool := negb (Qle_bool 0 x).

Definition two_digits (z : Z) : string :=
  if z <? 10 then "0" ++ Str.ofZ z else Str.ofZ z.

Definition qtoFixed2 (x : Q) : string :=
  let h := hundredths x in
  (if isNeg x then "-" else "")
    ++ Str.ofZ (h / 100) ++ "." ++ two_digits (h mod 100).

Definition qround2 (x : Q) : Q :=
  let h := hundredths x in
  Qred (if isNeg x then (- h # 100) else (h # 100))%Q.

(** Integers print as integers, other values with two decimals. *)
Definition qtoString (x : Q) : string :=
  match Qden (Qred x) with
  | xH => Str.ofZ (Qnum (Qred x))
  | _ => qtoFixed2 x
  end.

End QNum.

#[export] Instance QNumber : JsNumber := {|
  num := Q;
  of_Z := inject_Z;
  add := QNum.qadd;
  sub := QNum.qsub;
  mul := QNum.qmul;
  div := QNum.qdiv;
  gtb := QNum.qgtb;
  truthy := QNum.qtruthy;
  toFixed2 := QNum.qtoFixed2;
  round2 := QNum.qround2;
  toString := QNum.qtoString
|}.

(** ** Numeric columns

    The money columns of the migration are [DECIMAL(10, 2)]: the database
    rounds the number it is sent to two decimals and refuses it when the
    rounded number needs more than eight digits before the point. *)

Class Columns {N : JsNumber} : Type := {
  (** what a [DECIMAL(10, 2)] column holds, and gives back, for the number
      it is sent; [None] when the database refuses the number (a numeric
      field overflow, or no number at all) *)
  decimal_10_2 : num -> option num
}.

Module QColumn.

(** Rounded to hundredths, ties away from zero; at most ten digits. *)
Definition qdecimal_10_2 (x : Q) : option Q :=
  if QNum.hundredths x <? 10 ^ 10 then Some (QNum.qround2 x) else None.

End QColumn.

#[export] Instance QColumns : Columns := {|
  decimal_10_2 := QColumn.qdecimal_10_2
|}.

(** ** Dates

    A timestamp is a number of milliseconds; what the browser makes of it
    depends on its locale and time zone. *)

Class Locale : Type := {
  (** [`${d.toLocaleDateString()} ${d.toLocaleTimeString()}`] *)
  formatDateTime : Z -> string;
  (** date-fns [format(d, "MMM dd")] *)
  formatDay : Z -> string;
  (** [d.setHours(0, 0, 0, 0)]: the start of the local day of [d] *)
  startOfDay : Z -> Z
}.

Module UTC.

Definition msPerDay : Z := 86400000.

Definition day (t : Z) : string := "day " ++ Str.ofZ (t / msPerDay).

Definition dateTime (t : Z) : string :=
  day t ++ " " ++ Str.ofZ (t mod msPerDay) ++ "ms".

Definition start (t : Z) : Z := (t / msPerDay) * msPerDay.

End UTC.

#[export] Instance UTCLocale : Locale := {|
  formatDateTime := UTC.dateTime;
  formatDay := UTC.day;
  startOfDay := UTC.start
|}.

(** ** The hosted store

    The tables of the migration ([bills], [bill_items], [settings]) as lists
    of rows in insertion order.  The store generates primary keys and bill
    numbers, stamps rows with its clock, checks the foreign key of
    [bill_items.bill_id] on insertion and cascades the deletion of a bill to
    its items.  A write is checked against the column types and the
    [CHECK] constraints of the migration: the money columns are
    [DECIMAL(10, 2)] and keep the rounded number, [bill_items.quantity] is
    an [INTEGER] with [CHECK (quantity > 0)], [bills.status] is one of
    'draft', 'saved' and 'printed'; a write that fails a check is refused
    as a whole and leaves the tables as they were. *)

Definition Id := nat.

Inductive Response (A : Type) : Type :=
| Ok (data : A)
| Err (message : string).
Arguments Ok {A} data.
Arguments Err {A} message.

Module Store.
Section WithNumbers.
Context {N : JsNumber} {DB : Columns}.

Record Bill := {
  bill_id : Id;
  bill_number : Z;
  bill_date : Z;
  bill_subtotal : num;
  bill_tax_amount : num;
  bill_discount : num;
  bill_total : num;
  bill_payment_method : option string;
  bill_status : string;
  bill_created_at : Z
}.

Record BillItem := {
  item_id : Id;
  item_bill_id : Id;
  item_name_snapshot : string;
  item_price_snapshot : num;
  item_quantity : Z;
  item_line_total : num
}.

(** The columns a client writes into [bills]. *)
Record BillData := {
  d_subtotal : num;
  d_tax_amount : num;
  d_discount : num;
  d_total : num;
  d_payment_method : option string;
  d_status : string
}.

(** The columns a client writes into [bill_items]. *)
Record ItemData := {
  i_bill_id : Id;
  i_item_name_snapshot : string;
  i_price_snapshot : num;
  i_quantity : Z;
  i_line_total : num
}.

Record Settings := {
  shop_name : string;
  shop_phone : option string;
  tax_percentage : num
}.

Record t := {
  bills : list Bill;
  bill_items : list BillItem;
  settings : list Settings;
  next_id : Id;
  next_bill_number : Z;
  clock : Z
}.

Definition has_bill (b : Id) (s : t) : bool :=
  existsb (fun r => Nat.eqb (bill_id r) b) (bills s).

(** [.single()]: exactly one row, otherwise an error. *)
Definition single {A} (rows : list A) : Response A :=
  match rows with
  | [r] => Ok r
  | _ => Err "JSON object requested, multiple (or no) rows returned"
  end.

(** Rows ordered by an integer key (stable insertion sort). *)
Fixpoint insert_by {A} (key : A -> Z) (x : A) (l : list A) : list A :=
  match l with
  | [] => [x]
  | y :: r => if key x <? key y then x :: l else y :: insert_by key x r
  end.

Definition order_by {A} (key : A -> Z) (ascending : bool) (l : list A)
  : list A :=
  let k := if ascending then key else (fun a => - key a) in
  fold_left (fun acc x => insert_by k x acc) l [].

(** *** Column checks *)

(** [status TEXT CHECK (status IN ('draft', 'saved', 'printed'))] *)
Definition status_ok (status : string) : bool :=
  String.eqb status "draft" || String.eqb status "saved"
  || String.eqb status "printed".

(** The largest [INTEGER]. *)
Definition max_integer : Z := 2147483647.

(** [quantity INTEGER NOT NULL CHECK (quantity > 0)] *)
Definition quantity_ok (q : Z) : bool := (0 <? q) && (q <=? max_integer).

(** The columns of a [bills] row as the table takes them: the four money
    columns rounded by [DECIMAL(10, 2)], or the refusal of the write. *)
Definition checked_bill (d : BillData) : Response BillData :=
  match decimal_10_2 (d_subtotal d), decimal_10_2 (d_tax_amount d),
        decimal_10_2 (d_discount d), decimal_10_2 (d_total d) with
  | Some subtotal, Some tax, Some discount, Some total =>
      if status_ok (d_status d)
      then Ok {| d_subtotal := subtotal;
                 d_tax_amount := tax;
                 d_discount := discount;
                 d_total := total;
                 d_payment_method := d_payment_method d;
                 d_status := d_status d |}
      else Err "new row for relation bills violates check constraint bills_status_check"
  | _, _, _, _ => Err "numeric field overflow"
  end.

(** The columns of a [bill_items] row as the table takes them. *)
Definition checked_item (d : ItemData) : Response ItemData :=
  match decimal_10_2 (i_price_snapshot d), decimal_10_2 (i_line_total d) with
  | Some price, Some line_total =>
      if quantity_ok (i_quantity d)
      then Ok {| i_bill_id := i_bill_id d;
                 i_item_name_snapshot := i_item_name_snapshot d;
                 i_price_snapshot := price;
                 i_quantity := i_quantity d;
                 i_line_total := line_total |}
      else Err "new row for relation bill_items violates check constraint bill_items_quantity_check"
  | _, _ => Err "numeric field overflow"
  end.

(** The rows of one [insert]: refused together when one of them is. *)
Fixpoint checked_items (rows : list ItemData) : Response (list ItemData) :=
  match rows with
  | [] => Ok []
  | d :: rest =>
      match checked_item d, checked_items rest with
      | Ok v, Ok vs => Ok (v :: vs)
      | Err message, _ => Err message
      | _, Err message => Err message
      end
  end.

(** *** Writes *)

(** [from("bills").insert(d).select().single()] *)
Definition insert_bill (d : BillData) (s : t) : Response Bill * t :=
  match checked_bill d with
  | Err message => (Err message, s)
  | Ok v =>
      let row := {| bill_id := next_id s;
                    bill_number := next_bill_number s;
                    bill_date := clock s;
                    bill_subtotal := d_subtotal v;
                    bill_tax_amount := d_tax_amount v;
                    bill_discount := d_discount v;
                    bill_total := d_total v;
                    bill_payment_method := d_payment_method v;
                    bill_status := d_status v;
                    bill_created_at := clock s |} in
      (Ok row,
       {| bills := (bills s ++ [row])%list;
          bill_items := bill_items s;
          settings := settings s;
          next_id := S (next_id s);
          next_bill_number := next_bill_number s + 1;
          clock := clock s |})
  end.

Definition write_bill (d : BillData) (r : Bill) : Bill :=
  {| bill_id := bill_id r;
     bill_number := bill_number r;
     bill_date := bill_date r;
     bill_subtotal := d_subtotal d;
     bill_tax_amount := d_tax_amount d;
     bill_discount := d_discount d;
     bill_total := d_total d;
     bill_payment_method := d_payment_method d;
     bill_status := d_status d;
     bill_created_at := bill_created_at r |}.

(** [from("bills").update(d).eq("id", b)]: no row matching is no error. *)
Definition update_bill (d : BillData) (b : Id) (s : t) : Response unit * t :=
  match checked_bill d with
  | Err message => (Err message, s)
  | Ok v =>
      (Ok tt,
       {| bills := map (fun r => if Nat.eqb (bill_id r) b then write_bill v r
                                 else r) (bills s);
          bill_items := bill_items s;
          settings := settings s;
          next_id := next_id s;
          next_bill_number := next_bill_number s;
          clock := clock s |})
  end.

(** [from("bill_items").delete().eq("bill_id", b)] *)
Definition delete_items_of (b : Id) (s : t) : Response unit * t :=
  (Ok tt,
   {| bills := bills s;
      bill_items :=
        filter (fun i => negb (Nat.eqb (item_bill_id i) b)) (bill_items s);
      settings := settings s;
      next_id := next_id s;
      next_bill_number := next_bill_number s;
      clock := clock s |}).

(** Primary keys of the inserted rows are consecutive, from [k]. *)
Fixpoint new_items (k : Id) (rows : list ItemData) : list BillItem :=
  match rows with
  | [] => []
  | d :: r =>
      {| item_id := k;
         item_bill_id := i_bill_id d;
         item_name_snapshot := i_item_name_snapshot d;
         item_price_snapshot := i_price_snapshot d;
         item_quantity := i_quantity d;
         item_line_total := i_line_total d |} :: new_items (S k) r
  end.

(** [from("bill_items").insert(rows)]: refused as a whole when a row fails
    a column check or references a bill that does not exist. *)
Definition insert_items (rows : list ItemData) (s : t) : Response unit * t :=
  match checked_items rows with
  | Err message => (Err message, s)
  | Ok vs =>
      if forallb (fun d => has_bill (i_bill_id d) s) rows then
        (Ok tt,
         {| bills := bills s;
            bill_items := (bill_items s ++ new_items (next_id s) vs)%list;
            settings := settings s;
            next_id := (next_id s + List.length rows)%nat;
            next_bill_number := next_bill_number s;
            clock := clock s |})
      else
        (Err "insert or update on table bill_items violates foreign key constraint",
         s)
  end.

(** [from("bills").delete().eq("id", b)], cascading to [bill_items]. *)
Definition delete_bill (b : Id) (s : t) : Response unit * t :=
  (Ok tt,
   {| bills := filter (fun r => negb (Nat.eqb (bill_id r) b)) (bills s);
      bill_items :=
        filter (fun i => negb (Nat.eqb (item_bill_id i) b)) (bill_items s);
      settings := settings s;
      next_id := next_id s;
      next_bill_number := next_bill_number s;
      clock := clock s |}).

(** *** Reads *)

Definition read {A} (q : t -> Response A) (s : t) : Response A * t :=
  (q s, s).

(** [from("bill_items").select("*").eq("bill_id", b)] *)
Definition items_of (b : Id) (s : t) : Response (list BillItem) :=
  Ok (filter (fun i => Nat.eqb (item_bill_id i) b) (bill_items s)).

(** [from("bills").select(...).eq("id", b).single()] *)
Definition bill_by_id (b : Id) (s : t) : Response Bill :=
  single (filter (fun r => Nat.eqb (bill_id r) b) (bills s)).

Definition is_draft (r : Bill) : bool := String.eqb (bill_status r) "draft".

(** [from("bills").select("*").eq("status", "draft")
      .order("created_at", { ascending: false })] *)
Definition drafts (s : t) : Response (list Bill) :=
  Ok (order_by bill_created_at false (filter is_draft (bills s))).

(** [from("bills").select("total").neq("status", "draft").gte("date", t0)] *)
Definition finalized_since (t0 : Z) (s : t) : Response (list Bill) :=
  Ok (filter (fun r => negb (is_draft r) && (t0 <=? bill_date r)) (bills s)).

(** [from("bills").select("*").neq("status", "draft")
      .order("date", { ascending: false })] *)
Definition history (s : t) : Response (list Bill) :=
  Ok (order_by bill_date false (filter (fun r => negb (is_draft r)) (bills s))).

(** [from("bills").select("*").neq("status", "draft")
      .gte("date", a).lte("date", b).order("date")] *)
Definition finalized_between (a b : Z) (s : t) : Response (list Bill) :=
  Ok (order_by bill_date true
        (filter (fun r => negb (is_draft r)
                          && (a <=? bill_date r) && (bill_date r <=? b))
                (bills s))).

(** [from("settings").select(...).single()] *)
Definition the_settings (s : t) : Response Settings := single (settings s).

End WithNumbers.
End Store.

(** ** The environment of a page and the monad of its handlers *)

Section Environment.
Context {N : JsNumber}.

(** A notification: [toast({ title, description, variant })]. *)
Record Toast := {
  toast_title : string;
  toast_description : option string;
  toast_destructive : bool
}.

(** The requests the pages send to the store. *)
Inductive Request :=
| SelectSettings
| SelectDrafts
| SelectFinalizedSince (t0 : Z)
| UpdateBill (b : Id) (d : Store.BillData)
| DeleteItemsOf (b : Id)
| InsertBill (d : Store.BillData)
| InsertItems (rows : list Store.ItemData)
| SelectBill (b : Id)
| SelectItemsOf (b : Id)
| DeleteBill (b : Id)
| SelectHistory
| SelectFinalizedBetween (a b : Z).

(** A document written to a print window. *)
Record Printout := {
  doc_title : string;
  doc_receipt : string
}.

(** What a handler runs against: the store; the faults the next requests
    meet ([Some msg] makes the request fail with [msg] before it reaches
    the store, [None] lets it through, requests beyond the list go
    through); the requests sent and the toasts shown so far, oldest first;
    the documents printed; whether the browser blocks pop-ups; the
    browser clock. *)
Record Env := {
  store : Store.t;
  faults : list (option string);
  log : list Request;
  toasts : list Toast;
  printed : list Printout;
  popups_blocked : bool;
  now : Z
}.

Definition M (S A : Type) : Type := S -> Env -> A * S * Env.

Definition ret {S A} (a : A) : M S A := fun st e => (a, st, e).

Definition bind {S A B} (c : M S A) (k : A -> M S B) : M S B :=
  fun st e => let '(a, st1, e1) := c st e in k a st1 e1.

Definition get {S} : M S S := fun st e => (st, st, e).

Definition modify {S} (f : S -> S) : M S unit := fun st e => (tt, f st, e).

Definition env {S} : M S Env := fun st e => (e, st, e).

Definition toast {S} (title : string) (description : option string)
    (destructive : bool) : M S unit :=
  fun st e =>
    (tt, st,
     {| store := store e;
        faults := faults e;
        log := log e;
        toasts := (toasts e ++ [ {| toast_title := title;
                                   toast_description := description;
                                   toast_destructive := destructive |} ])%list;
        printed := printed e;
        popups_blocked := popups_blocked e;
        now := now e |}).

Definition print {S} (title receipt : string) : M S unit :=
  fun st e =>
    (tt, st,
     {| store := store e;
        faults := faults e;
        log := log e;
        toasts := toasts e;
        printed := (printed e ++ [ {| doc_title := title;
                                     doc_receipt := receipt |} ])%list;
        popups_blocked := popups_blocked e;
        now := now e |}).

Definition next_fault (fs : list (option string))
  : option string * list (option string) :=
  match fs with
  | [] => (None, [])
  | f :: rest => (f, rest)
  end.

(** One awaited round trip: the request is logged; it fails with the
    pending fault, or the store executes it. *)
Definition request {S A} (r : Request)
    (exec : Store.t -> Response A * Store.t) : M S (Response A) :=
  fun st e =>
    let '(f, rest) := next_fault (faults e) in
    let '(res, s) :=
      match f with
      | Some msg => (Err msg, store e)
      | None => exec (store e)
      end in
    (res, st,
     {| store := s;
        faults := rest;
        log := (log e ++ [r])%list;
        toasts := toasts e;
        printed := printed e;
        popups_blocked := popups_blocked e;
        now := now e |}).

(** [data] of a response: [null] on error. *)
Definition data_of {A} (r : Response A) : option A :=
  match r with
  | Ok d => Some d
  | Err _ => None
  end.

End Environment.

Notation "x <- c ;; k" := (bind c (fun x => k))
  (at level 61, c at next level, right associativity).
Notation "c ;;; k" := (bind c (fun _ => k))
  (at level 61, right associativity).

Definition newline : string := String (ascii_of_nat 10) EmptyString.

(** ** The billing page *)

Module Billing.
Section Page.
Context {N : JsNumber} {DB : Columns} {L : Locale}.

Record MenuItem := {
  mi_id : Id;
  mi_name : string;
  mi_price : num;
  mi_category : string
}.

Record CartItem := {
  ci_id : Id;
  ci_name : string;
  ci_price : num;
  ci_quantity : Z;
  ci_category : string
}.

(** The [useState] cells of the component (the menu list and the search
    box only feed the rendering and are left out). *)
Record State := {
  cart : list CartItem;
  settings : Store.Settings;
  discount : num;
  paymentMethod : string;
  savedBills : list Store.Bill;
  currentBillId : option Id;
  todayRevenue : num
}.

Definition initial : State :=
  {| cart := [];
     settings := {| Store.shop_name := "My Shop";
                    Store.shop_phone := None;
                    Store.tax_percentage := of_Z 5 |};
     discount := of_Z 0;
     paymentMethod := "";
     savedBills := [];
     currentBillId := None;
     todayRevenue := of_Z 0 |}.

Definition setCart (c : list CartItem) (st : State) : State :=
  {| cart := c; settings := settings st; discount := discount st;
     paymentMethod := paymentMethod st; savedBills := savedBills st;
     currentBillId := currentBillId st; todayRevenue := todayRevenue st |}.

Definition setSettings (s : Store.Settings) (st : State) : State :=
  {| cart := cart st; settings := s; discount := discount st;
     paymentMethod := paymentMethod st; savedBills := savedBills st;
     currentBillId := currentBillId st; todayRevenue := todayRevenue st |}.

Definition setDiscount (d : num) (st : State) : State :=
  {| cart := cart st; settings := settings st; discount := d;
     paymentMethod := paymentMethod st; savedBills := savedBills st;
     currentBillId := currentBillId st; todayRevenue := todayRevenue st |}.

Definition setPaymentMethod (p : string) (st : State) : State :=
  {| cart := cart st; settings := settings st; discount := discount st;
     paymentMethod := p; savedBills := savedBills st;
     currentBillId := currentBillId st; todayRevenue := todayRevenue st |}.

Definition setSavedBills (l : list Store.Bill) (st : State) : State :=
  {| cart := cart st; settings := settings st; discount := discount st;
     paymentMethod := paymentMethod st; savedBills := l;
     currentBillId := currentBillId st; todayRevenue := todayRevenue st |}.

Definition setCurrentBillId (b : option Id) (st : State) : State :=
  {| cart := cart st; settings := settings st; discount := discount st;
     paymentMethod := paymentMethod st; savedBills := savedBills st;
     currentBillId := b; todayRevenue := todayRevenue st |}.

Definition setTodayRevenue (r : num) (st : State) : State :=
  {| cart := cart st; settings := settings st; discount := discount st;
     paymentMethod := paymentMethod st; savedBills := savedBills st;
     currentBillId := currentBillId st; todayRevenue := r |}.

Definition withQuantity (q : Z) (c : CartItem) : CartItem :=
  {| ci_id := ci_id c; ci_name := ci_name c; ci_price := ci_price c;
     ci_quantity := q; ci_category := ci_category c |}.

(** *** Reads on page load *)

Definition fetchSettings : M State unit :=
  r <- request SelectSettings (Store.read Store.the_settings) ;;
  match r with
  | Ok data => modify (setSettings data)
  | Err _ => ret tt
  end.

Definition fetchTodayRevenue : M State unit :=
  e <- env ;;
  let today := startOfDay (now e) in
  r <- request (SelectFinalizedSince today)
         (Store.read (Store.finalized_since today)) ;;
  let revenue :=
    match r with
    | Ok data =>
        let sum := fold_left (fun sum bill => add sum (Store.bill_total bill))
                     data (of_Z 0) in
        if truthy sum then sum else of_Z 0
    | Err _ => of_Z 0
    end in
  modify (setTodayRevenue revenue).

Definition fetchSavedBills : M State unit :=
  r <- request SelectDrafts (Store.read Store.drafts) ;;
  modify (setSavedBills match r with Ok data => data | Err _ => [] end).

(** *** Cart handlers *)

Definition addToCart (item : MenuItem) (st : State) : State :=
  match find (fun c => Nat.eqb (ci_id c) (mi_id item)) (cart st) with
  | Some _ =>
      setCart
        (map (fun c => if Nat.eqb (ci_id c) (mi_id item)
                       then withQuantity (ci_quantity c + 1) c
                       else c)
             (cart st)) st
  | None =>
      setCart
        (cart st ++ [ {| ci_id := mi_id item;
                         ci_name := mi_name item;
                         ci_price := mi_price item;
                         ci_quantity := 1;
                         ci_category := mi_category item |} ])%list st
  end.

Definition updateQuantity (id : Id) (change : Z) (st : State) : State :=
  setCart
    (filter (fun item => 0 <? ci_quantity item)
       (map (fun item => if Nat.eqb (ci_id item) id
                         then withQuantity
                                (Z.max 0 (ci_quantity item + change)) item
                         else item)
          (cart st))) st.

Definition removeItem (id : Id) (st : State) : State :=
  setCart (filter (fun item => negb (Nat.eqb (ci_id item) id)) (cart st)) st.

(** *** Totals *)

Record Totals := {
  subtotal : num;
  taxAmount : num;
  total : num
}.

Definition calculateTotals (st : State) : Totals :=
  let subtotal :=
    fold_left (fun sum item =>
                 add sum (mul (ci_price item) (of_Z (ci_quantity item))))
      (cart st) (of_Z 0) in
  let taxAmount :=
    div (mul subtotal (Store.tax_percentage (settings st))) (of_Z 100) in
  let total := sub (add subtotal taxAmount) (discount st) in
  {| subtotal := subtotal; taxAmount := taxAmount; total := total |}.

(** *** Receipt *)

Definition center (text : string) (width : Z) : string :=
  let padding :=
    Z.max 0 ((width - Z.of_nat (String.length text)) / 2) in
  Str.spaces (Z.to_nat padding) ++ text.

Definition line (left right : string) (width : Z) : string :=
  let space :=
    width - Z.of_nat (String.length left) - Z.of_nat (String.length right) in
  left ++ Str.spaces (Z.to_nat (Z.max 1 space)) ++ right.

Definition divider : string := Str.repeat "-"%char 32.

(** The body of [items.forEach]: the text one item adds to the receipt. *)
Definition itemLine (item : Store.BillItem) : string :=
  let name :=
    if (16 <? String.length (Store.item_name_snapshot item))%nat
    then Str.substring0 (Store.item_name_snapshot item) 13 ++ "..."
    else Str.padEnd (Store.item_name_snapshot item) 16 in
  let qty := Str.padStart (Str.ofZ (Store.item_quantity item)) 3 in
  let price := Str.padStart (toFixed2 (Store.item_price_snapshot item)) 5 in
  let total := Str.padStart (toFixed2 (Store.item_line_total item)) 6 in
  name ++ " " ++ qty ++ " " ++ price ++ " " ++ total ++ newline.

Definition rs (x : num) : string := "Rs." ++ toFixed2 x.

Definition receiptText (st : State) (bill : Store.Bill)
    (items : list Store.BillItem) : string :=
  let s := settings st in
  let r := "" in
  let r := r ++ center (Store.shop_name s) 32 ++ newline in
  let r :=
    match Store.shop_phone s with
    | Some phone =>
        if Str.truthy phone
        then r ++ center ("Ph: " ++ phone) 32 ++ newline else r
    | None => r
    end in
  let r := r ++ divider ++ newline in
  let r := r ++ "Bill #: " ++ Str.ofZ (Store.bill_number bill) ++ newline in
  let r :=
    r ++ "Date: " ++ formatDateTime (Store.bill_date bill) ++ newline in
  let r :=
    match Store.bill_payment_method bill with
    | Some method =>
        if Str.truthy method
        then r ++ "Payment: " ++ method ++ newline else r
    | None => r
    end in
  let r := r ++ divider ++ newline in
  let r := r ++ "Item             Qty Price Total" ++ newline in
  let r := r ++ divider ++ newline in
  let r := fold_left (fun r item => r ++ itemLine item) items r in
  let r := r ++ divider ++ newline in
  let r := r ++ line "Subtotal:" (rs (Store.bill_subtotal bill)) 32
             ++ newline in
  let r := r ++ line ("Tax (" ++ toString (Store.tax_percentage s) ++ "%):")
                  (rs (Store.bill_tax_amount bill)) 32 ++ newline in
  let r :=
    if gtb (Store.bill_discount bill) (of_Z 0)
    then r ++ line "Discount:" (rs (Store.bill_discount bill)) 32 ++ newline
    else r in
  let r := r ++ divider ++ newline in
  let r := r ++ line "TOTAL:" (rs (Store.bill_total bill)) 32 ++ newline in
  let r := r ++ divider ++ newline in
  let r := r ++ center "Thank you!" 32 ++ newline in
  r ++ center "Visit again!" 32 ++ newline ++ newline ++ newline.

Definition printBill (billId : Id) : M State unit :=
  rb <- request (SelectBill billId) (Store.read (Store.bill_by_id billId)) ;;
  ri <- request (SelectItemsOf billId) (Store.read (Store.items_of billId)) ;;
  match rb, ri with
  | Ok bill, Ok items =>
      e <- env ;;
      if popups_blocked e then ret tt
      else
        st <- get ;;
        print ("Bill #" ++ Str.ofZ (Store.bill_number bill))
              (receiptText st bill items)
  | _, _ => ret tt
  end.

(** *** Saving, loading and clearing *)

Definition clearCart (st : State) : State :=
  setCurrentBillId None
    (setPaymentMethod "" (setDiscount (of_Z 0) (setCart [] st))).

Definition billDataOf (printAfter : bool) (st : State) : Store.BillData :=
  let t := calculateTotals st in
  {| Store.d_subtotal := subtotal t;
     Store.d_tax_amount := taxAmount t;
     Store.d_discount := discount st;
     Store.d_total := total t;
     Store.d_payment_method :=
       if Str.truthy (paymentMethod st) then Some (paymentMethod st)
       else None;
     Store.d_status := if printAfter then "printed" else "draft" |}.

Definition itemsOf (billId : Id) (c : list CartItem) : list Store.ItemData :=
  map (fun item =>
         {| Store.i_bill_id := billId;
            Store.i_item_name_snapshot := ci_name item;
            Store.i_price_snapshot := ci_price item;
            Store.i_quantity := ci_quantity item;
            Store.i_line_total :=
              mul (ci_price item) (of_Z (ci_quantity item)) |}) c.

(** [printBill], [fetchSavedBills] and [fetchTodayRevenue] are started
    without [await]; they only read the store, and their requests are
    taken in the order the calls are written. *)
Definition saveBill (printAfter : bool) : M State unit :=
  st <- get ;;
  match cart st with
  | [] => toast "Cart is empty" None true
  | _ :: _ =>
      let billData := billDataOf printAfter st in
      (* the bill row: [Some billId] when written, [None] after a return *)
      written <-
        match currentBillId st with
        | Some current =>
            r <- request (UpdateBill current billData)
                   (Store.update_bill billData current) ;;
            match r with
            | Err message =>
                toast "Error updating bill" (Some message) true ;;;
                ret None
            | Ok _ =>
                request (DeleteItemsOf current)
                  (Store.delete_items_of current) ;;;
                ret (Some current)
            end
        | None =>
            r <- request (InsertBill billData)
                   (Store.insert_bill billData) ;;
            match r with
            | Err message =>
                toast "Error creating bill" (Some message) true ;;;
                ret None
            | Ok bill => ret (Some (Store.bill_id bill))
            end
        end ;;
      match written with
      | None => ret tt
      | Some billId =>
          let items := itemsOf billId (cart st) in
          r <- request (InsertItems items) (Store.insert_items items) ;;
          match r with
          | Err message => toast "Error saving items" (Some message) true
          | Ok _ =>
              toast (if printAfter then "Bill saved & printed!"
                     else "Bill saved!")
                    (Some "Successfully saved.") false ;;;
              (if printAfter then printBill billId else ret tt) ;;;
              modify clearCart ;;;
              fetchSavedBills ;;;
              fetchTodayRevenue
          end
      end
  end.

Definition loadBill (billId : Id) : M State unit :=
  ri <- request (SelectItemsOf billId) (Store.read (Store.items_of billId)) ;;
  match ri with
  | Err _ => ret tt
  | Ok billItems =>
      rb <- request (SelectBill billId)
              (Store.read (Store.bill_by_id billId)) ;;
      modify (setCart
                (map (fun item =>
                        {| ci_id := Store.item_id item;
                           ci_name := Store.item_name_snapshot item;
                           ci_price := Store.item_price_snapshot item;
                           ci_quantity := Store.item_quantity item;
                           ci_category := "Uncategorized" |})
                     billItems)) ;;;
      match rb with
      | Ok billData =>
          modify (setDiscount (Store.bill_discount billData)) ;;;
          modify (setPaymentMethod
                    match Store.bill_payment_method billData with
                    | Some method => if Str.truthy method then method else ""
                    | None => ""
                    end) ;;;
          modify (setCurrentBillId (Some billId))
      | Err _ => ret tt
      end
  end.

Definition loadBillById (billId : Id) : M State unit :=
  loadBill billId ;;;
  r <- request (SelectBill billId) (Store.read (Store.bill_by_id billId)) ;;
  match r with
  | Ok bill =>
      toast "Bill loaded"
            (Some ("Editing Bill #" ++ Str.ofZ (Store.bill_number bill)))
            false
  | Err _ => ret tt
  end.

End Page.
End Billing.

(** ** The bill history page *)

Module PreviousBills.
Section Page.
Context {N : JsNumber} {L : Locale}.

(** The [useState] cells of the component the handlers below use (the
    search box and its filtered list are left out). *)
Record State := {
  bills : list Store.Bill;
  selectedBill : option Store.Bill;
  billItems : list Store.BillItem;
  isDialogOpen : bool;
  deleteDialogOpen : bool;
  billToDelete : option Store.Bill
}.

Definition initial : State :=
  {| bills := []; selectedBill := None; billItems := [];
     isDialogOpen := false; deleteDialogOpen := false;
     billToDelete := None |}.

Definition setBills (l : list Store.Bill) (st : State) : State :=
  {| bills := l; selectedBill := selectedBill st; billItems := billItems st;
     isDialogOpen := isDialogOpen st;
     deleteDialogOpen := deleteDialogOpen st;
     billToDelete := billToDelete st |}.

Definition setSelectedBill (b : option Store.Bill) (st : State) : State :=
  {| bills := bills st; selectedBill := b; billItems := billItems st;
     isDialogOpen := isDialogOpen st;
     deleteDialogOpen := deleteDialogOpen st;
     billToDelete := billToDelete st |}.

Definition setBillItems (l : list Store.BillItem) (st : State) : State :=
  {| bills := bills st; selectedBill := selectedBill st; billItems := l;
     isDialogOpen := isDialogOpen st;
     deleteDialogOpen := deleteDialogOpen st;
     billToDelete := billToDelete st |}.

Definition setIsDialogOpen (o : bool) (st : State) : State :=
  {| bills := bills st; selectedBill := selectedBill st;
     billItems := billItems st; isDialogOpen := o;
     deleteDialogOpen := deleteDialogOpen st;
     billToDelete := billToDelete st |}.

Definition setDeleteDialogOpen (o : bool) (st : State) : State :=
  {| bills := bills st; selectedBill := selectedBill st;
     billItems := billItems st; isDialogOpen := isDialogOpen st;
     deleteDialogOpen := o; billToDelete := billToDelete st |}.

Definition setBillToDelete (b : option Store.Bill) (st : State) : State :=
  {| bills := bills st; selectedBill := selectedBill st;
     billItems := billItems st; isDialogOpen := isDialogOpen st;
     deleteDialogOpen := deleteDialogOpen st; billToDelete := b |}.

Definition fetchBills : M State unit :=
  r <- request SelectHistory (Store.read Store.history) ;;
  match r with
  | Err message => toast "Error" (Some message) true
  | Ok data => modify (setBills data)
  end.

Definition viewBill (bill : Store.Bill) : M State unit :=
  r <- request (SelectItemsOf (Store.bill_id bill))
         (Store.read (Store.items_of (Store.bill_id bill))) ;;
  match r with
  | Err message => toast "Error" (Some message) true
  | Ok data =>
      modify (setSelectedBill (Some bill)) ;;;
      modify (setBillItems data) ;;;
      modify (setIsDialogOpen true)
  end.

Definition confirmDelete (bill : Store.Bill) (st : State) : State :=
  setDeleteDialogOpen true (setBillToDelete (Some bill) st).

Definition deleteBill : M State unit :=
  st <- get ;;
  match billToDelete st with
  | None => ret tt
  | Some bill =>
      (* Delete bill items first *)
      request (DeleteItemsOf (Store.bill_id bill))
        (Store.delete_items_of (Store.bill_id bill)) ;;;
      (* Then delete the bill *)
      r <- request (DeleteBill (Store.bill_id bill))
             (Store.delete_bill (Store.bill_id bill)) ;;
      match r with
      | Err message => toast "Error" (Some message) true
      | Ok _ =>
          toast "Bill deleted"
                (Some ("Bill #" ++ Str.ofZ (Store.bill_number bill)
                         ++ " has been deleted."))
                false ;;;
          fetchBills
      end ;;;
      modify (setDeleteDialogOpen false) ;;;
      modify (setBillToDelete None)
  end.

(** *** Receipt *)

Definition center (text : string) (width : Z) : string :=
  let padding :=
    Z.max 0 ((width - Z.of_nat (String.length text)) / 2) in
  Str.spaces (Z.to_nat padding) ++ text.

Definition line (left right : string) (width : Z) : string :=
  let space :=
    width - Z.of_nat (String.length left) - Z.of_nat (String.length right) in
  left ++ Str.spaces (Z.to_nat (Z.max 1 space)) ++ right.

Definition divider : string := Str.repeat "-"%char 32.

(** The body of [billItems.forEach]. *)
Definition itemLine (item : Store.BillItem) : string :=
  let name :=
    if (16 <? String.length (Store.item_name_snapshot item))%nat
    then Str.substring0 (Store.item_name_snapshot item) 13 ++ "..."
    else Str.padEnd (Store.item_name_snapshot item) 16 in
  let qty := Str.padStart (Str.ofZ (Store.item_quantity item)) 3 in
  let price := Str.padStart (toFixed2 (Store.item_price_snapshot item)) 5 in
  let total := Str.padStart (toFixed2 (Store.item_line_total item)) 6 in
  name ++ " " ++ qty ++ " " ++ price ++ " " ++ total ++ newline.

Definition rs (x : num) : string := "Rs." ++ toFixed2 x.

Definition receiptText (settings : option Store.Settings)
    (selectedBill : Store.Bill) (billItems : list Store.BillItem) : string :=
  let shop :=
    match settings with
    | Some s => if Str.truthy (Store.shop_name s) then Store.shop_name s
                else "My Shop"
    | None => "My Shop"
    end in
  let tax :=
    match settings with
    | Some s => if truthy (Store.tax_percentage s)
                then Store.tax_percentage s else of_Z 0
    | None => of_Z 0
    end in
  let r := "" in
  let r := r ++ center shop 32 ++ newline in
  let r :=
    match settings with
    | Some {| Store.shop_phone := Some phone |} =>
        if Str.truthy phone
        then r ++ center ("Ph: " ++ phone) 32 ++ newline else r
    | _ => r
    end in
  let r := r ++ divider ++ newline in
  let r :=
    r ++ "Bill #: " ++ Str.ofZ (Store.bill_number selectedBill) ++ newline in
  let r :=
    r ++ "Date: " ++ formatDateTime (Store.bill_date selectedBill)
      ++ newline in
  let r :=
    match Store.bill_payment_method selectedBill with
    | Some method =>
        if Str.truthy method
        then r ++ "Payment: " ++ method ++ newline else r
    | None => r
    end in
  let r := r ++ divider ++ newline in
  let r := r ++ "Item             Qty Price Total" ++ newline in
  let r := r ++ divider ++ newline in
  let r := fold_left (fun r item => r ++ itemLine item) billItems r in
  let r := r ++ divider ++ newline in
  let r := r ++ line "Subtotal:" (rs (Store.bill_subtotal selectedBill)) 32
             ++ newline in
  let r := r ++ line ("Tax (" ++ toString tax ++ "%):")
                  (rs (Store.bill_tax_amount selectedBill)) 32 ++ newline in
  let r :=
    if gtb (Store.bill_discount selectedBill) (of_Z 0)
    then r ++ line "Discount:" (rs (Store.bill_discount selectedBill)) 32
           ++ newline
    else r in
  let r := r ++ divider ++ newline in
  let r := r ++ line "TOTAL:" (rs (Store.bill_total selectedBill)) 32
             ++ newline in
  let r := r ++ divider ++ newline in
  let r := r ++ center "Thank you!" 32 ++ newline in
  r ++ center "Visit again!" 32 ++ newline ++ newline ++ newline.

Definition printBill : M State unit :=
  st <- get ;;
  match selectedBill st with
  | None => ret tt
  | Some bill =>
      r <- request SelectSettings (Store.read Store.the_settings) ;;
      e <- env ;;
      if popups_blocked e then ret tt
      else
        print ("Bill #" ++ Str.ofZ (Store.bill_number bill))
              (receiptText (data_of r) bill (billItems st))
  end.

End Page.
End PreviousBills.

(** ** The revenue report page *)

Module Reports.
Section Page.
Context {N : JsNumber} {L : Locale}.

Record RevenueData := {
  rd_date : string;
  rd_revenue : num;
  rd_bills : Z
}.

Record PaymentMethodData := {
  pm_method : string;
  pm_amount : num;
  pm_count : Z
}.

(** The [useState] cells of the component (the period buttons only set
    [startDate] and [endDate]). *)
Record State := {
  startDate : Z;
  endDate : Z;
  revenueData : list RevenueData;
  paymentData : list PaymentMethodData;
  totalRevenue : num;
  totalBills : Z;
  avgBillValue : num
}.

Definition setAggregates (rev : list RevenueData)
    (pay : list PaymentMethodData) (total : num) (count : Z) (avg : num)
    (st : State) : State :=
  {| startDate := startDate st; endDate := endDate st;
     revenueData := rev; paymentData := pay;
     totalRevenue := total; totalBills := count; avgBillValue := avg |}.

(** An object used as a map from string keys to an accumulated amount and
    a count; [Object.entries] lists the keys in the order they were first
    written. *)
Definition Groups : Type := list (string * (num * Z)).

(** [if (!g[key]) g[key] = { 0, 0 }; g[key].amount += x; g[key].count += 1] *)
Fixpoint accumulate (key : string) (x : num) (g : Groups) : Groups :=
  match g with
  | [] => [(key, (add (of_Z 0) x, 0 + 1))]
  | (k, (amount, count)) :: rest =>
      if String.eqb k key then (k, (add amount x, count + 1)) :: rest
      else (k, (amount, count)) :: accumulate key x rest
  end.

Definition groupedByDate (bills : list Store.Bill) : Groups :=
  fold_left (fun g bill =>
               accumulate (formatDay (Store.bill_date bill))
                 (Store.bill_total bill) g)
    bills [].

Definition methodOf (bill : Store.Bill) : string :=
  match Store.bill_payment_method bill with
  | Some method => if Str.truthy method then method else "Not Specified"
  | None => "Not Specified"
  end.

Definition paymentMethods (bills : list Store.Bill) : Groups :=
  fold_left (fun g bill =>
               accumulate (methodOf bill) (Store.bill_total bill) g)
    bills [].

Definition fetchRevenueData : M State unit :=
  st <- get ;;
  r <- request (SelectFinalizedBetween (startDate st) (endDate st))
         (Store.read (Store.finalized_between (startDate st) (endDate st))) ;;
  match r with
  | Err message => toast "Error" (Some message) true
  | Ok [] => modify (setAggregates [] [] (of_Z 0) 0 (of_Z 0))
  | Ok bills =>
      (* Calculate totals *)
      let total :=
        fold_left (fun sum bill => add sum (Store.bill_total bill))
          bills (of_Z 0) in
      let count := Z.of_nat (List.length bills) in
      let avg := div total (of_Z count) in
      (* Group by date for chart *)
      let chartData :=
        map (fun '(date, (revenue, n)) =>
               {| rd_date := date; rd_revenue := round2 revenue;
                  rd_bills := n |})
            (groupedByDate bills) in
      (* Group by payment method *)
      let paymentChartData :=
        map (fun '(method, (amount, n)) =>
               {| pm_method := Str.capitalize method;
                  pm_amount := round2 amount; pm_count := n |})
            (paymentMethods bills) in
      modify (setAggregates chartData paymentChartData total count avg)
  end.

End Page.
End Reports.

(** ** Running a handler *)

Definition stateOf {S E A} (x : A * S * E) : S := snd (fst x).
Definition envOf {S E A} (x : A * S * E) : E := snd x.

(** ** The stages of [saveBill]

    [saveBill] cut at its [await]s, and the line update shared by the cart
    handlers; [saveBill_stages] and the cart lemmas below relate them to the
    handlers. *)

Module Stage.
Section Page.
Context {N : JsNumber} {DB : Columns} {L : Locale}.

(** The line with id [id] gets the quantity [q] computes, the others stay. *)
Definition requantify (id : Id) (q : Z -> Z) (c : Billing.CartItem)
  : Billing.CartItem :=
  if Nat.eqb (Billing.ci_id c) id
  then Billing.withQuantity (q (Billing.ci_quantity c)) c else c.

(** The request that writes the bill row. *)
Definition writeRequest (current : option Id) (d : Store.BillData) : Request :=
  match current with
  | Some b => UpdateBill b d
  | None => InsertBill d
  end.

(** The store once it has executed the bill write. *)
Definition written (current : option Id) (d : Store.BillData) (s : Store.t)
  : Store.t :=
  match current with
  | Some b => snd (Store.update_bill d b s)
  | None => snd (Store.insert_bill d s)
  end.

(** The id of the bill row written: the bound id, or the key the store
    gives to the inserted row. *)
Definition writtenId (current : option Id) (s : Store.t) : Id :=
  match current with
  | Some b => b
  | None => Store.next_id s
  end.

(** The update-or-insert of the bill row: [Some billId] when the bill was
    written, [None] when the handler returns. *)
Definition writeBill (d : Store.BillData) (current : option Id)
  : M Billing.State (option Id) :=
  match current with
  | Some cur =>
      r <- request (UpdateBill cur d) (Store.update_bill d cur) ;;
      match r with
      | Err message =>
          toast "Error updating bill" (Some message) true ;;;
          ret None
      | Ok _ =>
          request (DeleteItemsOf cur) (Store.delete_items_of cur) ;;;
          ret (Some cur)
      end
  | None =>
      r <- request (InsertBill d) (Store.insert_bill d) ;;
      match r with
      | Err message =>
          toast "Error creating bill" (Some message) true ;;;
          ret None
      | Ok bill => ret (Some (Store.bill_id bill))
      end
  end.

Definition successToast (printAfter : bool) : Toast :=
  {| toast_title := if printAfter then "Bill saved & printed!"
                    else "Bill saved!";
     toast_description := Some "Successfully saved.";
     toast_destructive := false |}.

(** What follows the successful insertion of the items. *)
Definition finish (printAfter : bool) (billId : Id) : M Billing.State unit :=
  toast (if printAfter then "Bill saved & printed!" else "Bill saved!")
        (Some "Successfully saved.") false ;;;
  (if printAfter then Billing.printBill billId else ret tt) ;;;
  modify Billing.clearCart ;;;
  Billing.fetchSavedBills ;;;
  Billing.fetchTodayRevenue.

(** The insertion of the items and what follows it. *)
Definition insertItems (printAfter : bool) (c : list Billing.CartItem)
    (billId : Id) : M Billing.State unit :=
  r <- request (InsertItems (Billing.itemsOf billId c))
         (Store.insert_items (Billing.itemsOf billId c)) ;;
  match r with
  | Err message => toast "Error saving items" (Some message) true
  | Ok _ => finish printAfter billId
  end.

(** Whether the database takes the bill row. *)
Definition accepted (d : Store.BillData) : bool :=
  match Store.checked_bill d with
  | Ok _ => true
  | Err _ => false
  end.

(** The store once [writeBill] is over, when its first request met no
    fault: the deletion of the old items is the second request of an
    update, sent when the update was accepted, and may itself fail, which
    the handler ignores. *)
Definition afterWrite (cur : option Id) (d : Store.BillData)
    (fs : list (option string)) (s : Store.t) : Store.t :=
  match cur with
  | None => snd (Store.insert_bill d s)
  | Some b =>
      if accepted d then
        match nth 1 fs None with
        | Some _ => snd (Store.update_bill d b s)
        | None =>
            snd (Store.delete_items_of b (snd (Store.update_bill d b s)))
        end
      else s
  end.

(** The item rows of the bill written that were in the store before: the
    old lines of an updated bill, when the deletion the page sends after
    the update failed. *)
Definition keptItems (cur : option Id) (fs : list (option string))
    (s : Store.t) : list Store.BillItem :=
  match cur, nth 1 fs None with
  | Some b, Some _ =>
      filter (fun i => Nat.eqb (Store.item_bill_id i) b) (Store.bill_items s)
  | _, _ => []
  end.

(** The number of requests [writeBill] sends when the first succeeds. *)
Definition writeRequests (cur : option Id) : nat :=
  match cur with Some _ => 2%nat | None => 1%nat end.

(** [e'] is [e] with one more toast, a destructive one. *)
Definition failed (e e' : Env) : Prop :=
  exists t, toasts e' = (toasts e ++ [t])%list /\ toast_destructive t = true.

(** The cart line [loadBill] builds from an item row. *)
Definition cartLineOf (item : Store.BillItem) : Billing.CartItem :=
  {| Billing.ci_id := Store.item_id item;
     Billing.ci_name := Store.item_name_snapshot item;
     Billing.ci_price := Store.item_price_snapshot item;
     Billing.ci_quantity := Store.item_quantity item;
     Billing.ci_category := "Uncategorized" |}.

(** [billData.payment_method || ""] *)
Definition loadedMethod (bill : Store.Bill) : string :=
  match Store.bill_payment_method bill with
  | Some method => if Str.truthy method then method else ""
  | None => ""
  end.

(** The cells of the session [clearCart] resets. *)
Definition composing (st : Billing.State) : Prop :=
  Billing.cart st = []
  /\ Billing.discount st = of_Z 0
  /\ Billing.paymentMethod st = ""
  /\ Billing.currentBillId st = None.

(** [e'] is [e] after some requests that left the store as it was. *)
Definition onlyRead (e e' : Env) : Prop :=
  store e' = store e
  /\ toasts e' = toasts e
  /\ (exists l, log e' = (log e ++ l)%list)
  /\ (exists k, faults e' = skipn k (faults e)).

End Page.
End Stage.

(** ** The vocabulary of the specification *)

Module Spec.
Section WithNumbers.
Context {N : JsNumber} {DB : Columns}.

(** The sum of the first [n] line totals [unit_price * quantity] of a
    cart, taken in cart order starting from 0. *)
Fixpoint sigma_upto (n : nat) (c : list Billing.CartItem) : num :=
  match n with
  | O => of_Z 0
  | S k =>
      match nth_error c k with
      | Some item =>
          add (sigma_upto k c)
              (mul (Billing.ci_price item) (of_Z (Billing.ci_quantity item)))
      | None => sigma_upto k c
      end
  end.

(** Sigma (unit_price * quantity) over the whole cart. *)
Definition sigma (c : list Billing.CartItem) : num :=
  sigma_upto (List.length c) c.

(** The cart holds at most one line per item id, and every line has a
    quantity of at least 1. *)
Definition cart_ok (c : list Billing.CartItem) : Prop :=
  NoDup (map Billing.ci_id c)
  /\ Forall (fun l => 1 <= Billing.ci_quantity l) c.

(** The store keeps its keys: bill ids are pairwise distinct and below the
    next key, and every item row references an existing bill. *)
Definition store_ok (s : Store.t) : Prop :=
  NoDup (map Store.bill_id (Store.bills s))
  /\ (forall r, In r (Store.bills s) -> (Store.bill_id r < Store.next_id s)%nat)
  /\ (forall i, In i (Store.bill_items s) ->
                Store.has_bill (Store.item_bill_id i) s = true).

(** No pending request fails before it reaches the store. *)
Definition no_faults (e : Env) : Prop :=
  Forall (fun f => f = None) (faults e).

(** The number [x] fits a [DECIMAL(10, 2)] column. *)
Definition fits (x : num) : Prop := decimal_10_2 x <> None.

(** The database takes the bill of the session and its lines: every
    amount fits its [DECIMAL(10, 2)] column and every quantity is a
    positive [INTEGER]. *)
Definition storable (st : Billing.State) : Prop :=
  fits (Billing.subtotal (Billing.calculateTotals st))
  /\ fits (Billing.taxAmount (Billing.calculateTotals st))
  /\ fits (Billing.discount st)
  /\ fits (Billing.total (Billing.calculateTotals st))
  /\ Forall (fun c =>
               fits (Billing.ci_price c)
               /\ fits (mul (Billing.ci_price c)
                          (of_Z (Billing.ci_quantity c)))
               /\ 0 < Billing.ci_quantity c <= Store.max_integer)
       (Billing.cart st).

End WithNumbers.

(** [col] is [s] right-justified in a field of [n] characters: [s]
    preceded by spaces only, [n] characters long unless [s] alone is
    longer. *)
Definition right_justified (s : string) (n : nat) (col : string) : Prop :=
  exists k, col = Str.spaces k ++ s
            /\ String.length col = Nat.max n (String.length s).

(** [p] is the string of the first [n] characters of [s]. *)
Definition first_chars (n : nat) (s p : string) : Prop :=
  String.length p = n /\ exists rest, s = p ++ rest.

End Spec.

(** ** What the pages ask the store for *)

Module View.
Section WithNumbers.
Context {N : JsNumber}.

(** The rows the "Saved Bills" panel asks for: the drafts, newest first. *)
Definition draftsOf (s : Store.t) : list Store.Bill :=
  Store.order_by Store.bill_created_at false
    (filter Store.is_draft (Store.bills s)).

(** The rows the history asks for: the bills that are no drafts, newest
    first. *)
Definition historyOf (s : Store.t) : list Store.Bill :=
  Store.order_by Store.bill_date false
    (filter (fun r => negb (Store.is_draft r)) (Store.bills s)).

(** The sum, from 0 and in table order, of the totals of the bills that are
    no drafts and are dated [t0] or later. *)
Definition totalSince (t0 : Z) (s : Store.t) : num :=
  fold_left (fun sum bill => add sum (Store.bill_total bill))
    (filter (fun r => negb (Store.is_draft r) && (t0 <=? Store.bill_date r))
       (Store.bills s))
    (of_Z 0).

(** [x || 0] *)
Definition orZero (x : num) : num := if truthy x then x else of_Z 0.

(** The sum of a list of counts. *)
Definition sumZ (l : list Z) : Z := fold_right Z.add 0 l.

End WithNumbers.
End View.

(** ** Handlers that only read *)

Module Frame.
Section WithNumbers.
Context {N : JsNumber}.

(** A handler that leaves the store as it found it, whatever the state and
    the environment it is started in. *)
Definition keepsStore {S A} (c : M S A) : Prop :=
  forall st e, store (envOf (c st e)) = store e.

End WithNumbers.
End Frame.

(** ** The groups of the report *)

Module Chart.
Section WithNumbers.
Context {N : JsNumber}.

(** The bills a report asks for: no drafts, dated within [a, b], oldest
    first. *)
Definition between (a b : Z) (s : Store.t) : list Store.Bill :=
  Store.order_by Store.bill_date true
    (filter (fun r => negb (Store.is_draft r)
                      && (a <=? Store.bill_date r) && (Store.bill_date r <=? b))
       (Store.bills s)).

(** [g[key]] *)
Fixpoint entry (key : string) (g : Reports.Groups) : option (num * Z) :=
  match g with
  | [] => None
  | (k, v) :: rest => if String.eqb k key then Some v else entry key rest
  end.

(** The bills of [rows] that [label] puts under [key]. *)
Definition labelled (label : Store.Bill -> string) (key : string)
    (rows : list Store.Bill) : list Store.Bill :=
  filter (fun bill => String.eqb (label bill) key) rows.

(** The sum, from [start] and in list order, of the totals of [rows]. *)
Definition totalFrom (start : num) (rows : list Store.Bill) : num :=
  fold_left (fun sum bill => add sum (Store.bill_total bill)) rows start.

(** The property names every JavaScript object inherits: for such a key
    [g[key]] is not empty in an empty object, and the page, which tests
    [!g[key]], adds no group of its own. *)
Definition inherited : list string :=
  ["constructor"; "__proto__"; "hasOwnProperty"; "isPrototypeOf";
   "propertyIsEnumerable"; "toLocaleString"; "toString"; "valueOf";
   "__defineGetter__"; "__defineSetter__"; "__lookupGetter__";
   "__lookupSetter__"].

(** No bill of [rows] has a label that is an inherited property name. *)
Definition ownLabels (label : Store.Bill -> string)
    (rows : list Store.Bill) : Prop :=
  Forall (fun bill => existsb (String.eqb (label bill)) inherited = false)
    rows.

(** The groups [bills.forEach] builds with [label] as the key. *)
Definition grouped (label : Store.Bill -> string) (rows : list Store.Bill)
    (g : Reports.Groups) : Reports.Groups :=
  fold_left (fun g bill =>
               Reports.accumulate (label bill) (Store.bill_total bill) g)
    rows g.

End WithNumbers.
End Chart.

(** ** The search boxes *)

Module Text.

(** [c.toLowerCase()] for a code unit below 256: the letters A-Z and the
    accented capitals (all of 192-222 but the multiplication sign). *)
Definition lower (c : ascii) : ascii :=
  let n := nat_of_ascii c in
  if ((65 <=? n) && (n <=? 90)
      || (192 <=? n) && (n <=? 222) && negb (n =? 215))%nat
  then ascii_of_nat (n + 32) else c.

Fixpoint toLowerCase (s : string) : string :=
  match s with
  | EmptyString => EmptyString
  | String c r => String (lower c) (toLowerCase r)
  end.

(** [s] with its ASCII letters in capitals. *)
Fixpoint inCapitals (s : string) : string :=
  match s with
  | EmptyString => EmptyString
  | String c r => String (Str.upper c) (inCapitals r)
  end.

(** [s.includes(q)]: [q] occurs in [s] at some position. *)
Fixpoint includes (s q : string) : bool :=
  String.prefix q s
  || match s with
     | EmptyString => false
     | String _ r => includes r q
     end.

End Text.

Module Search.
Section Page.
Context {N : JsNumber}.

(** date-fns [format(new Date(t), "dd/MM/yyyy")], in the time zone of the
    browser. *)
Variable formatDate : Z -> string.

(** The menu of the billing page narrowed by the search box. *)
Definition filteredMenuItems (menuItems : list Billing.MenuItem)
    (searchQuery : string) : list Billing.MenuItem :=
  filter (fun item =>
            Text.includes (Text.toLowerCase (Billing.mi_name item))
              (Text.toLowerCase searchQuery)
            || Text.includes (Text.toLowerCase (Billing.mi_category item))
                 (Text.toLowerCase searchQuery))
    menuItems.

(** The history narrowed by its search box: what [filterBills] hands to
    [setFilteredBills]. *)
Definition filterBills (bills : list Store.Bill) (searchQuery : string)
  : list Store.Bill :=
  if negb (Str.truthy searchQuery) then bills
  else
    let query := Text.toLowerCase searchQuery in
    filter (fun bill =>
              Text.includes (Str.ofZ (Store.bill_number bill)) query
              || match Store.bill_payment_method bill with
                 | Some method =>
                     Text.includes (Text.toLowerCase method) query
                 | None => false
                 end
              || Text.includes (formatDate (Store.bill_date bill)) query)
      bills.

End Page.
End Search.

(** ** A shop to run the pages on: exact arithmetic, UTC *)

Module Example.

Definition tea : Billing.MenuItem :=
  {| Billing.mi_id := 7%nat; Billing.mi_name := "Masala tea";
     Billing.mi_price := 100%Q; Billing.mi_category := "Drinks" |}.

Definition cart1 : list Billing.CartItem :=
  [ {| Billing.ci_id := 7%nat; Billing.ci_name := "Masala tea";
       Billing.ci_price := 100%Q; Billing.ci_quantity := 2;
       Billing.ci_category := "Drinks" |} ].

(** cart = [{price: 100, qty: 2}], tax = 5%, discount = 10, paid in cash *)
Definition composing : Billing.State :=
  Billing.setPaymentMethod "cash"
    (Billing.setDiscount 10%Q (Billing.setCart cart1 Billing.initial)).

Definition emptyStore : Store.t :=
  {| Store.bills := []; Store.bill_items := [];
     Store.settings := [ {| Store.shop_name := "My Shop";
                            Store.shop_phone := None;
                            Store.tax_percentage := 5%Q |} ];
     Store.next_id := 0%nat; Store.next_bill_number := 1;
     Store.clock := 1000 |}.

Definition env0 : Env :=
  {| store := emptyStore; faults := []; log := []; toasts := [];
     printed := []; popups_blocked := false; now := 1000 |}.

(** A store with a draft (bill 0, one item) and a printed bill (bill 2, one
    item). *)
Definition bill0 : Store.Bill :=
  {| Store.bill_id := 0%nat; Store.bill_number := 1; Store.bill_date := 2000;
     Store.bill_subtotal := 200%Q; Store.bill_tax_amount := 10%Q;
     Store.bill_discount := 0%Q; Store.bill_total := 210%Q;
     Store.bill_payment_method := None; Store.bill_status := "draft";
     Store.bill_created_at := 2000 |}.

Definition bill2 : Store.Bill :=
  {| Store.bill_id := 2%nat; Store.bill_number := 2; Store.bill_date := 9000;
     Store.bill_subtotal := 30%Q; Store.bill_tax_amount := (3 # 2)%Q;
     Store.bill_discount := 0%Q; Store.bill_total := (63 # 2)%Q;
     Store.bill_payment_method := Some "card"; Store.bill_status := "printed";
     Store.bill_created_at := 9000 |}.

Definition store1 : Store.t :=
  {| Store.bills := [bill0; bill2];
     Store.bill_items :=
       [ {| Store.item_id := 1%nat; Store.item_bill_id := 0%nat;
            Store.item_name_snapshot := "Masala tea";
            Store.item_price_snapshot := 100%Q; Store.item_quantity := 2;
            Store.item_line_total := 200%Q |};
         {| Store.item_id := 3%nat; Store.item_bill_id := 2%nat;
            Store.item_name_snapshot := "Samosa";
            Store.item_price_snapshot := 15%Q; Store.item_quantity := 2;
            Store.item_line_total := 30%Q |} ];
     Store.settings := Store.settings emptyStore;
     Store.next_id := 4%nat; Store.next_bill_number := 3;
     Store.clock := 10000 |}.

Definition env1 : Env :=
  {| store := store1; faults := [None; None]; log := []; toasts := [];
     printed := []; popups_blocked := false; now := 10000 |}.

(** The draft bill 0 being edited: a second line, a discount, paid by UPI. *)
Definition editing : Billing.State :=
  Billing.setCurrentBillId (Some 0%nat)
    (Billing.setPaymentMethod "upi"
       (Billing.setDiscount (25 # 2)%Q
          (Billing.setCart
             (cart1 ++ [ {| Billing.ci_id := 9%nat; Billing.ci_name := "Samosa";
                            Billing.ci_price := 15%Q; Billing.ci_quantity := 3;
                            Billing.ci_category := "Snacks" |} ])%list
             Billing.initial))).

(** The example cart with a discount of 12.345. *)
Definition fractional : Billing.State :=
  Billing.setDiscount (2469 # 200)%Q composing.

(** The history page about to delete bill 2. *)
Definition deleting : PreviousBills.State :=
  PreviousBills.confirmDelete bill2 PreviousBills.initial.

(** A report over a range that holds the draft only. *)
Definition report : Reports.State :=
  {| Reports.startDate := 0; Reports.endDate := 5000;
     Reports.revenueData := []; Reports.paymentData := [];
     Reports.totalRevenue := 77%Q; Reports.totalBills := 3;
     Reports.avgBillValue := 25%Q |}.

(** A second menu item. *)
Definition samosa : Billing.MenuItem :=
  {| Billing.mi_id := 9%nat; Billing.mi_name := "Samosa";
     Billing.mi_price := 15%Q; Billing.mi_category := "Snacks" |}.

(** The first request fails. *)
Definition offline : Env :=
  {| store := store1; faults := [Some "Failed to fetch"]; log := [];
     toasts := []; printed := []; popups_blocked := false; now := 10000 |}.

(** The second request fails. *)
Definition flaky : Env :=
  {| store := store1; faults := [None; Some "Failed to fetch"]; log := [];
     toasts := []; printed := []; popups_blocked := false; now := 10000 |}.

(** The second request fails, on the empty store. *)
Definition dropped : Env :=
  {| store := emptyStore; faults := [None; Some "Failed to fetch"]; log := [];
     toasts := []; printed := []; popups_blocked := false; now := 1000 |}.

(** The history page showing bill 2. *)
Definition viewing : PreviousBills.State :=
  PreviousBills.setSelectedBill (Some bill2) PreviousBills.initial.

(** A report over a range that holds the printed bill. *)
Definition report2 : Reports.State :=
  {| Reports.startDate := 0; Reports.endDate := 20000;
     Reports.revenueData := []; Reports.paymentData := [];
     Reports.totalRevenue := 0%Q; Reports.totalBills := 0;
     Reports.avgBillValue := 0%Q |}.

End Example.

(** * Properties *)

Unset Implicit Arguments.

(** ** Strings *)

Lemma length_spaces (n : nat) : String.length (Str.spaces n) = n.
Proof.
  unfold Str.spaces. induction n as [|n IH]; simpl; [reflexivity | now rewrite IH].
Qed.

Lemma length_append (a b : string) :
  String.length (a ++ b) = (String.length a + String.length b)%nat.
Proof.
  induction a as [|c a IH]; simpl; [reflexivity | now rewrite IH].
Qed.

Lemma padStart_right_justified (s : string) (n : nat) :
  Spec.right_justified s n (Str.padStart s n).
Proof.
  exists (n - String.length s)%nat. split; [reflexivity|].
  unfold Str.padStart. rewrite length_append, length_spaces. lia.
Qed.

Lemma padEnd_length (s : string) (n : nat) :
  (String.length s <= n)%nat -> String.length (Str.padEnd s n) = n.
Proof.
  intros H. unfold Str.padEnd. rewrite length_append, length_spaces. lia.
Qed.

Lemma substring0_first_chars (n : nat) (s : string) :
  (n <= String.length s)%nat -> Spec.first_chars n s (Str.substring0 s n).
Proof.
  unfold Str.substring0, Spec.first_chars. revert s.
  induction n as [|n IH]; intros s H.
  - destruct s; simpl; (split; [reflexivity|]); eexists; reflexivity.
  - destruct s as [|c s]; simpl in *; [lia|].
    destruct (IH s) as [Hl [rest Hr]]; [lia|].
    split; [now rewrite Hl|]. exists rest. now rewrite <- Hr.
Qed.

(** ** Totals *)

Section Totals.
Context {N : JsNumber}.

Lemma sigma_upto_app (k : nat) (l r : list Billing.CartItem) :
  (k <= List.length l)%nat -> Spec.sigma_upto k (l ++ r) = Spec.sigma_upto k l.
Proof.
  induction k as [|k IH]; intros H; simpl; [reflexivity|].
  rewrite nth_error_app1 by lia. rewrite IH by lia. reflexivity.
Qed.

Lemma sigma_snoc (l : list Billing.CartItem) (x : Billing.CartItem) :
  Spec.sigma (l ++ [x])
  = add (Spec.sigma l)
        (mul (Billing.ci_price x) (of_Z (Billing.ci_quantity x))).
Proof.
  unfold Spec.sigma. rewrite List.length_app, Nat.add_comm. simpl.
  rewrite nth_error_app2 by lia. rewrite Nat.sub_diag. simpl.
  rewrite sigma_upto_app by lia. reflexivity.
Qed.

Lemma reduce_is_sigma (c : list Billing.CartItem) :
  fold_left (fun sum item =>
               add sum (mul (Billing.ci_price item)
                            (of_Z (Billing.ci_quantity item))))
    c (of_Z 0)
  = Spec.sigma c.
Proof.
  induction c as [|x l IH] using rev_ind; [reflexivity|].
  rewrite fold_left_app. simpl. rewrite IH, sigma_snoc. reflexivity.
Qed.

(** C2. For every cart, tax rate and discount held by the page,
    [calculateTotals] returns subtotal = Sigma (unit_price * quantity),
    tax_amount = subtotal * t / 100 and total = subtotal + tax_amount - d.
    Nothing is assumed of the discount or the tax rate: a negative
    discount or one above the subtotal is subtracted as it is. *)
Theorem calculateTotals_exact (st : Billing.State) :
  let C := Billing.cart st in
  let t := Store.tax_percentage (Billing.settings st) in
  let d := Billing.discount st in
  let r := Billing.calculateTotals st in
  Billing.subtotal r = Spec.sigma C
  /\ Billing.taxAmount r = div (mul (Spec.sigma C) t) (of_Z 100)
  /\ Billing.total r
     = sub (add (Spec.sigma C) (div (mul (Spec.sigma C) t) (of_Z 100))) d.
Proof.
  unfold Billing.calculateTotals. cbn.
  rewrite reduce_is_sigma. repeat split.
Qed.

End Totals.

(** The end-to-end scenario of the specification, and a discount larger
    than the subtotal. *)
Example calculateTotals_scenario :
  Billing.calculateTotals Example.composing
  = {| Billing.subtotal := 200%Q; Billing.taxAmount := 10%Q;
       Billing.total := 200%Q |}.
Proof. reflexivity. Qed.

Example calculateTotals_overdiscount :
  Billing.total
    (Billing.calculateTotals (Billing.setDiscount 500%Q Example.composing))
  = (-290)%Q.
Proof. reflexivity. Qed.

(** ** Receipt layout *)

Lemma center_shape (center : string -> Z -> string) (text : string) (width : Z) :
  center text width
  = Str.spaces (Z.to_nat (Z.max 0 ((width - Z.of_nat (String.length text)) / 2)))
      ++ text ->
  exists n : nat,
    center text width = Str.spaces n ++ text
    /\ Z.of_nat n = Z.max 0 ((width - Z.of_nat (String.length text)) / 2)
    /\ (Z.of_nat (String.length text) <= width ->
        2 * Z.of_nat n <= width - Z.of_nat (String.length text)
                       < 2 * Z.of_nat n + 2)
    /\ (width < Z.of_nat (String.length text) -> n = 0%nat).
Proof.
  intros E. eexists. split; [exact E|].
  set (d := width - Z.of_nat (String.length text)).
  assert (Hd : 2 * (d / 2) <= d < 2 * (d / 2) + 2).
  { pose proof (Z.div_mod d 2) as H1. pose proof (Z.mod_pos_bound d 2) as H2.
    lia. }
  repeat split; intros; try lia.
Qed.

(** C6. For every string and width, both copies of the receipt's [center]
    return the string prefixed by exactly max(0, floor((w - length)/2))
    spaces: the count [n] is that floor when the text fits (2n <= w - length
    < 2n + 2) and 0 when the text is longer than the width; and
    center("Shop", 32) is 14 spaces followed by "Shop". *)
Theorem center_leading_spaces (s : string) (w : Z) :
  (exists n : nat,
      Billing.center s w = Str.spaces n ++ s
      /\ PreviousBills.center s w = Str.spaces n ++ s
      /\ Z.of_nat n = Z.max 0 ((w - Z.of_nat (String.length s)) / 2)
      /\ (Z.of_nat (String.length s) <= w ->
          2 * Z.of_nat n <= w - Z.of_nat (String.length s) < 2 * Z.of_nat n + 2)
      /\ (w < Z.of_nat (String.length s) -> n = 0%nat))
  /\ Billing.center "Shop" 32 = "              Shop"
  /\ PreviousBills.center "Shop" 32 = "              Shop"
  /\ Str.spaces 14 ++ "Shop" = "              Shop".
Proof.
  split; [|repeat split].
  destruct (center_shape Billing.center s w eq_refl) as (n & E & Hn & H1 & H2).
  exists n. split; [exact E|]. split; [|auto].
  unfold PreviousBills.center. rewrite <- Hn, Nat2Z.id. reflexivity.
Qed.

Section ItemLine.
Context {N : JsNumber}.

(** C7. The text an item adds to the receipt (both copies of the loop body
    agree) is four columns separated by single spaces and ended by a line
    break: the name as its first 13 characters followed by "..." when it is
    longer than 16 characters (so for a 20-character name), otherwise
    padded with spaces on the right to 16 characters; the quantity
    right-justified in 3 characters, the unit price with 2 decimals in 5
    and the line total with 2 decimals in 6. *)
Theorem itemLine_columns (item : Store.BillItem) :
  let name := Store.item_name_snapshot item in
  exists nameCol qtyCol priceCol totalCol : string,
    Billing.itemLine item
    = nameCol ++ " " ++ qtyCol ++ " " ++ priceCol ++ " " ++ totalCol
        ++ newline
    /\ PreviousBills.itemLine item = Billing.itemLine item
    /\ ((16 < String.length name)%nat ->
        exists p, Spec.first_chars 13 name p /\ nameCol = p ++ "...")
    /\ ((String.length name <= 16)%nat ->
        nameCol = name ++ Str.spaces (16 - String.length name)
        /\ String.length nameCol = 16%nat)
    /\ (String.length name = 20%nat ->
        exists p, Spec.first_chars 13 name p /\ nameCol = p ++ "...")
    /\ Spec.right_justified (Str.ofZ (Store.item_quantity item)) 3 qtyCol
    /\ Spec.right_justified
         (toFixed2 (Store.item_price_snapshot item)) 5 priceCol
    /\ Spec.right_justified
         (toFixed2 (Store.item_line_total item)) 6 totalCol.
Proof.
  intros name.
  assert (Hlong : (16 < String.length name)%nat ->
                  (16 <? String.length name)%nat = true)
    by (intros; now apply Nat.ltb_lt).
  assert (Hshort : (String.length name <= 16)%nat ->
                   (16 <? String.length name)%nat = false)
    by (intros; now apply Nat.ltb_ge).
  eexists _, _, _, _. split; [reflexivity|].
  split; [reflexivity|].
  fold name.
  split; [|split; [|split]].
  - intros H. rewrite (Hlong H).
    exists (Str.substring0 name 13). split; [|reflexivity].
    apply substring0_first_chars. lia.
  - intros H. rewrite (Hshort H). split; [reflexivity|].
    now apply padEnd_length.
  - intros H. rewrite Hlong by lia.
    exists (Str.substring0 name 13). split; [|reflexivity].
    apply substring0_first_chars. lia.
  - repeat split; apply padStart_right_justified.
Qed.

End ItemLine.

Example itemLine_long_name :
  Billing.itemLine
    {| Store.item_id := 1%nat; Store.item_bill_id := 0%nat;
       Store.item_name_snapshot := "Paneer butter masala";
       Store.item_price_snapshot := (5 # 2)%Q; Store.item_quantity := 12;
       Store.item_line_total := 30%Q |}
  = "Paneer butter...  12  2.50  30.00" ++ newline.
Proof. reflexivity. Qed.

Example itemLine_short_name :
  Billing.itemLine
    {| Store.item_id := 1%nat; Store.item_bill_id := 0%nat;
       Store.item_name_snapshot := "Masala tea";
       Store.item_price_snapshot := 100%Q; Store.item_quantity := 2;
       Store.item_line_total := 200%Q |}
  = "Masala tea         2 100.00 200.00" ++ newline.
Proof. reflexivity. Qed.

(** ** The cart *)

Section Cart.
Context {N : JsNumber}.

Lemma NoDup_snoc {A} (l : list A) (x : A) :
  NoDup l -> ~ In x l -> NoDup (l ++ [x]).
Proof.
  induction 1 as [|y l Hy Hl IH]; intros Hx; simpl.
  - constructor; [intros []|constructor].
  - constructor.
    + rewrite in_app_iff. intros [H|[H|[]]]; [now apply Hy|].
      apply Hx. now left.
    + apply IH. intros H. apply Hx. now right.
Qed.

Lemma distinct_keys_filter {A} (key : A -> nat) (keep : A -> bool)
    (rows : list A) :
  NoDup (map key rows) -> NoDup (map key (filter keep rows)).
Proof.
  intros Hrows. induction rows as [|x rows IH]; simpl; [constructor|].
  simpl in Hrows. apply NoDup_cons_iff in Hrows as [Hx Hrows].
  destruct (keep x); simpl; [|now apply IH].
  constructor; [|now apply IH].
  intros Hin. apply Hx. apply in_map_iff in Hin as (y & Hy & Hin).
  apply in_map_iff. exists y. split; [assumption|].
  now apply filter_In in Hin.
Qed.

Lemma NoDup_map_eq {A B} (f : A -> B) (l : list A) (a b : A) :
  NoDup (map f l) -> In a l -> In b l -> f a = f b -> a = b.
Proof.
  induction l as [|x l IH]; simpl; intros H Ha Hb E; [contradiction|].
  inversion H as [|? ? Hx Hl]; subst.
  destruct Ha as [->|Ha], Hb as [->|Hb]; auto.
  - exfalso. apply Hx. rewrite E. now apply in_map.
  - exfalso. apply Hx. rewrite <- E. now apply in_map.
Qed.

Lemma requantify_id id q c :
  Billing.ci_id (Stage.requantify id q c) = Billing.ci_id c.
Proof. unfold Stage.requantify. now destruct (Nat.eqb (Billing.ci_id c) id). Qed.

Lemma map_requantify_ids id q (c : list Billing.CartItem) :
  map Billing.ci_id (map (Stage.requantify id q) c) = map Billing.ci_id c.
Proof.
  rewrite map_map. apply map_ext. intros a. apply requantify_id.
Qed.

Lemma addToCart_present (item : Billing.MenuItem) (st : Billing.State) :
  In (Billing.mi_id item) (map Billing.ci_id (Billing.cart st)) ->
  Billing.cart (Billing.addToCart item st)
  = map (Stage.requantify (Billing.mi_id item) (fun q => q + 1)) (Billing.cart st).
Proof.
  intros Hin. unfold Billing.addToCart.
  destruct (find _ (Billing.cart st)) eqn:F; [reflexivity|].
  exfalso. apply in_map_iff in Hin as (l & Hl & Hin).
  pose proof (find_none _ _ F l Hin) as H. simpl in H.
  rewrite Hl, Nat.eqb_refl in H. discriminate.
Qed.

Lemma addToCart_absent (item : Billing.MenuItem) (st : Billing.State) :
  ~ In (Billing.mi_id item) (map Billing.ci_id (Billing.cart st)) ->
  Billing.cart (Billing.addToCart item st)
  = (Billing.cart st
     ++ [ {| Billing.ci_id := Billing.mi_id item;
             Billing.ci_name := Billing.mi_name item;
             Billing.ci_price := Billing.mi_price item;
             Billing.ci_quantity := 1;
             Billing.ci_category := Billing.mi_category item |} ])%list.
Proof.
  intros Hout. unfold Billing.addToCart.
  destruct (find _ (Billing.cart st)) as [l|] eqn:F; [|reflexivity].
  exfalso. apply find_some in F as [Hin E]. apply Hout.
  apply in_map_iff. exists l. split; [|assumption].
  now apply Nat.eqb_eq in E.
Qed.

Lemma updateQuantity_cart id change (st : Billing.State) :
  Billing.cart (Billing.updateQuantity id change st)
  = filter (fun item => 0 <? Billing.ci_quantity item)
      (map (Stage.requantify id (fun q => Z.max 0 (q + change))) (Billing.cart st)).
Proof. reflexivity. Qed.

(** C9. The three cart handlers keep the cart with at most one line per
    item id and every quantity at least 1.  A line whose quantity would
    drop to 0 (or below) leaves the cart, otherwise it stays with the new
    quantity; adding an item that is in the cart adds 1 to the quantity of
    its line and creates no line; adding an item that is not appends a
    line of quantity 1; a removed id is no longer in the cart. *)
Theorem cart_invariant (st : Billing.State) (item : Billing.MenuItem)
    (id : Id) (change : Z) :
  Spec.cart_ok (Billing.cart st) ->
  Spec.cart_ok (Billing.cart (Billing.addToCart item st))
  /\ Spec.cart_ok (Billing.cart (Billing.updateQuantity id change st))
  /\ Spec.cart_ok (Billing.cart (Billing.removeItem id st))
  /\ (forall l, In l (Billing.cart st) -> Billing.ci_id l = id ->
        Billing.ci_quantity l + change <= 0 ->
        ~ In id (map Billing.ci_id
                   (Billing.cart (Billing.updateQuantity id change st))))
  /\ (forall l, In l (Billing.cart st) -> Billing.ci_id l = id ->
        0 < Billing.ci_quantity l + change ->
        In (Billing.withQuantity (Billing.ci_quantity l + change) l)
           (Billing.cart (Billing.updateQuantity id change st)))
  /\ (forall l, In l (Billing.cart st) ->
        Billing.ci_id l = Billing.mi_id item ->
        List.length (Billing.cart (Billing.addToCart item st))
        = List.length (Billing.cart st)
        /\ map Billing.ci_id (Billing.cart (Billing.addToCart item st))
           = map Billing.ci_id (Billing.cart st)
        /\ In (Billing.withQuantity (Billing.ci_quantity l + 1) l)
              (Billing.cart (Billing.addToCart item st)))
  /\ (~ In (Billing.mi_id item) (map Billing.ci_id (Billing.cart st)) ->
        exists l, Billing.cart (Billing.addToCart item st)
                  = (Billing.cart st ++ [l])%list
                  /\ Billing.ci_id l = Billing.mi_id item
                  /\ Billing.ci_quantity l = 1)
  /\ ~ In id (map Billing.ci_id (Billing.cart (Billing.removeItem id st))).
Proof.
  intros [Hnd Hq].
  split; [|split; [|split; [|split; [|split; [|split; [|split]]]]]].
  - (* addToCart keeps the invariant *)
    destruct (in_dec Nat.eq_dec (Billing.mi_id item)
                (map Billing.ci_id (Billing.cart st))) as [Hin|Hout].
    + rewrite (addToCart_present _ _ Hin). split.
      * now rewrite map_requantify_ids.
      * apply Forall_map. eapply Forall_impl; [|exact Hq].
        intros a Ha. unfold Stage.requantify. simpl in Ha.
        destruct (Nat.eqb (Billing.ci_id a) (Billing.mi_id item)); simpl; lia.
    + rewrite (addToCart_absent _ _ Hout). split.
      * rewrite map_app. simpl. now apply NoDup_snoc.
      * apply Forall_app. split; [assumption|].
        constructor; [simpl; lia|constructor].
  - (* updateQuantity keeps the invariant *)
    rewrite updateQuantity_cart. split.
    + apply distinct_keys_filter. now rewrite map_requantify_ids.
    + apply Forall_forall. intros a Ha. apply filter_In in Ha as [_ Ha].
      simpl in Ha. apply Z.ltb_lt in Ha. lia.
  - (* removeItem keeps the invariant *)
    unfold Billing.removeItem. simpl. split.
    + now apply distinct_keys_filter.
    + apply Forall_forall. intros a Ha. apply filter_In in Ha as [Ha _].
      rewrite Forall_forall in Hq. now apply Hq.
  - (* a quantity dropping to 0 removes the line *)
    intros l Hl Hid Hdrop Hin. rewrite updateQuantity_cart in Hin.
    apply in_map_iff in Hin as (x & Hx & Hin).
    apply filter_In in Hin as [Hin Hpos].
    apply in_map_iff in Hin as (y & Hy & Hin). subst x.
    rewrite requantify_id in Hx.
    assert (y = l) by (eapply NoDup_map_eq; eauto; congruence). subst y.
    unfold Stage.requantify in Hpos. rewrite Hid, Nat.eqb_refl in Hpos.
    simpl in Hpos. apply Z.ltb_lt in Hpos. lia.
  - (* otherwise the line stays with the new quantity *)
    intros l Hl Hid Hpos. rewrite updateQuantity_cart.
    apply filter_In. split.
    + apply in_map_iff. exists l. split; [|assumption].
      unfold Stage.requantify. rewrite Hid, Nat.eqb_refl. f_equal. lia.
    + simpl. apply Z.ltb_lt. lia.
  - (* adding an item of the cart *)
    intros l Hl Hid.
    assert (Hin : In (Billing.mi_id item)
                    (map Billing.ci_id (Billing.cart st)))
      by (apply in_map_iff; eauto).
    rewrite (addToCart_present _ _ Hin).
    split; [apply length_map|]. split; [apply map_requantify_ids|].
    apply in_map_iff. exists l. split; [|assumption].
    unfold Stage.requantify. now rewrite Hid, Nat.eqb_refl.
  - (* adding an item that is not in the cart *)
    intros Hout. rewrite (addToCart_absent _ _ Hout).
    eexists. split; [reflexivity|]. split; reflexivity.
  - (* a removed id is gone *)
    unfold Billing.removeItem. simpl. intros Hin.
    apply in_map_iff in Hin as (x & Hx & Hin).
    apply filter_In in Hin as [_ Hin].
    rewrite Hx, Nat.eqb_refl in Hin. discriminate.
Qed.

End Cart.

(** ** Saving, loading and deleting bills *)

Section Handlers.
Context {N : JsNumber} {DB : Columns} {L : Locale}.

Lemma saveBill_stages (p : bool) (st : Billing.State) (e : Env) :
  Billing.saveBill p st e
  = match Billing.cart st with
    | [] => toast "Cart is empty" None true st e
    | _ :: _ =>
        bind (Stage.writeBill (Billing.billDataOf p st)
                (Billing.currentBillId st))
             (fun written =>
                match written with
                | None => ret tt
                | Some b => Stage.insertItems p (Billing.cart st) b
                end) st e
    end.
Proof.
  unfold Billing.saveBill. unfold bind at 1. unfold get.
  destruct (Billing.cart st); reflexivity.
Qed.

Lemma onlyRead_refl (e : Env) : Stage.onlyRead e e.
Proof.
  repeat split; [exists []; now rewrite app_nil_r | exists 0%nat; reflexivity].
Qed.

Lemma onlyRead_trans (e1 e2 e3 : Env) :
  Stage.onlyRead e1 e2 -> Stage.onlyRead e2 e3 -> Stage.onlyRead e1 e3.
Proof.
  intros (S1 & T1 & [l1 L1] & [k1 F1]) (S2 & T2 & [l2 L2] & [k2 F2]).
  repeat split; try congruence.
  - exists (l1 ++ l2)%list. rewrite L2, L1. now rewrite app_assoc.
  - exists (k1 + k2)%nat. rewrite F2, F1. rewrite skipn_skipn. f_equal. lia.
Qed.

Lemma request_read {S A} (r : Request) (q : Store.t -> Response A)
    (st : S) (e : Env) :
  stateOf (request r (Store.read q) st e) = st
  /\ Stage.onlyRead e (envOf (request r (Store.read q) st e)).
Proof.
  unfold request, Store.read, stateOf, envOf.
  destruct e as [s fs lg ts pr pb nw]. cbn.
  destruct fs as [|[m|] fs]; cbn; (split; [reflexivity|]);
    (split; [reflexivity|]); (split; [reflexivity|]);
    (split; [eexists; reflexivity|]);
    first [ now exists 0%nat | now exists 1%nat ].
Qed.

Lemma bind_run {S A B} (c : M S A) (k : A -> M S B) (st : S) (e : Env) :
  bind c k st e = k (fst (fst (c st e))) (stateOf (c st e)) (envOf (c st e)).
Proof.
  unfold bind, stateOf, envOf. destruct (c st e) as [[a s1] e1]. reflexivity.
Qed.

Lemma printBill_frame (b : Id) (st : Billing.State) (e : Env) :
  stateOf (Billing.printBill b st e) = st
  /\ Stage.onlyRead e (envOf (Billing.printBill b st e)).
Proof.
  unfold Billing.printBill. rewrite bind_run.
  destruct (request_read (SelectBill b) (Store.bill_by_id b) st e) as [S1 R1].
  rewrite S1.
  set (e1 := envOf (request (SelectBill b) (Store.read (Store.bill_by_id b)) st e)) in *.
  rewrite bind_run.
  destruct (request_read (SelectItemsOf b) (Store.items_of b) st e1) as [S2 R2].
  rewrite S2.
  set (e2 := envOf (request (SelectItemsOf b) (Store.read (Store.items_of b)) st e1)) in *.
  pose proof (onlyRead_trans _ _ _ R1 R2) as R.
  destruct (fst (fst (request (SelectBill b) _ st e))); [|now split].
  destruct (fst (fst (request (SelectItemsOf b) _ st e1))); [|now split].
  unfold bind, env, get, print. cbn.
  destruct (popups_blocked e2); cbn; [now split|].
  split; [reflexivity|]. destruct R as (R & T & Lg & F).
  unfold envOf; cbn. repeat split; assumption.
Qed.

Lemma fetchSavedBills_frame (st : Billing.State) (e : Env) :
  (exists l, stateOf (Billing.fetchSavedBills st e) = Billing.setSavedBills l st)
  /\ Stage.onlyRead e (envOf (Billing.fetchSavedBills st e)).
Proof.
  unfold Billing.fetchSavedBills. rewrite bind_run.
  destruct (request_read SelectDrafts Store.drafts st e) as [S1 R1].
  rewrite S1. unfold modify, stateOf, envOf. cbn. split; [eexists; reflexivity|].
  exact R1.
Qed.

Lemma fetchTodayRevenue_frame (st : Billing.State) (e : Env) :
  (exists r, stateOf (Billing.fetchTodayRevenue st e) = Billing.setTodayRevenue r st)
  /\ Stage.onlyRead e (envOf (Billing.fetchTodayRevenue st e)).
Proof.
  unfold Billing.fetchTodayRevenue. rewrite bind_run. unfold env at 1. cbn.
  rewrite bind_run.
  destruct (request_read (SelectFinalizedSince (startOfDay (now e)))
              (Store.finalized_since (startOfDay (now e))) st e) as [S1 R1].
  rewrite S1. unfold modify, stateOf, envOf. cbn. split; [eexists; reflexivity|].
  exact R1.
Qed.


Lemma printBill_or_skip (p : bool) (b : Id) (st : Billing.State) (e : Env)
    a st' e' :
  (if p then Billing.printBill b else ret tt) st e = (a, st', e') ->
  st' = st /\ Stage.onlyRead e e'.
Proof.
  intros E. destruct p.
  - pose proof (printBill_frame b st e) as H. rewrite E in H. exact H.
  - inversion E; subst. split; [reflexivity|apply onlyRead_refl].
Qed.

Lemma finish_run (p : bool) (b : Id) (st : Billing.State) (e : Env) :
  let r := Stage.finish p b st e in
  Stage.composing (stateOf r)
  /\ store (envOf r) = store e
  /\ toasts (envOf r) = (toasts e ++ [Stage.successToast p])%list
  /\ (exists l, log (envOf r) = (log e ++ l)%list)
  /\ (exists k, faults (envOf r) = skipn k (faults e)).
Proof.
  unfold Stage.finish, bind, toast, modify. cbv beta iota zeta.
  match goal with
  | |- context [(if p then _ else _) st ?e0] =>
      destruct ((if p then Billing.printBill b else ret tt) st e0)
        as [[a1 s1] e1] eqn:E1;
      apply printBill_or_skip in E1 as [-> R1]
  end.
  destruct (Billing.fetchSavedBills (Billing.clearCart st) e1)
    as [[a2 s2] e2] eqn:E2.
  pose proof (fetchSavedBills_frame (Billing.clearCart st) e1) as [[l F1] F2].
  rewrite E2 in F1, F2. unfold stateOf, envOf in F1, F2. cbn [fst snd] in F1, F2.
  subst s2.
  pose proof (fetchTodayRevenue_frame
                (Billing.setSavedBills l (Billing.clearCart st)) e2)
    as [[r G1] G2].
  destruct (Billing.fetchTodayRevenue _ e2) as [[a3 s3] e3].
  unfold stateOf, envOf in *. cbn [fst snd] in *. subst s3.
  destruct (onlyRead_trans _ _ _ R1 (onlyRead_trans _ _ _ F2 G2))
    as (R & T & [lg Lg] & [k F]).
  cbn in R, T, Lg, F.
  split; [repeat split|]. rewrite R, T, Lg, F.
  repeat split; eauto.
Qed.

Lemma writeBill_run (d : Store.BillData) (cur : option Id)
    (st : Billing.State) (e : Env) :
  let r := Stage.writeBill d cur st e in
  stateOf r = st
  /\ (exists l, log (envOf r) = (log e ++ Stage.writeRequest cur d :: l)%list)
  /\ match nth 0 (faults e) None, Stage.accepted d with
     | None, true =>
         fst (fst r) = Some (Stage.writtenId cur (store e))
         /\ store (envOf r) = Stage.afterWrite cur d (faults e) (store e)
         /\ toasts (envOf r) = toasts e
         /\ faults (envOf r) = skipn (Stage.writeRequests cur) (faults e)
     | _, _ =>
         fst (fst r) = None
         /\ store (envOf r) = store e
         /\ Stage.failed e (envOf r)
         /\ faults (envOf r) = skipn 1 (faults e)
     end.
Proof.
  unfold Stage.writeBill, Stage.afterWrite, Stage.accepted, Stage.failed,
    Store.update_bill, Store.insert_bill, bind, request, toast, ret,
    stateOf, envOf.
  destruct e as [s fs lg ts pr pb nw]. cbn [faults store log toasts].
  destruct (Store.checked_bill d) as [v|msg]; destruct cur as [b|].
  - destruct fs as [|[m|] fs]; cbn; [| |destruct fs as [|[m|] fs]; cbn];
      repeat split;
      first [ eexists; rewrite <- ?app_assoc; reflexivity
            | eexists; split; reflexivity ].
  - destruct fs as [|[m|] fs]; cbn;
      repeat split;
      first [ eexists; rewrite <- ?app_assoc; reflexivity
            | eexists; split; reflexivity ].
  - destruct fs as [|[m|] fs]; cbn;
      repeat split;
      first [ eexists; rewrite <- ?app_assoc; reflexivity
            | eexists; split; reflexivity ].
  - destruct fs as [|[m|] fs]; cbn;
      repeat split;
      first [ eexists; rewrite <- ?app_assoc; reflexivity
            | eexists; split; reflexivity ].
Qed.

Lemma insert_items_refused (rows : list Store.ItemData) (s : Store.t)
    (msg : string) :
  fst (Store.insert_items rows s) = Err msg ->
  snd (Store.insert_items rows s) = s.
Proof.
  unfold Store.insert_items.
  destruct (Store.checked_items rows); [destruct (forallb _ _)|]; cbn;
    intros H; try discriminate H; reflexivity.
Qed.

Lemma insertItems_run (p : bool) (c : list Billing.CartItem) (b : Id)
    (st : Billing.State) (e : Env) :
  let r := Stage.insertItems p c b st e in
  let items := Billing.itemsOf b c in
  (exists l, log (envOf r) = (log e ++ InsertItems items :: l)%list)
  /\ (exists k, faults (envOf r) = skipn k (faults e))
  /\ match nth 0 (faults e) None, fst (Store.insert_items items (store e)) with
     | None, Ok _ =>
         Stage.composing (stateOf r)
         /\ store (envOf r) = snd (Store.insert_items items (store e))
         /\ toasts (envOf r) = (toasts e ++ [Stage.successToast p])%list
     | _, _ =>
         stateOf r = st /\ store (envOf r) = store e /\ Stage.failed e (envOf r)
     end.
Proof.
  cbv zeta. unfold Stage.insertItems, bind.
  destruct (request _ _ st e) as [[res st1] e1] eqn:E.
  assert (H : st1 = st /\ log e1 = (log e ++ [InsertItems (Billing.itemsOf b c)])%list
              /\ toasts e1 = toasts e /\ faults e1 = skipn 1 (faults e)
              /\ match nth 0 (faults e) None with
                 | Some msg => res = Err msg /\ store e1 = store e
                 | None =>
                     res = fst (Store.insert_items (Billing.itemsOf b c) (store e))
                     /\ store e1
                        = snd (Store.insert_items (Billing.itemsOf b c) (store e))
                 end).
  { unfold request in E. destruct e as [s fs lg ts pr pb nw].
    cbn [faults store log toasts] in *.
    destruct fs as [|[m|] fs]; cbn in E;
      destruct (Store.insert_items _ s) as [res' s']; inversion E; subst;
      repeat split. }
  destruct H as (-> & Lg & T & F & H).
  assert (Hfail : forall msg, res = Err msg -> store e1 = store e ->
            (exists l, log (envOf (toast "Error saving items" (Some msg) true st e1))
                       = (log e ++ InsertItems (Billing.itemsOf b c) :: l)%list)
            /\ (exists k, faults (envOf (toast "Error saving items" (Some msg) true st e1))
                          = skipn k (faults e))
            /\ stateOf (toast "Error saving items" (Some msg) true st e1) = st
            /\ store (envOf (toast "Error saving items" (Some msg) true st e1)) = store e
            /\ Stage.failed e (envOf (toast "Error saving items" (Some msg) true st e1))).
  { intros msg _ Hs. unfold toast, Stage.failed, stateOf, envOf. cbn.
    rewrite Lg, F, Hs, T. repeat split.
    - exists []. reflexivity.
    - exists 1%nat. reflexivity.
    - eexists. split; reflexivity. }
  destruct (nth 0 (faults e) None) as [msg|].
  - destruct H as [-> Hs]. destruct (Hfail msg eq_refl Hs) as (H1 & H2 & H3).
    split; [exact H1|]. split; [exact H2|]. exact H3.
  - destruct H as [-> Hs].
    destruct (Store.insert_items (Billing.itemsOf b c) (store e)) as [res s'] eqn:I.
    cbn [fst snd] in *. destruct res as [u|msg].
    + destruct (finish_run p b st e1) as (C & S1 & T1 & [l L1] & [k F1]).
      split; [exists l; now rewrite L1, Lg, <- app_assoc|].
      split; [exists (1 + k)%nat; rewrite F1, F, skipn_skipn; f_equal; lia|].
      split; [exact C|]. split; [now rewrite S1|]. now rewrite T1, T.
    + assert (Hs' : store e1 = store e).
      { rewrite Hs.
        pose proof (insert_items_refused (Billing.itemsOf b c) (store e) msg)
          as R.
        rewrite I in R. exact (R eq_refl). }
      destruct (Hfail msg eq_refl Hs') as (H1 & H2 & H3).
      split; [exact H1|]. split; [exact H2|]. exact H3.
Qed.

Lemma nth_0_skipn {A} (k : nat) (l : list A) (d : A) :
  nth 0 (skipn k l) d = nth k l d.
Proof.
  revert l. induction k as [|k IH]; intros [|x l]; simpl; auto.
Qed.

Lemma saveBill_run (p : bool) (st : Billing.State) (e : Env) :
  Billing.cart st <> [] ->
  let r := Billing.saveBill p st e in
  let cur := Billing.currentBillId st in
  let d := Billing.billDataOf p st in
  let s1 := Stage.afterWrite cur d (faults e) (store e) in
  let items := Billing.itemsOf (Stage.writtenId cur (store e)) (Billing.cart st) in
  (exists l, log (envOf r) = (log e ++ Stage.writeRequest cur d :: l)%list)
  /\ (exists k, faults (envOf r) = skipn k (faults e))
  /\ match nth 0 (faults e) None, Stage.accepted d with
     | None, true =>
         match nth (Stage.writeRequests cur) (faults e) None,
               fst (Store.insert_items items s1) with
         | None, Ok _ =>
             Stage.composing (stateOf r)
             /\ store (envOf r) = snd (Store.insert_items items s1)
             /\ toasts (envOf r) = (toasts e ++ [Stage.successToast p])%list
         | _, _ =>
             stateOf r = st /\ store (envOf r) = s1 /\ Stage.failed e (envOf r)
         end
     | _, _ =>
         stateOf r = st /\ store (envOf r) = store e /\ Stage.failed e (envOf r)
     end.
Proof.
  intros Hc. cbv zeta. rewrite saveBill_stages.
  destruct (Billing.cart st) as [|c0 c] eqn:C; [contradiction|]. clear Hc.
  unfold bind.
  pose proof (writeBill_run (Billing.billDataOf p st)
                (Billing.currentBillId st) st e) as W. cbv zeta in W.
  destruct (Stage.writeBill _ _ st e) as [[w st1] e1].
  unfold stateOf, envOf in W. cbn [fst snd] in W.
  destruct W as (-> & [l Lg] & W).
  assert (Hstop : w = None /\ store e1 = store e /\ Stage.failed e e1
                  /\ faults e1 = skipn 1 (faults e) ->
            (exists l0, log (envOf (ret tt st e1))
                        = (log e
                           ++ Stage.writeRequest (Billing.currentBillId st)
                                (Billing.billDataOf p st) :: l0)%list)
            /\ (exists k, faults (envOf (ret tt st e1)) = skipn k (faults e))
            /\ stateOf (ret tt st e1) = st
            /\ store (envOf (ret tt st e1)) = store e
            /\ Stage.failed e (envOf (ret tt st e1))).
  { intros (_ & S1 & T1 & F1). unfold ret, stateOf, envOf. cbn.
    repeat split; eauto. }
  destruct (nth 0 (faults e) None) as [msg|];
    [destruct W as (Hw & W); subst w; apply Hstop; auto|].
  destruct (Stage.accepted (Billing.billDataOf p st));
    [|destruct W as (Hw & W); subst w; apply Hstop; auto].
  clear Hstop.
  - destruct W as (-> & S1 & T1 & F1).
    pose proof (insertItems_run p (c0 :: c)
                  (Stage.writtenId (Billing.currentBillId st) (store e)) st e1)
      as I. cbv zeta in I.
    destruct I as ([l2 Lg2] & [k2 F2] & I).
    rewrite F1, nth_0_skipn, S1 in I.
    split; [exists (l ++ InsertItems
                            (Billing.itemsOf
                               (Stage.writtenId (Billing.currentBillId st) (store e))
                               (c0 :: c)) :: l2)%list;
            rewrite Lg2, Lg, <- app_assoc; reflexivity|].
    split; [exists (Stage.writeRequests (Billing.currentBillId st) + k2)%nat;
            rewrite F2, F1, skipn_skipn; f_equal; lia|].
    destruct (nth (Stage.writeRequests (Billing.currentBillId st)) (faults e) None).
    + destruct I as (I1 & I2 & [t [I3 I4]]). repeat split; try assumption.
      exists t. split; [now rewrite I3, T1|assumption].
    + destruct (fst (Store.insert_items _ _)).
      * destruct I as (I1 & I2 & I3). repeat split; try apply I1; try assumption.
        now rewrite I3, T1.
      * destruct I as (I1 & I2 & [t [I3 I4]]). repeat split; try assumption.
        exists t. split; [now rewrite I3, T1|assumption].
Qed.

Lemma saveBill_rejects_empty (p : bool) (st : Billing.State) (e : Env) :
  Billing.cart st = [] ->
  Billing.saveBill p st e = toast "Cart is empty" None true st e.
Proof.
  intros H. now rewrite saveBill_stages, H.
Qed.

(** C3. In every state whose cart is empty, [saveBill] only shows the
    destructive "Cart is empty" toast: the session is as before, no
    request is added to the log, no pending fault is consumed, nothing is
    printed, and the store (its bills and bill_items tables) is
    unchanged. *)
Theorem saveBill_empty_cart (p : bool) (st : Billing.State) (e : Env) :
  Billing.cart st = [] ->
  let r := Billing.saveBill p st e in
  stateOf r = st
  /\ store (envOf r) = store e
  /\ Store.bills (store (envOf r)) = Store.bills (store e)
  /\ Store.bill_items (store (envOf r)) = Store.bill_items (store e)
  /\ log (envOf r) = log e
  /\ faults (envOf r) = faults e
  /\ printed (envOf r) = printed e
  /\ toasts (envOf r)
     = (toasts e ++ [ {| toast_title := "Cart is empty";
                         toast_description := None;
                         toast_destructive := true |} ])%list.
Proof.
  intros H. cbv zeta. rewrite (saveBill_rejects_empty p st e H).
  repeat split.
Qed.

(** A save ends in one of two ways: with a destructive toast and the
    session as it was, or with the success toast and the session reset. *)
Lemma saveBill_outcome (p : bool) (st : Billing.State) (e : Env) :
  let r := Billing.saveBill p st e in
  (Stage.failed e (envOf r) /\ stateOf r = st)
  \/ (toasts (envOf r) = (toasts e ++ [Stage.successToast p])%list
      /\ Stage.composing (stateOf r)).
Proof.
  cbv zeta. destruct (Billing.cart st) as [|c0 c] eqn:Hc.
  - left. rewrite (saveBill_rejects_empty p st e Hc).
    split; [eexists; split; reflexivity|reflexivity].
  - assert (Hne : Billing.cart st <> []) by (rewrite Hc; discriminate).
    destruct (saveBill_run p st e Hne) as (_ & _ & H).
    destruct (nth 0 (faults e) None); [left; split; apply H|].
    destruct (Stage.accepted _); [|left; split; apply H].
    destruct (nth (Stage.writeRequests _) (faults e) None);
      [left; split; apply H|].
    destruct (fst (Store.insert_items _ _)); [right|left]; split; apply H.
Qed.

Lemma insert_items_bills rows s :
  Store.bills (snd (Store.insert_items rows s)) = Store.bills s.
Proof.
  unfold Store.insert_items.
  destruct (Store.checked_items rows); [|reflexivity].
  now destruct (forallb _ rows).
Qed.

Lemma written_refused cur d (s : Store.t) :
  Stage.accepted d = false -> Stage.written cur d s = s.
Proof.
  unfold Stage.accepted, Stage.written, Store.update_bill, Store.insert_bill.
  destruct (Store.checked_bill d); [discriminate|].
  now destruct cur.
Qed.

Lemma afterWrite_bills cur d fs s :
  Store.bills (Stage.afterWrite cur d fs s) = Store.bills (Stage.written cur d s).
Proof.
  unfold Stage.afterWrite. destruct cur as [b|]; [|reflexivity].
  destruct (Stage.accepted d) eqn:A.
  - now destruct (nth 1 fs None).
  - now rewrite written_refused.
Qed.

Lemma has_bill_iff b (s : Store.t) :
  Store.has_bill b s = true
  <-> exists r, In r (Store.bills s) /\ Store.bill_id r = b.
Proof.
  unfold Store.has_bill. rewrite existsb_exists.
  split; intros (r & Hr & E); exists r; (split; [assumption|]);
    now apply Nat.eqb_eq.
Qed.

Lemma saveBill_bills (p : bool) (st : Billing.State) (e : Env) :
  Billing.cart st <> [] ->
  nth 0 (faults e) None = None ->
  Store.bills (store (envOf (Billing.saveBill p st e)))
  = Store.bills (Stage.written (Billing.currentBillId st)
                   (Billing.billDataOf p st) (store e)).
Proof.
  intros Hc Hf. destruct (saveBill_run p st e Hc) as (_ & _ & H).
  rewrite Hf in H. cbv beta iota in H.
  destruct (Stage.accepted (Billing.billDataOf p st)) eqn:A;
    [|destruct H as (_ & -> & _); now rewrite written_refused].
  destruct (nth (Stage.writeRequests _) (faults e) None).
  - destruct H as (_ & -> & _). apply afterWrite_bills.
  - destruct (fst (Store.insert_items _ _)).
    + destruct H as (_ & -> & _). rewrite insert_items_bills.
      apply afterWrite_bills.
    + destruct H as (_ & -> & _). apply afterWrite_bills.
Qed.

Lemma accepted_checked (d : Store.BillData) :
  Stage.accepted d = true ->
  exists v,
    Store.checked_bill d = Ok v
    /\ Store.d_status v = Store.d_status d
    /\ Store.d_payment_method v = Store.d_payment_method d
    /\ decimal_10_2 (Store.d_discount d) = Some (Store.d_discount v).
Proof.
  unfold Stage.accepted, Store.checked_bill.
  destruct (decimal_10_2 (Store.d_subtotal d)); [|discriminate].
  destruct (decimal_10_2 (Store.d_tax_amount d)); [|discriminate].
  destruct (decimal_10_2 (Store.d_discount d)); [|discriminate].
  destruct (decimal_10_2 (Store.d_total d)); [|discriminate].
  destruct (Store.status_ok (Store.d_status d)); [|discriminate].
  intros _. eexists. repeat split.
Qed.

(** C1 (as amended). For every non-empty cart, the first request
    [saveBill printAfter] sends is the write of the bill row (an update of
    the bound bill, otherwise an insert) and it carries the status
    "printed" when [printAfter] is true and "draft" when it is false; when
    that request is not refused (it meets no fault, and the database
    accepts the row: its four amounts fit their [DECIMAL(10, 2)] columns)
    the row is in the store with that status at the end of the handler.
    The status written differs from "draft" exactly when [printAfter] is
    true. *)
Theorem saveBill_status (p : bool) (st : Billing.State) (e : Env) :
  Billing.cart st <> [] ->
  let e' := envOf (Billing.saveBill p st e) in
  let status := if p then "printed" else "draft" in
  (exists d l,
      log e' = (log e ++ Stage.writeRequest (Billing.currentBillId st) d :: l)%list
      /\ Store.d_status d = status)
  /\ (nth 0 (faults e) None = None ->
      Stage.accepted (Billing.billDataOf p st) = true ->
      match Billing.currentBillId st with
      | Some b =>
          (forall r, In r (Store.bills (store e')) ->
                     Store.bill_id r = b -> Store.bill_status r = status)
          /\ (Store.has_bill b (store e) = true ->
              Store.has_bill b (store e') = true)
      | None =>
          exists r, In r (Store.bills (store e'))
                    /\ Store.bill_id r = Store.next_id (store e)
                    /\ Store.bill_status r = status
      end)
  /\ (status <> "draft" <-> p = true).
Proof.
  intros Hc. cbv zeta. split; [|split].
  - destruct (saveBill_run p st e Hc) as ([l Lg] & _).
    exists (Billing.billDataOf p st), l. split; [exact Lg|reflexivity].
  - intros Hf Ha.
    assert (Hhas : forall b, Store.has_bill b (store (envOf (Billing.saveBill p st e)))
                   = existsb (fun r => Nat.eqb (Store.bill_id r) b)
                       (Store.bills (store (envOf (Billing.saveBill p st e)))))
      by reflexivity.
    pose proof (saveBill_bills p st e Hc Hf) as B.
    destruct (accepted_checked _ Ha) as (v & Hv & Hst & _).
    change (Store.d_status (Billing.billDataOf p st))
      with (if p then "printed" else "draft") in Hst.
    unfold Stage.written, Store.update_bill, Store.insert_bill in B.
    rewrite Hv in B.
    destruct (Billing.currentBillId st) as [b|]; cbn [snd Store.bills] in B.
    + split.
      * intros r Hr Hid. rewrite B in Hr.
        apply in_map_iff in Hr as (r0 & <- & _).
        destruct (Nat.eqb (Store.bill_id r0) b) eqn:E; [exact Hst|].
        apply Nat.eqb_neq in E. contradiction.
      * rewrite Hhas, B. unfold Store.has_bill.
        rewrite !existsb_exists. intros (r & Hr & E).
        exists (if Nat.eqb (Store.bill_id r) b
                then Store.write_bill v r else r).
        split; [apply in_map_iff; exists r; now split|]. now rewrite E.
    + rewrite B. eexists. split; [apply in_or_app; right; left; reflexivity|].
      split; [reflexivity|exact Hst].
  - destruct p; split; intros H; try reflexivity; try discriminate.
    now contradiction H.
Qed.

(** C10. Whenever [saveBill] ends with its success toast (the items were
    inserted without error), on the insert path and on the update path
    alike, the session is back to composing: the cart is empty, the
    discount is 0, the payment method is unset and no bill id is bound;
    so a later save from a session with that binding starts by inserting
    a new bill row. *)
Theorem saveBill_success_resets (p : bool) (st : Billing.State) (e : Env) :
  let r := Billing.saveBill p st e in
  toasts (envOf r) = (toasts e ++ [Stage.successToast p])%list ->
  Billing.cart (stateOf r) = []
  /\ Billing.discount (stateOf r) = of_Z 0
  /\ Billing.paymentMethod (stateOf r) = ""
  /\ Billing.currentBillId (stateOf r) = None
  /\ (forall p' st2 e2,
        Billing.currentBillId st2 = Billing.currentBillId (stateOf r) ->
        Billing.cart st2 <> [] ->
        exists d l,
          log (envOf (Billing.saveBill p' st2 e2))
          = (log e2 ++ InsertBill d :: l)%list).
Proof.
  cbv zeta. intros T.
  assert (C : Stage.composing (stateOf (Billing.saveBill p st e))).
  { destruct (saveBill_outcome p st e) as [[(t & Ht & Hd) _]|[_ C]];
      [|exact C].
    rewrite Ht in T. apply app_inj_tail in T as [_ ->]. discriminate Hd. }
  destruct C as (C1 & C2 & C3 & C4). repeat split; try assumption.
  intros p' st2 e2 Hcur Hne.
  destruct (saveBill_run p' st2 e2 Hne) as ([l Lg] & _).
  rewrite Hcur, C4 in Lg. eauto.
Qed.

(** *** Saving without faults *)

Lemma no_faults_nth (e : Env) (k : nat) :
  Spec.no_faults e -> nth k (faults e) None = None.
Proof.
  unfold Spec.no_faults. intros H.
  destruct (nth_in_or_default k (faults e) None) as [Hin|E]; [|exact E].
  rewrite Forall_forall in H. now apply H.
Qed.

Lemma no_faults_skipn (e e' : Env) (k : nat) :
  faults e' = skipn k (faults e) -> Spec.no_faults e -> Spec.no_faults e'.
Proof.
  unfold Spec.no_faults. intros -> H. rewrite Forall_forall in *.
  intros f Hf. apply H. revert Hf. generalize (faults e). clear.
  induction k as [|k IH]; intros [|x l]; simpl; auto.
Qed.

Lemma has_bill_update b b' d (s : Store.t) :
  Store.has_bill b (snd (Store.update_bill d b' s)) = Store.has_bill b s.
Proof.
  unfold Store.update_bill. destruct (Store.checked_bill d) as [v|];
    [|reflexivity].
  unfold Store.has_bill. cbn. induction (Store.bills s) as [|r l IH];
    [reflexivity|]. cbn. rewrite IH. f_equal.
  now destruct (Nat.eqb (Store.bill_id r) b').
Qed.

Lemma has_bill_written (cur : option Id) d fs (s : Store.t) :
  (forall b, cur = Some b -> Store.has_bill b s = true) ->
  Stage.accepted d = true ->
  Store.has_bill (Stage.writtenId cur s) (Stage.afterWrite cur d fs s) = true.
Proof.
  intros H Ha. unfold Stage.afterWrite. destruct cur as [b|]; cbn.
  - rewrite Ha.
    assert (Hu : Store.has_bill b (snd (Store.update_bill d b s)) = true)
      by (rewrite has_bill_update; now apply H).
    destruct (nth 1 fs None); exact Hu.
  - destruct (accepted_checked d Ha) as (v & Hv & _).
    unfold Store.insert_bill. rewrite Hv.
    unfold Store.has_bill. cbn. rewrite existsb_app. cbn.
    rewrite Nat.eqb_refl. now rewrite orb_true_r.
Qed.

Lemma insert_items_accepted b c vs (s : Store.t) :
  Store.has_bill b s = true ->
  Store.checked_items (Billing.itemsOf b c) = Ok vs ->
  Store.insert_items (Billing.itemsOf b c) s
  = (Ok tt,
     {| Store.bills := Store.bills s;
        Store.bill_items :=
          (Store.bill_items s ++ Store.new_items (Store.next_id s) vs)%list;
        Store.settings := Store.settings s;
        Store.next_id :=
          (Store.next_id s + List.length (Billing.itemsOf b c))%nat;
        Store.next_bill_number := Store.next_bill_number s;
        Store.clock := Store.clock s |}).
Proof.
  intros H Hv. unfold Store.insert_items. rewrite Hv.
  replace (forallb _ (Billing.itemsOf b c)) with true; [reflexivity|].
  symmetry. apply forallb_forall. intros x Hx.
  apply in_map_iff in Hx as (y & <- & _). exact H.
Qed.

Lemma insert_items_ok (rows : list Store.ItemData) (s : Store.t) (u : unit) :
  fst (Store.insert_items rows s) = Ok u ->
  exists vs,
    Store.checked_items rows = Ok vs
    /\ Store.bills (snd (Store.insert_items rows s)) = Store.bills s
    /\ Store.bill_items (snd (Store.insert_items rows s))
       = (Store.bill_items s ++ Store.new_items (Store.next_id s) vs)%list.
Proof.
  unfold Store.insert_items.
  destruct (Store.checked_items rows) as [vs|]; [|discriminate].
  destruct (forallb _ rows); [|discriminate].
  intros _. exists vs. repeat split.
Qed.

(** *** What the database makes of a storable bill *)

Lemma storable_accepted (p : bool) (st : Billing.State) :
  Spec.storable st -> Stage.accepted (Billing.billDataOf p st) = true.
Proof.
  intros (H1 & H2 & H3 & H4 & _).
  unfold Spec.fits in *. unfold Stage.accepted, Store.checked_bill.
  cbn [Billing.billDataOf Store.d_subtotal Store.d_tax_amount
       Store.d_discount Store.d_total Store.d_status].
  destruct (decimal_10_2 (Billing.subtotal _)); [|now contradiction H1].
  destruct (decimal_10_2 (Billing.taxAmount _)); [|now contradiction H2].
  destruct (decimal_10_2 (Billing.discount st)); [|now contradiction H3].
  destruct (decimal_10_2 (Billing.total _)); [|now contradiction H4].
  now destruct p.
Qed.

Lemma storable_items (b : Id) (c : list Billing.CartItem) :
  Forall (fun l =>
            Spec.fits (Billing.ci_price l)
            /\ Spec.fits (mul (Billing.ci_price l)
                            (of_Z (Billing.ci_quantity l)))
            /\ 0 < Billing.ci_quantity l <= Store.max_integer) c ->
  exists vs, Store.checked_items (Billing.itemsOf b c) = Ok vs.
Proof.
  induction 1 as [|l c (H1 & H2 & H3) _ [vs IH]]; [now exists []|].
  cbn [Billing.itemsOf map Store.checked_items]. fold (Billing.itemsOf b c).
  rewrite IH. unfold Spec.fits in *. unfold Store.checked_item.
  cbn [Store.i_price_snapshot Store.i_line_total Store.i_quantity].
  destruct (decimal_10_2 (Billing.ci_price l)); [|now contradiction H1].
  destruct (decimal_10_2 (mul _ _)); [|now contradiction H2].
  replace (Store.quantity_ok (Billing.ci_quantity l)) with true;
    [eexists; reflexivity|].
  symmetry. unfold Store.quantity_ok. apply andb_true_iff.
  split; [apply Z.ltb_lt|apply Z.leb_le]; lia.
Qed.

(** *** Loading *)

Lemma loadBill_run (b : Id) (st : Billing.State) (e : Env) :
  let r := Billing.loadBill b st e in
  let c := map Stage.cartLineOf
             (filter (fun i => Nat.eqb (Store.item_bill_id i) b)
                (Store.bill_items (store e))) in
  store (envOf r) = store e
  /\ match nth 0 (faults e) None with
     | Some _ => stateOf r = st
     | None =>
         match nth 1 (faults e) None, Store.bill_by_id b (store e) with
         | None, Ok bill =>
             stateOf r
             = Billing.setCurrentBillId (Some b)
                 (Billing.setPaymentMethod (Stage.loadedMethod bill)
                    (Billing.setDiscount (Store.bill_discount bill)
                       (Billing.setCart c st)))
         | _, _ => stateOf r = Billing.setCart c st
         end
     end.
Proof.
  unfold Billing.loadBill, bind, request, modify, ret, Store.read,
    Store.items_of, stateOf, envOf.
  destruct e as [s fs lg ts pr pb nw]. cbn [faults store].
  destruct fs as [|[m|] fs]; cbn.
  - destruct (Store.bill_by_id b s); cbn; split; reflexivity.
  - split; reflexivity.
  - destruct fs as [|[m|] fs]; cbn;
      try (destruct (Store.bill_by_id b s); cbn); split; reflexivity.
Qed.

(** *** What the store holds after a save *)

Lemma filter_none {A} (p : A -> bool) (l : list A) :
  (forall x, In x l -> p x = false) -> filter p l = [].
Proof.
  induction l as [|x l IH]; intros H; [reflexivity|]. simpl.
  rewrite (H x) by now left. apply IH. intros y Hy. apply H. now right.
Qed.

Lemma filter_all {A} (p : A -> bool) (l : list A) :
  (forall x, In x l -> p x = true) -> filter p l = l.
Proof.
  induction l as [|x l IH]; intros H; [reflexivity|]. simpl.
  rewrite (H x) by now left. f_equal. apply IH. intros y Hy. apply H. now right.
Qed.

(** The lines [loadBill] builds from the rows the database made of the
    cart: names and quantities as in the cart, each unit price as its
    column holds it. *)
Lemma checked_lines (b : Id) (c : list Billing.CartItem)
    (vs : list Store.ItemData) (k : Id) :
  Store.checked_items (Billing.itemsOf b c) = Ok vs ->
  let lines := map Stage.cartLineOf (Store.new_items k vs) in
  map Billing.ci_name lines = map Billing.ci_name c
  /\ map Billing.ci_quantity lines = map Billing.ci_quantity c
  /\ map (fun l => Some (Billing.ci_price l)) lines
     = map (fun l => decimal_10_2 (Billing.ci_price l)) c
  /\ Forall (fun i => Store.item_bill_id i = b) (Store.new_items k vs).
Proof.
  revert vs k. induction c as [|x c IH]; intros vs k H.
  - inversion H; subst. repeat split. constructor.
  - cbn [Billing.itemsOf map Store.checked_items] in H.
    fold (Billing.itemsOf b c) in H.
    unfold Store.checked_item in H.
    cbn [Store.i_price_snapshot Store.i_line_total Store.i_quantity
         Store.i_bill_id Store.i_item_name_snapshot] in H.
    destruct (decimal_10_2 (Billing.ci_price x)) as [price|] eqn:P;
      [|discriminate H].
    destruct (decimal_10_2 (mul _ _)) as [line_total|]; [|discriminate H].
    destruct (Store.quantity_ok (Billing.ci_quantity x)); [|discriminate H].
    destruct (Store.checked_items (Billing.itemsOf b c)) as [ws|] eqn:W;
      [|discriminate H].
    inversion H; subst. clear H.
    destruct (IH ws (S k) eq_refl) as (H1 & H2 & H3 & H4).
    cbn [Store.new_items map Stage.cartLineOf Billing.ci_name
         Billing.ci_quantity Billing.ci_price Store.item_name_snapshot
         Store.item_quantity Store.item_price_snapshot
         Store.i_item_name_snapshot Store.i_quantity Store.i_price_snapshot
         Store.i_bill_id] in *.
    rewrite H1, H2, H3, P. repeat split. constructor; [reflexivity|exact H4].
Qed.

Lemma loaded_lines_uncategorized (rows : list Store.BillItem) :
  Forall (fun l => Billing.ci_category l = "Uncategorized")
    (map Stage.cartLineOf rows).
Proof. induction rows; constructor; [reflexivity|assumption]. Qed.

Lemma updated_row (d : Store.BillData) (b : Id) (l : list Store.Bill) :
  NoDup (map Store.bill_id l) ->
  (exists r, In r l /\ Store.bill_id r = b) ->
  exists r,
    filter (fun x => Nat.eqb (Store.bill_id x) b)
      (map (fun x => if Nat.eqb (Store.bill_id x) b
                     then Store.write_bill d x else x) l)
    = [Store.write_bill d r].
Proof.
  induction l as [|x l IH]; intros Hnd (r & Hr & Hb); [contradiction|].
  inversion Hnd as [|? ? Hx Hl]; subst. simpl.
  destruct (Nat.eqb (Store.bill_id x) (Store.bill_id r)) eqn:E.
  - exists x. simpl. rewrite E. f_equal. apply filter_none.
    intros y Hy. apply in_map_iff in Hy as (z & <- & Hz).
    apply Nat.eqb_eq in E.
    assert (Hne : Store.bill_id z <> Store.bill_id r).
    { intros Eq. apply Hx. rewrite E, <- Eq. now apply in_map. }
    apply Nat.eqb_neq in Hne. rewrite Hne. exact Hne.
  - rewrite E. destruct Hr as [->|Hr]; [now rewrite Nat.eqb_refl in E|].
    apply IH; [assumption|]. exists r. now split.
Qed.

(** The bill written, once [writeBill] is over: its row holds the checked
    columns, and the item rows that reference it are the ones kept. *)
Lemma written_lookup (cur : option Id) (d v : Store.BillData)
    (fs : list (option string)) (s : Store.t) :
  Spec.store_ok s ->
  (forall b, cur = Some b -> Store.has_bill b s = true) ->
  Store.checked_bill d = Ok v ->
  let b := Stage.writtenId cur s in
  let s1 := Stage.afterWrite cur d fs s in
  filter (fun i => Nat.eqb (Store.item_bill_id i) b) (Store.bill_items s1)
  = Stage.keptItems cur fs s
  /\ exists r,
       Store.bill_by_id b s1 = Ok r
       /\ Store.bill_discount r = Store.d_discount v
       /\ Store.bill_payment_method r = Store.d_payment_method v.
Proof.
  intros (Hnd & Hlt & Hfk) Hb Hv. cbv zeta.
  assert (Ha : Stage.accepted d = true)
    by (unfold Stage.accepted; now rewrite Hv).
  unfold Stage.afterWrite, Stage.keptItems, Store.bill_by_id.
  destruct cur as [b|]; cbn [Stage.writtenId].
  - (* the bill is updated in place *)
    rewrite Ha. unfold Store.update_bill. rewrite Hv.
    destruct (updated_row v b (Store.bills s) Hnd) as [r Hr];
      [apply has_bill_iff; now apply Hb|].
    destruct (nth 1 fs None);
      cbn [snd Store.delete_items_of Store.bills Store.bill_items];
      rewrite Hr; cbn [Store.single];
      (split; [|exists (Store.write_bill v r); repeat split]).
    + reflexivity.
    + apply filter_none. intros i Hi. apply filter_In in Hi as [_ Hi].
      now apply negb_true_iff in Hi.
  - (* a new bill is inserted *)
    unfold Store.insert_bill. rewrite Hv.
    cbn [snd Store.bills Store.bill_items]. split.
    + apply filter_none. intros i Hi. apply Nat.eqb_neq. intros E.
      apply Hfk, has_bill_iff in Hi as (r & Hr & Hid).
      apply Hlt in Hr. lia.
    + eexists. rewrite filter_app. cbn. rewrite Nat.eqb_refl.
      rewrite filter_none; [split; [reflexivity|split; reflexivity]|].
      intros r Hr. apply Nat.eqb_neq. apply Hlt in Hr. lia.
Qed.

Lemma loadedMethod_saved (p : bool) (st : Billing.State) (r : Store.Bill) :
  Store.bill_payment_method r
  = Store.d_payment_method (Billing.billDataOf p st) ->
  Stage.loadedMethod r = Billing.paymentMethod st.
Proof.
  unfold Stage.loadedMethod. intros ->. cbn.
  destruct (Billing.paymentMethod st); reflexivity.
Qed.

(** A save that ends with the success toast: no request of the write was
    refused, and the store holds what the insertion of the items left. *)
Lemma saveBill_succeeded (p : bool) (st : Billing.State) (e : Env) :
  Billing.cart st <> [] ->
  let r := Billing.saveBill p st e in
  let cur := Billing.currentBillId st in
  let d := Billing.billDataOf p st in
  let s1 := Stage.afterWrite cur d (faults e) (store e) in
  let items := Billing.itemsOf (Stage.writtenId cur (store e)) (Billing.cart st) in
  toasts (envOf r) = (toasts e ++ [Stage.successToast p])%list ->
  Stage.accepted d = true
  /\ (exists u, fst (Store.insert_items items s1) = Ok u)
  /\ store (envOf r) = snd (Store.insert_items items s1).
Proof.
  intros Hc. cbv zeta. intros T.
  assert (Hno : ~ Stage.failed e (envOf (Billing.saveBill p st e))).
  { intros (t & Ht & Hd). rewrite Ht in T.
    apply app_inj_tail in T as [_ ->]. discriminate Hd. }
  destruct (saveBill_run p st e Hc) as (_ & _ & H).
  destruct (nth 0 (faults e) None); [exfalso; apply Hno, H|].
  destruct (Stage.accepted (Billing.billDataOf p st));
    [|exfalso; apply Hno, H].
  destruct (nth (Stage.writeRequests _) (faults e) None);
    [exfalso; apply Hno, H|].
  destruct (fst (Store.insert_items _ _)) as [u|] eqn:I;
    [|exfalso; apply Hno, H].
  split; [reflexivity|]. split; [now exists u|apply H].
Qed.

(** C4 (as amended). Round trip, up to the precision of the columns. Take
    a non-empty cart, any discount and payment method, a store that keeps
    its keys and a bound bill (if any) that is in the store.  When no
    request fails and the database takes the bill (its amounts fit
    [DECIMAL(10, 2)], its quantities are positive integers), [saveBill]
    succeeds.  Whenever [saveBill] succeeds and the two requests of
    [loadBill] on the id of the bill written are answered, [loadBill]
    binds that id, restores the payment method, and sets the discount to
    the number its column holds for the discount of the session (rounded
    to two decimals); the cart it rebuilds ends with one line per line of
    the saved cart, in the same order, with the same name and quantity
    and the unit price as its column holds it; these lines are preceded
    by the old lines of the bill only when the bill was updated and the
    deletion of its old items, whose failure the page ignores, failed;
    every reloaded line has the category "Uncategorized".  So unit prices
    and discount come back unchanged exactly when their columns hold them
    unchanged. *)
Theorem save_then_load_roundtrip (p : bool) (st : Billing.State) (e : Env) :
  Billing.cart st <> [] ->
  Spec.store_ok (store e) ->
  (forall b, Billing.currentBillId st = Some b ->
             Store.has_bill b (store e) = true) ->
  let saved := Billing.saveBill p st e in
  let b := Stage.writtenId (Billing.currentBillId st) (store e) in
  let loaded := stateOf (Billing.loadBill b (stateOf saved) (envOf saved)) in
  let succeeded :=
    toasts (envOf saved) = (toasts e ++ [Stage.successToast p])%list in
  (Spec.no_faults e -> Spec.storable st -> succeeded)
  /\ (succeeded ->
      nth 0 (faults (envOf saved)) None = None ->
      nth 1 (faults (envOf saved)) None = None ->
      Billing.currentBillId loaded = Some b
      /\ Billing.paymentMethod loaded = Billing.paymentMethod st
      /\ decimal_10_2 (Billing.discount st) = Some (Billing.discount loaded)
      /\ Forall (fun l => Billing.ci_category l = "Uncategorized")
           (Billing.cart loaded)
      /\ exists lines,
           Billing.cart loaded
           = (map Stage.cartLineOf
                (Stage.keptItems (Billing.currentBillId st) (faults e)
                   (store e))
              ++ lines)%list
           /\ map Billing.ci_name lines
              = map Billing.ci_name (Billing.cart st)
           /\ map Billing.ci_quantity lines
              = map Billing.ci_quantity (Billing.cart st)
           /\ map (fun l => Some (Billing.ci_price l)) lines
              = map (fun l => decimal_10_2 (Billing.ci_price l))
                  (Billing.cart st)).
Proof.
  intros Hc Hok Hb. cbv zeta. split.
  - (* nothing is refused: the save succeeds *)
    intros Hf Hs.
    pose proof (storable_accepted p st Hs) as Ha.
    destruct Hs as (_ & _ & _ & _ & Hl).
    destruct (storable_items
                (Stage.writtenId (Billing.currentBillId st) (store e))
                (Billing.cart st) Hl) as [vs Hvs].
    pose proof (has_bill_written (Billing.currentBillId st)
                  (Billing.billDataOf p st) (faults e) (store e) Hb Ha) as Hw.
    destruct (saveBill_run p st e Hc) as (_ & _ & H).
    rewrite !(no_faults_nth _ _ Hf), Ha in H. cbv beta iota in H.
    rewrite (insert_items_accepted _ (Billing.cart st) vs _ Hw Hvs) in H.
    apply H.
  - (* the save succeeded: what the reload finds *)
    intros T L0 L1.
    destruct (saveBill_succeeded p st e Hc T) as (Ha & [u Hu] & S1).
    destruct (accepted_checked _ Ha) as (v & Hv & _ & Hm & Hd).
    destruct (insert_items_ok _ _ u Hu) as (vs & Hvs & Hbills & Hitems).
    destruct (written_lookup (Billing.currentBillId st)
                (Billing.billDataOf p st) v (faults e) (store e) Hok Hb Hv)
      as (Hkept & r & Hr & Hrd & Hrm).
    destruct (checked_lines
                (Stage.writtenId (Billing.currentBillId st) (store e))
                (Billing.cart st) vs
                (Store.next_id
                   (Stage.afterWrite (Billing.currentBillId st)
                      (Billing.billDataOf p st) (faults e) (store e)))
                Hvs) as (H1 & H2 & H3 & H4).
    destruct (loadBill_run
                (Stage.writtenId (Billing.currentBillId st) (store e))
                (stateOf (Billing.saveBill p st e))
                (envOf (Billing.saveBill p st e))) as [_ H].
    rewrite L0, L1, S1 in H.
    assert (Hrow : Store.bill_by_id
                     (Stage.writtenId (Billing.currentBillId st) (store e))
                     (snd (Store.insert_items
                             (Billing.itemsOf
                                (Stage.writtenId (Billing.currentBillId st)
                                   (store e)) (Billing.cart st))
                             (Stage.afterWrite (Billing.currentBillId st)
                                (Billing.billDataOf p st) (faults e)
                                (store e))))
                   = Ok r)
      by (unfold Store.bill_by_id in *; now rewrite Hbills).
    rewrite Hrow, Hitems, filter_app, Hkept in H.
    rewrite (filter_all _ (Store.new_items _ vs)) in H
      by (intros i Hi; apply Nat.eqb_eq;
          exact (proj1 (Forall_forall _ _) H4 i Hi)).
    rewrite H.
    cbn [Billing.currentBillId Billing.paymentMethod Billing.discount
         Billing.cart Billing.setCurrentBillId Billing.setPaymentMethod
         Billing.setDiscount Billing.setCart].
    split; [reflexivity|].
    split; [apply (loadedMethod_saved p); now rewrite Hrm|].
    split; [now rewrite Hrd|].
    split; [apply loaded_lines_uncategorized|].
    rewrite map_app. eexists. split; [reflexivity|].
    split; [exact H1|]. split; [exact H2|exact H3].
Qed.

(** *** Deleting *)

Lemma fetchBills_frame (st : PreviousBills.State) (e : Env) :
  store (envOf (PreviousBills.fetchBills st e)) = store e
  /\ (exists l, log (envOf (PreviousBills.fetchBills st e)) = (log e ++ l)%list)
  /\ (exists l, toasts (envOf (PreviousBills.fetchBills st e))
                = (toasts e ++ l)%list)
  /\ PreviousBills.billToDelete (stateOf (PreviousBills.fetchBills st e))
     = PreviousBills.billToDelete st.
Proof.
  unfold PreviousBills.fetchBills, bind, request, toast, modify, Store.read,
    stateOf, envOf.
  destruct e as [s fs lg ts pr pb nw]. cbn [faults store log toasts].
  destruct fs as [|[m|] fs]; cbn; repeat split;
    first [ eexists; reflexivity | exists []; now rewrite app_nil_r ].
Qed.

Lemma deleted_store (b : Id) (s : Store.t) :
  let s' := snd (Store.delete_bill b s) in
  Store.has_bill b s' = false
  /\ (forall i, In i (Store.bill_items s') -> Store.item_bill_id i <> b)
  /\ (exists msg, Store.bill_by_id b s' = Err msg)
  /\ filter (fun i => Nat.eqb (Store.item_bill_id i) b) (Store.bill_items s')
     = [].
Proof.
  cbv zeta.
  assert (Hi : filter (fun i => Nat.eqb (Store.item_bill_id i) b)
                 (filter (fun i => negb (Nat.eqb (Store.item_bill_id i) b))
                    (Store.bill_items s)) = []).
  { apply filter_none. intros i Hi. apply filter_In in Hi as [_ Hi].
    now apply negb_true_iff in Hi. }
  assert (Hr : filter (fun r => Nat.eqb (Store.bill_id r) b)
                 (filter (fun r => negb (Nat.eqb (Store.bill_id r) b))
                    (Store.bills s)) = []).
  { apply filter_none. intros i Hr. apply filter_In in Hr as [_ Hr].
    now apply negb_true_iff in Hr. }
  split; [|split; [|split]].
  - destruct (Store.has_bill b (snd (Store.delete_bill b s))) eqn:E;
      [|reflexivity].
    apply has_bill_iff in E as (r & Hin & Hid). cbn in Hin.
    apply filter_In in Hin as [_ Hin]. apply negb_true_iff in Hin.
    apply Nat.eqb_neq in Hin. contradiction.
  - cbn. intros i Hin. apply filter_In in Hin as [_ Hin].
    apply negb_true_iff in Hin. now apply Nat.eqb_neq in Hin.
  - unfold Store.bill_by_id. cbn. rewrite Hr. eexists. reflexivity.
  - exact Hi.
Qed.

Lemma delete_items_then_bill (b : Id) (s : Store.t) :
  snd (Store.delete_bill b (snd (Store.delete_items_of b s)))
  = snd (Store.delete_bill b s).
Proof.
  unfold Store.delete_bill, Store.delete_items_of. cbn. f_equal.
  induction (Store.bill_items s) as [|i l IH]; [reflexivity|]. cbn.
  destruct (Nat.eqb (Store.item_bill_id i) b) eqn:E; cbn; [exact IH|].
  rewrite E. cbn. now rewrite IH.
Qed.

Lemma request_run {S A} (r : Request)
    (exec : Store.t -> Response A * Store.t) (st : S) (e : Env) :
  exists res e',
    request r exec st e = (res, st, e')
    /\ log e' = (log e ++ [r])%list
    /\ toasts e' = toasts e
    /\ faults e' = skipn 1 (faults e)
    /\ match nth 0 (faults e) None with
       | Some msg => res = Err msg /\ store e' = store e
       | None => res = fst (exec (store e)) /\ store e' = snd (exec (store e))
       end.
Proof.
  unfold request. destruct e as [s fs lg ts pr pb nw].
  cbn [faults store log toasts].
  destruct fs as [|[m|] fs]; cbn [next_fault nth];
    try destruct (exec s) as [res s']; eexists _, _; repeat split.
Qed.

Lemma deleteBill_run (st : PreviousBills.State) (e : Env) (bill : Store.Bill) :
  PreviousBills.billToDelete st = Some bill ->
  let b := Store.bill_id bill in
  let r := PreviousBills.deleteBill st e in
  (exists l, log (envOf r)
             = (log e ++ DeleteItemsOf b :: DeleteBill b :: l)%list)
  /\ PreviousBills.billToDelete (stateOf r) = None
  /\ PreviousBills.deleteDialogOpen (stateOf r) = false
  /\ match nth 1 (faults e) None with
     | Some _ =>
         Stage.failed e (envOf r)
         /\ store (envOf r)
            = match nth 0 (faults e) None with
              | Some _ => store e
              | None => snd (Store.delete_items_of b (store e))
              end
     | None =>
         store (envOf r) = snd (Store.delete_bill b (store e))
         /\ exists t l,
              toasts (envOf r) = (toasts e ++ t :: l)%list
              /\ toast_title t = "Bill deleted"
     end.
Proof.
  intros Hb. cbv zeta.
  remember (PreviousBills.deleteBill st e) as r eqn:R.
  unfold PreviousBills.deleteBill in R.
  unfold bind at 1 in R. unfold get in R. rewrite Hb in R. unfold bind in R.
  destruct (request_run (DeleteItemsOf (Store.bill_id bill))
              (Store.delete_items_of (Store.bill_id bill)) st e)
    as (r1 & e1 & E1 & L1 & T1 & F1 & H1).
  rewrite E1 in R.
  destruct (request_run (DeleteBill (Store.bill_id bill))
              (Store.delete_bill (Store.bill_id bill)) st e1)
    as (r2 & e2 & E2 & L2 & T2 & F2 & H2).
  rewrite E2 in R. rewrite F1, nth_0_skipn in H2.
  assert (Hs : snd (Store.delete_bill (Store.bill_id bill) (store e1))
               = snd (Store.delete_bill (Store.bill_id bill) (store e))).
  { destruct (nth 0 (faults e) None); destruct H1 as [_ ->]; [reflexivity|].
    apply delete_items_then_bill. }
  destruct (nth 1 (faults e) None) as [msg|]; destruct H2 as [-> S2].
  - unfold toast, modify in R. subst r. unfold Stage.failed, stateOf, envOf. cbn.
    rewrite L2, L1, T2, T1, <- app_assoc.
    split; [exists []; reflexivity|]. split; [reflexivity|].
    split; [reflexivity|]. split; [eexists; split; reflexivity|].
    rewrite S2. destruct (nth 0 (faults e) None); now destruct H1.
  - cbn [fst Store.delete_bill] in R. unfold toast in R.
    match type of R with
    | context [PreviousBills.fetchBills ?a ?b] =>
        pose proof (fetchBills_frame a b) as (G1 & [l1 G2] & [l2 G3] & G4);
        destruct (PreviousBills.fetchBills a b) as [[u st3] e3]
    end.
    unfold modify in R. subst r.
    unfold stateOf, envOf in *. cbn [fst snd] in *.
    cbn [store log toasts] in G1, G2, G3.
    split; [exists l1; rewrite G2, L2, L1, <- !app_assoc; reflexivity|].
    split; [reflexivity|]. split; [reflexivity|].
    split; [now rewrite G1, S2, Hs|].
    eexists _, l2. rewrite G3, T2, T1, <- app_assoc. split; reflexivity.
Qed.

(** C8. [deleteBill] sends the deletion of the bill's items and then the
    deletion of the bill row, next to each other in the log. When the
    deletion of the bill row meets no fault, the store afterwards has no
    bill row with that id and no bill_items row referencing it, the lookup
    of the bill by id fails, and a later [loadBill] of that id from any
    session binds no bill: it leaves the bound id, the discount and the
    payment method alone and the cart is empty or untouched. *)
Theorem deleteBill_removes (st : PreviousBills.State) (e : Env)
    (bill : Store.Bill) :
  PreviousBills.billToDelete st = Some bill ->
  let b := Store.bill_id bill in
  let e' := envOf (PreviousBills.deleteBill st e) in
  (exists l, log e' = (log e ++ DeleteItemsOf b :: DeleteBill b :: l)%list)
  /\ (nth 1 (faults e) None = None ->
      Store.has_bill b (store e') = false
      /\ (forall i, In i (Store.bill_items (store e')) ->
                    Store.item_bill_id i <> b)
      /\ (exists msg, Store.bill_by_id b (store e') = Err msg)
      /\ forall (session : Billing.State) (e2 : Env),
           store e2 = store e' ->
           let loaded := stateOf (Billing.loadBill b session e2) in
           Billing.currentBillId loaded = Billing.currentBillId session
           /\ Billing.discount loaded = Billing.discount session
           /\ Billing.paymentMethod loaded = Billing.paymentMethod session
           /\ (Billing.cart loaded = []
               \/ Billing.cart loaded = Billing.cart session)).
Proof.
  intros Hb. cbv zeta.
  destruct (deleteBill_run st e bill Hb) as (Lg & _ & _ & H).
  split; [exact Lg|]. intros Hf. rewrite Hf in H. destruct H as [S1 _].
  rewrite S1.
  destruct (deleted_store (Store.bill_id bill) (store e))
    as (D1 & D2 & [msg D3] & D4).
  split; [exact D1|]. split; [exact D2|]. split; [eauto|].
  intros session e2 E2.
  destruct (loadBill_run (Store.bill_id bill) session e2) as [_ H].
  rewrite E2, D3, D4 in H. cbn [map] in H.
  destruct (nth 0 (faults e2) None); [rewrite H; auto|].
  destruct (nth 1 (faults e2) None); rewrite H; cbn; auto.
Qed.

(** *** Revenue *)

(** C5. When the request is answered and no non-draft bill of the store
    is dated within the range, [fetchRevenueData] sets the total revenue to
    0, the bill count to 0, the average bill value to 0 and both series to
    empty, and shows no toast. In every run the page is left as it was
    (the request failed), or the count is 0 and the average is the number
    0, or the count is positive and the average is the total divided by
    the count: no division takes place with a count of 0. *)
Theorem fetchRevenueData_empty_range (st : Reports.State) (e : Env) :
  nth 0 (faults e) None = None ->
  (forall r, In r (Store.bills (store e)) -> Store.is_draft r = false ->
             ~ (Reports.startDate st <= Store.bill_date r
                <= Reports.endDate st)) ->
  (let st' := stateOf (Reports.fetchRevenueData st e) in
   Reports.totalRevenue st' = of_Z 0
   /\ Reports.totalBills st' = 0
   /\ Reports.avgBillValue st' = of_Z 0
   /\ Reports.revenueData st' = []
   /\ Reports.paymentData st' = []
   /\ toasts (envOf (Reports.fetchRevenueData st e)) = toasts e)
  /\ (forall (st0 : Reports.State) (e0 : Env),
        let st' := stateOf (Reports.fetchRevenueData st0 e0) in
        st' = st0
        \/ (Reports.totalBills st' = 0
            /\ Reports.avgBillValue st' = of_Z 0)
        \/ (0 < Reports.totalBills st'
            /\ Reports.avgBillValue st'
               = div (Reports.totalRevenue st')
                     (of_Z (Reports.totalBills st')))).
Proof.
  intros Hf Hempty. split.
  - cbv zeta.
    unfold Reports.fetchRevenueData, bind, get, request, Store.read,
      Store.finalized_between, modify, toast, stateOf, envOf.
    destruct e as [s fs lg ts pr pb nw]. cbn [faults store] in *.
    rewrite (filter_none _ (Store.bills s)).
    + destruct fs as [|[m|] fs]; [| discriminate Hf |]; cbn; repeat split.
    + intros r Hr. destruct (Store.is_draft r) eqn:D; [reflexivity|]. cbn.
      specialize (Hempty r Hr D).
      destruct (Z.leb_spec (Reports.startDate st) (Store.bill_date r));
        [|reflexivity].
      destruct (Z.leb_spec (Store.bill_date r) (Reports.endDate st));
        [|reflexivity].
      exfalso. apply Hempty. lia.
  - intros st0 e0. cbv zeta.
    unfold Reports.fetchRevenueData, bind, get, request, Store.read,
      Store.finalized_between, modify, toast, stateOf, envOf.
    destruct e0 as [s fs lg ts pr pb nw]. cbn [faults store].
    set (bills := Store.order_by _ _ _).
    destruct fs as [|[m|] fs]; cbn [next_fault fst snd];
      try (left; reflexivity);
      (destruct bills as [|x l]; cbn;
       [right; left; split; reflexivity|right; right; split; [lia|reflexivity]]).
Qed.

(** *** The store keeps its keys

    [Spec.store_ok] is an invariant of the store: every write keeps it, and
    so do the handlers that write, whatever requests fail. *)

Lemma has_bill_more (b : Id) (s s' : Store.t) :
  (forall r, In r (Store.bills s) ->
             exists r', In r' (Store.bills s')
                        /\ Store.bill_id r' = Store.bill_id r) ->
  Store.has_bill b s = true -> Store.has_bill b s' = true.
Proof.
  intros Hsub H. apply has_bill_iff in H as (r & Hr & <-).
  apply has_bill_iff. destruct (Hsub r Hr) as (r' & Hr' & E). eauto.
Qed.

Lemma insert_bill_keeps_keys (d : Store.BillData) (s : Store.t) :
  Spec.store_ok s -> Spec.store_ok (snd (Store.insert_bill d s)).
Proof.
  intros (Hnd & Hlt & Hfk). unfold Store.insert_bill.
  destruct (Store.checked_bill d) as [v|]; [|now repeat split].
  split; [|split].
  - cbn. rewrite map_app. cbn. apply NoDup_snoc; [assumption|].
    intros Hin. apply in_map_iff in Hin as (r & E & Hr).
    apply Hlt in Hr. lia.
  - cbn. intros r Hr. apply in_app_iff in Hr as [Hr|[<-|[]]]; cbn.
    + apply Hlt in Hr. lia.
    + lia.
  - intros i Hi. apply (has_bill_more _ s); [|now apply Hfk].
    intros r Hr. exists r. split; [|reflexivity].
    cbn. apply in_or_app. now left.
Qed.

Lemma update_bill_ids (d : Store.BillData) (b : Id) (s : Store.t) :
  map Store.bill_id (Store.bills (snd (Store.update_bill d b s)))
  = map Store.bill_id (Store.bills s).
Proof.
  unfold Store.update_bill. destruct (Store.checked_bill d) as [v|];
    [|reflexivity].
  cbn. rewrite map_map. apply map_ext. intros r.
  now destruct (Nat.eqb (Store.bill_id r) b).
Qed.

Lemma update_bill_keeps_keys (d : Store.BillData) (b : Id) (s : Store.t) :
  Spec.store_ok s -> Spec.store_ok (snd (Store.update_bill d b s)).
Proof.
  intros (Hnd & Hlt & Hfk). split; [|split].
  - now rewrite update_bill_ids.
  - unfold Store.update_bill. destruct (Store.checked_bill d) as [v|];
      [|exact Hlt].
    intros r Hr. cbn in Hr. apply in_map_iff in Hr as (r0 & <- & Hr0).
    apply Hlt in Hr0. cbn. now destruct (Nat.eqb (Store.bill_id r0) b).
  - intros i Hi. rewrite has_bill_update. apply Hfk.
    revert Hi. unfold Store.update_bill.
    now destruct (Store.checked_bill d).
Qed.

Lemma delete_items_keeps_keys (b : Id) (s : Store.t) :
  Spec.store_ok s -> Spec.store_ok (snd (Store.delete_items_of b s)).
Proof.
  intros (Hnd & Hlt & Hfk). split; [|split]; try assumption.
  intros i Hi. apply filter_In in Hi as [Hi _].
  change (Store.has_bill (Store.item_bill_id i) s = true). now apply Hfk.
Qed.

Lemma new_items_reference (k : Id) (rows : list Store.ItemData) i :
  In i (Store.new_items k rows) ->
  exists d, In d rows /\ Store.item_bill_id i = Store.i_bill_id d.
Proof.
  revert k. induction rows as [|d rows IH]; intros k; simpl; [intros []|].
  intros [<-|H]; [exists d; split; [now left|reflexivity]|].
  destruct (IH (S k) H) as (d' & Hd & E). exists d'. split; [now right|exact E].
Qed.

Lemma checked_items_reference (rows vs : list Store.ItemData)
    (v : Store.ItemData) :
  Store.checked_items rows = Ok vs -> In v vs ->
  exists d, In d rows /\ Store.i_bill_id v = Store.i_bill_id d.
Proof.
  revert vs. induction rows as [|d rows IH]; intros vs H Hv.
  - inversion H; subst. contradiction.
  - cbn [Store.checked_items] in H.
    destruct (Store.checked_item d) as [w|] eqn:W; [|discriminate H].
    destruct (Store.checked_items rows) as [ws|]; [|discriminate H].
    inversion H; subst. destruct Hv as [<-|Hv].
    + exists d. split; [now left|]. unfold Store.checked_item in W.
      destruct (decimal_10_2 (Store.i_price_snapshot d)); [|discriminate W].
      destruct (decimal_10_2 (Store.i_line_total d)); [|discriminate W].
      destruct (Store.quantity_ok (Store.i_quantity d)); [|discriminate W].
      now inversion W.
    + destruct (IH ws eq_refl Hv) as (d' & Hd & E).
      exists d'. split; [now right|exact E].
Qed.

Lemma insert_items_keeps_keys (rows : list Store.ItemData) (s : Store.t) :
  Spec.store_ok s -> Spec.store_ok (snd (Store.insert_items rows s)).
Proof.
  intros (Hnd & Hlt & Hfk). unfold Store.insert_items.
  destruct (Store.checked_items rows) as [vs|] eqn:V; [|now repeat split].
  destruct (forallb _ rows) eqn:F; [|now repeat split].
  split; [assumption|]. split.
  - cbn. intros r Hr. apply Hlt in Hr. lia.
  - intros i Hi. cbn [snd Store.bill_items] in Hi.
    change (Store.has_bill (Store.item_bill_id i) s = true).
    apply in_app_iff in Hi as [Hi|Hi]; [now apply Hfk|].
    apply new_items_reference in Hi as (v & Hv & ->).
    destruct (checked_items_reference rows vs v V Hv) as (d & Hd & ->).
    rewrite forallb_forall in F. now apply F.
Qed.

Lemma delete_bill_keeps_keys (b : Id) (s : Store.t) :
  Spec.store_ok s -> Spec.store_ok (snd (Store.delete_bill b s)).
Proof.
  intros (Hnd & Hlt & Hfk). split; [|split].
  - cbn. now apply distinct_keys_filter.
  - cbn. intros r Hr. apply filter_In in Hr as [Hr _]. now apply Hlt.
  - intros i Hi. cbn [snd Store.bill_items Store.delete_bill] in Hi.
    apply filter_In in Hi as [Hi Hne].
    apply negb_true_iff in Hne.
    apply Hfk, has_bill_iff in Hi as (r & Hr & E).
    apply has_bill_iff. exists r. split; [|exact E].
    cbn. apply filter_In. split; [assumption|]. now rewrite E, Hne.
Qed.

Lemma afterWrite_keeps_keys cur d fs (s : Store.t) :
  Spec.store_ok s -> Spec.store_ok (Stage.afterWrite cur d fs s).
Proof.
  intros H. unfold Stage.afterWrite. destruct cur as [b|].
  - destruct (Stage.accepted d); [|exact H]. destruct (nth 1 fs None).
    + now apply update_bill_keeps_keys.
    + now apply delete_items_keeps_keys, update_bill_keeps_keys.
  - now apply insert_bill_keeps_keys.
Qed.

Lemma saveBill_keeps_keys (p : bool) (st : Billing.State) (e : Env) :
  Spec.store_ok (store e) ->
  Spec.store_ok (store (envOf (Billing.saveBill p st e))).
Proof.
  intros H. destruct (Billing.cart st) as [|c0 c] eqn:Hc.
  - now rewrite (saveBill_rejects_empty p st e Hc).
  - assert (Hne : Billing.cart st <> []) by (rewrite Hc; discriminate).
    destruct (saveBill_run p st e Hne) as (_ & _ & R).
    destruct (nth 0 (faults e) None); [destruct R as (_ & -> & _); exact H|].
    destruct (Stage.accepted _); [|destruct R as (_ & -> & _); exact H].
    destruct (nth (Stage.writeRequests _) (faults e) None).
    + destruct R as (_ & -> & _). now apply afterWrite_keeps_keys.
    + destruct (fst (Store.insert_items _ _)); destruct R as (_ & -> & _).
      * now apply insert_items_keeps_keys, afterWrite_keeps_keys.
      * now apply afterWrite_keeps_keys.
Qed.

Lemma deleteBill_keeps_keys (st : PreviousBills.State) (e : Env) :
  Spec.store_ok (store e) ->
  Spec.store_ok (store (envOf (PreviousBills.deleteBill st e))).
Proof.
  intros H. destruct (PreviousBills.billToDelete st) as [bill|] eqn:Hb.
  - destruct (deleteBill_run st e bill Hb) as (_ & _ & _ & R).
    destruct (nth 1 (faults e) None).
    + destruct R as [_ ->]. destruct (nth 0 (faults e) None); [exact H|].
      now apply delete_items_keeps_keys.
    + destruct R as [-> _]. now apply delete_bill_keeps_keys.
  - unfold PreviousBills.deleteBill, bind, get. now rewrite Hb.
Qed.

End Handlers.

(** ** The statements at work on the example shop *)

(** The claim of C1 fails as it is written: saving the example cart with
    [printAfter = false] stores the bill with status "draft", not "saved". *)
Lemma saveBill_saved_status_counterexample :
  Billing.cart Example.composing <> []
  /\ map Store.bill_status
       (Store.bills
          (store (envOf (Billing.saveBill false Example.composing
                           Example.env0))))
     = ["draft"]
  /\ ~ (forall r,
           In r (Store.bills
                   (store (envOf (Billing.saveBill false Example.composing
                                    Example.env0)))) ->
           Store.bill_status r = "saved" /\ Store.bill_status r <> "draft").
Proof.
  split; [discriminate|]. split; [reflexivity|].
  intros H.
  assert (E : exists r,
             In r (Store.bills
                     (store (envOf (Billing.saveBill false Example.composing
                                      Example.env0))))
             /\ Store.bill_status r = "draft")
    by (eexists; split; [left; reflexivity|reflexivity]).
  destruct E as (r & Hr & E). destruct (H r Hr) as [_ E']. contradiction.
Qed.

Lemma saveBill_status_witness :
  Billing.cart Example.composing <> []
  /\ exists r,
       In r (Store.bills
               (store (envOf (Billing.saveBill true Example.composing
                                Example.env0))))
       /\ Store.bill_id r = 0%nat
       /\ Store.bill_status r = "printed".
Proof.
  assert (H : Billing.cart Example.composing <> []) by discriminate.
  assert (A : Stage.accepted (Billing.billDataOf true Example.composing)
              = true) by (vm_compute; reflexivity).
  split; [exact H|].
  exact (proj1 (proj2 (saveBill_status true Example.composing Example.env0 H))
           eq_refl A).
Defined.

Lemma saveBill_empty_cart_witness :
  Billing.cart Billing.initial = []
  /\ log (envOf (Billing.saveBill true Billing.initial Example.env1))
     = log Example.env1.
Proof.
  split; [reflexivity|].
  apply (saveBill_empty_cart true Billing.initial Example.env1 eq_refl).
Defined.

Lemma store1_ok : Spec.store_ok Example.store1.
Proof.
  split; [|split].
  - repeat constructor; simpl; intuition discriminate.
  - intros r [<-|[<-|[]]]; simpl; lia.
  - intros i [<-|[<-|[]]]; reflexivity.
Defined.

(** The claim of C4 fails as it is written: a discount of 12.345 on the
    example cart is saved without error and comes back as 12.35, the
    number the [DECIMAL(10, 2)] column holds. *)
Lemma save_then_load_discount_counterexample :
  let saved := Billing.saveBill false Example.fractional Example.env0 in
  let loaded := stateOf (Billing.loadBill 0%nat (stateOf saved) (envOf saved)) in
  Billing.cart Example.fractional <> []
  /\ toasts (envOf saved) = [Stage.successToast false]
  /\ Billing.currentBillId loaded = Some 0%nat
  /\ Billing.discount Example.fractional = (2469 # 200)%Q
  /\ Billing.discount loaded = (247 # 20)%Q
  /\ ~ (Billing.discount loaded == Billing.discount Example.fractional)%Q.
Proof.
  cbv zeta. split; [discriminate|].
  split; [vm_compute; reflexivity|]. split; [vm_compute; reflexivity|].
  split; [reflexivity|]. split; [vm_compute; reflexivity|].
  vm_compute. discriminate.
Qed.

Lemma save_then_load_roundtrip_witness :
  let saved := Billing.saveBill false Example.editing Example.env1 in
  let loaded := stateOf (Billing.loadBill 0%nat (stateOf saved) (envOf saved)) in
  Billing.cart Example.editing <> []
  /\ Spec.store_ok (store Example.env1)
  /\ (forall b, Billing.currentBillId Example.editing = Some b ->
                Store.has_bill b (store Example.env1) = true)
  /\ Billing.currentBillId loaded = Some 0%nat
  /\ decimal_10_2 (Billing.discount Example.editing)
     = Some (Billing.discount loaded).
Proof.
  assert (H1 : Billing.cart Example.editing <> []) by discriminate.
  assert (H4 : forall b, Billing.currentBillId Example.editing = Some b ->
                         Store.has_bill b (store Example.env1) = true).
  { intros b E. inversion E; subst. reflexivity. }
  assert (T : toasts (envOf (Billing.saveBill false Example.editing
                               Example.env1))
              = (toasts Example.env1 ++ [Stage.successToast false])%list)
    by (vm_compute; reflexivity).
  assert (L0 : nth 0 (faults (envOf (Billing.saveBill false Example.editing
                                       Example.env1))) None = None)
    by (vm_compute; reflexivity).
  assert (L1 : nth 1 (faults (envOf (Billing.saveBill false Example.editing
                                       Example.env1))) None = None)
    by (vm_compute; reflexivity).
  cbv zeta. split; [exact H1|]. split; [exact store1_ok|]. split; [exact H4|].
  pose proof (proj2 (save_then_load_roundtrip false Example.editing
                       Example.env1 H1 store1_ok H4) T L0 L1) as R.
  split; [exact (proj1 R)|exact (proj1 (proj2 (proj2 R)))].
Defined.

Lemma fetchRevenueData_empty_range_witness :
  nth 0 (faults Example.env1) None = None
  /\ (forall r, In r (Store.bills (store Example.env1)) ->
                Store.is_draft r = false ->
                ~ (Reports.startDate Example.report <= Store.bill_date r
                   <= Reports.endDate Example.report))
  /\ Reports.avgBillValue
       (stateOf (Reports.fetchRevenueData Example.report Example.env1))
     = 0%Q.
Proof.
  assert (H : forall r, In r (Store.bills (store Example.env1)) ->
                        Store.is_draft r = false ->
                        ~ (Reports.startDate Example.report
                           <= Store.bill_date r
                           <= Reports.endDate Example.report)).
  { intros r [<-|[<-|[]]] D; [discriminate D|]. simpl. lia. }
  split; [reflexivity|]. split; [exact H|].
  apply (fetchRevenueData_empty_range Example.report Example.env1 eq_refl H).
Defined.

Lemma deleteBill_removes_witness :
  PreviousBills.billToDelete Example.deleting = Some Example.bill2
  /\ Store.has_bill 2%nat
       (store (envOf (PreviousBills.deleteBill Example.deleting Example.env1)))
     = false.
Proof.
  split; [reflexivity|].
  exact (proj1 (proj2 (deleteBill_removes Example.deleting Example.env1
                         Example.bill2 eq_refl) eq_refl)).
Defined.

Lemma cart_invariant_witness :
  Spec.cart_ok (Billing.cart Example.composing)
  /\ Spec.cart_ok
       (Billing.cart (Billing.updateQuantity 7%nat (-1) Example.composing)).
Proof.
  assert (H : Spec.cart_ok (Billing.cart Example.composing)).
  { split; repeat constructor; simpl; [intuition|lia]. }
  split; [exact H|].
  exact (proj1 (proj2 (cart_invariant Example.composing Example.tea 7%nat (-1)
                         H))).
Defined.

Lemma saveBill_success_resets_witness :
  toasts (envOf (Billing.saveBill true Example.editing Example.env1))
  = (toasts Example.env1 ++ [Stage.successToast true])%list
  /\ Billing.cart
       (stateOf (Billing.saveBill true Example.editing Example.env1)) = [].
Proof.
  assert (H : toasts (envOf (Billing.saveBill true Example.editing Example.env1))
              = (toasts Example.env1 ++ [Stage.successToast true])%list)
    by (vm_compute; reflexivity).
  split; [exact H|].
  exact (proj1 (saveBill_success_resets true Example.editing Example.env1 H)).
Defined.

(** A new bill: saved as a draft, reloaded from its id, and a save whose
    first request fails. *)
Example save_then_load_new_bill :
  let saved := Billing.saveBill false Example.composing Example.env0 in
  let loaded := stateOf (Billing.loadBill 0%nat (stateOf saved) (envOf saved)) in
  Billing.cart loaded
  = [ {| Billing.ci_id := 1%nat; Billing.ci_name := "Masala tea";
         Billing.ci_price := 100%Q; Billing.ci_quantity := 2;
         Billing.ci_category := "Uncategorized" |} ]
  /\ Billing.discount loaded = 10%Q
  /\ Billing.paymentMethod loaded = "cash"
  /\ Billing.currentBillId loaded = Some 0%nat.
Proof. vm_compute. repeat split. Qed.

Example save_refused :
  let e := {| store := Example.store1; faults := [Some "Failed to fetch"];
              log := []; toasts := []; printed := [];
              popups_blocked := false; now := 10000 |} in
  let r := Billing.saveBill true Example.editing e in
  stateOf r = Example.editing
  /\ store (envOf r) = Example.store1
  /\ toasts (envOf r)
     = [ {| toast_title := "Error updating bill";
            toast_description := Some "Failed to fetch";
            toast_destructive := true |} ].
Proof. vm_compute. repeat split. Qed.

(** An amount that does not fit its column: the database refuses the bill
    row, the page shows the error and nothing is stored. *)
Example save_overflow :
  let st := Billing.setDiscount (-1000000000)%Q Example.composing in
  let r := Billing.saveBill false st Example.env0 in
  stateOf r = st
  /\ store (envOf r) = Example.emptyStore
  /\ toasts (envOf r)
     = [ {| toast_title := "Error creating bill";
            toast_description := Some "numeric field overflow";
            toast_destructive := true |} ].
Proof. vm_compute. repeat split. Qed.

(** The deletion of the old items of an updated bill fails and the page
    goes on: the save succeeds, and the reload finds the old line in front
    of the two lines of the cart. *)
Example save_keeps_old_items :
  let e := {| store := Example.store1; faults := [None; Some "Failed to fetch"];
              log := []; toasts := []; printed := [];
              popups_blocked := false; now := 10000 |} in
  let saved := Billing.saveBill false Example.editing e in
  let loaded := stateOf (Billing.loadBill 0%nat (stateOf saved) (envOf saved)) in
  toasts (envOf saved) = [Stage.successToast false]
  /\ map Billing.ci_name (Billing.cart loaded)
     = ["Masala tea"; "Masala tea"; "Samosa"]
  /\ map Billing.ci_quantity (Billing.cart loaded) = [2; 2; 3].
Proof. vm_compute. repeat split. Qed.

(** * Further properties of the pages *)

Section CartExtras.
Context {N : JsNumber}.

Lemma filter_id_when_all {A} (keep : A -> bool) (rows : list A) :
  Forall (fun x => keep x = true) rows -> filter keep rows = rows.
Proof.
  induction 1 as [|x rows Hx _ IH]; simpl; [reflexivity|].
  now rewrite Hx, IH.
Qed.

Lemma setCart_same (st : Billing.State) :
  Billing.setCart (Billing.cart st) st = st.
Proof. now destruct st. Qed.

Lemma positive_kept (c : list Billing.CartItem) :
  Forall (fun l => 1 <= Billing.ci_quantity l) c ->
  filter (fun item => 0 <? Billing.ci_quantity item) c = c.
Proof.
  intros H. apply filter_id_when_all. eapply Forall_impl; [|exact H].
  intros a Ha. apply Z.ltb_lt. simpl in Ha. lia.
Qed.

Lemma requantify_absent (id : Id) (q : Z -> Z) (c : list Billing.CartItem) :
  ~ In id (map Billing.ci_id c) -> map (Stage.requantify id q) c = c.
Proof.
  induction c as [|x c IH]; simpl; intros H; [reflexivity|].
  unfold Stage.requantify at 1.
  destruct (Nat.eqb (Billing.ci_id x) id) eqn:E.
  - apply Nat.eqb_eq in E. exfalso. apply H. now left.
  - f_equal. apply IH. intros Hin. apply H. now right.
Qed.

(** X1. Adding an item that is not in the cart and removing it again
    leaves the session exactly as it was. *)
Theorem addToCart_then_removeItem (item : Billing.MenuItem) (st : Billing.State) :
  ~ In (Billing.mi_id item) (map Billing.ci_id (Billing.cart st)) ->
  Billing.removeItem (Billing.mi_id item) (Billing.addToCart item st) = st.
Proof.
  intros H. unfold Billing.removeItem.
  rewrite (addToCart_absent item st H).
  unfold Billing.addToCart. destruct (find _ (Billing.cart st)) eqn:F.
  - exfalso. apply find_some in F as [Hin E]. apply Nat.eqb_eq in E.
    apply H. apply in_map_iff. eauto.
  - rewrite filter_app. simpl. rewrite Nat.eqb_refl. simpl.
    rewrite app_nil_r. rewrite filter_id_when_all.
    + destruct st; reflexivity.
    + apply Forall_forall. intros x Hx. apply negb_true_iff.
      apply Nat.eqb_neq. intros E. apply H. apply in_map_iff. eauto.
Qed.

(** X2. For an item that is in a cart whose quantities are all at least 1,
    the + button of its line ([updateQuantity id 1]) and a click on the
    item in the menu ([addToCart]) have the same effect. *)
Theorem plus_button_is_addToCart (item : Billing.MenuItem) (st : Billing.State) :
  In (Billing.mi_id item) (map Billing.ci_id (Billing.cart st)) ->
  Forall (fun l => 1 <= Billing.ci_quantity l) (Billing.cart st) ->
  Billing.updateQuantity (Billing.mi_id item) 1 st = Billing.addToCart item st.
Proof.
  intros Hin Hq.
  assert (E : Billing.cart (Billing.updateQuantity (Billing.mi_id item) 1 st)
              = Billing.cart (Billing.addToCart item st)).
  { rewrite updateQuantity_cart, (addToCart_present item st Hin).
    rewrite positive_kept.
    - apply map_ext_in. intros a Ha. unfold Stage.requantify.
      destruct (Nat.eqb (Billing.ci_id a) (Billing.mi_id item)); [|reflexivity].
      f_equal. rewrite Forall_forall in Hq. specialize (Hq a Ha). simpl in Hq. lia.
    - apply Forall_map. eapply Forall_impl; [|exact Hq].
      intros a Ha. simpl in Ha. unfold Stage.requantify.
      destruct (Nat.eqb (Billing.ci_id a) (Billing.mi_id item)); simpl; lia. }
  unfold Billing.updateQuantity in *. unfold Billing.addToCart in *.
  destruct (find _ (Billing.cart st)); simpl in E; now rewrite E.
Qed.

Lemma updateQuantity_eq (id : Id) (c : Z) (st : Billing.State) :
  Billing.updateQuantity id c st
  = Billing.setCart
      (filter (fun item => 0 <? Billing.ci_quantity item)
         (map (Stage.requantify id (fun q => Z.max 0 (q + c)))
            (Billing.cart st))) st.
Proof. reflexivity. Qed.

(** X3. Two changes of the quantity of a line add up as long as the first
    one leaves the line in the cart: [updateQuantity id b] after
    [updateQuantity id a] is [updateQuantity id (a + b)]. *)
Theorem updateQuantity_twice (id : Id) (a b : Z) (st : Billing.State) :
  Spec.cart_ok (Billing.cart st) ->
  (forall l, In l (Billing.cart st) -> Billing.ci_id l = id ->
             0 < Billing.ci_quantity l + a) ->
  Billing.updateQuantity id b (Billing.updateQuantity id a st)
  = Billing.updateQuantity id (a + b) st.
Proof.
  intros [_ Hq] Ha.
  assert (Hkeep : filter (fun item => 0 <? Billing.ci_quantity item)
                    (map (Stage.requantify id (fun q => Z.max 0 (q + a)))
                       (Billing.cart st))
                  = map (Stage.requantify id (fun q => Z.max 0 (q + a)))
                      (Billing.cart st)).
  { apply positive_kept. apply Forall_map. apply Forall_forall. intros l Hl.
    rewrite Forall_forall in Hq. specialize (Hq l Hl). simpl in Hq.
    unfold Stage.requantify.
    destruct (Nat.eqb (Billing.ci_id l) id) eqn:E; simpl; [|lia].
    apply Nat.eqb_eq in E. specialize (Ha l Hl E). lia. }
  rewrite (updateQuantity_eq id b), (updateQuantity_eq id a),
    (updateQuantity_eq id (a + b)).
  cbn [Billing.cart Billing.setCart]. rewrite Hkeep.
  unfold Billing.setCart. cbn. f_equal. f_equal.
  rewrite map_map. apply map_ext_in. intros l Hl.
  unfold Stage.requantify.
  destruct (Nat.eqb (Billing.ci_id l) id) eqn:E; cbn; rewrite E; [|reflexivity].
  apply Nat.eqb_eq in E. specialize (Ha l Hl E).
  unfold Billing.withQuantity. cbn. f_equal. lia.
Qed.

(** X4. In a cart whose quantities are all at least 1, [updateQuantity]
    leaves the session as it is when no line has the id, or when the
    change is 0. *)
Theorem updateQuantity_no_effect (id : Id) (change : Z) (st : Billing.State) :
  Forall (fun l => 1 <= Billing.ci_quantity l) (Billing.cart st) ->
  (~ In id (map Billing.ci_id (Billing.cart st)) \/ change = 0) ->
  Billing.updateQuantity id change st = st.
Proof.
  intros Hq H.
  assert (E : map (Stage.requantify id (fun q => Z.max 0 (q + change)))
                (Billing.cart st) = Billing.cart st).
  { destruct H as [H| ->]; [now apply requantify_absent|].
    rewrite <- (map_id (Billing.cart st)) at 2. apply map_ext_in.
    intros l Hl. rewrite Forall_forall in Hq. specialize (Hq l Hl). simpl in Hq.
    unfold Stage.requantify. destruct (Nat.eqb (Billing.ci_id l) id); [|reflexivity].
    destruct l; unfold Billing.withQuantity; simpl in *. f_equal. lia. }
  unfold Billing.updateQuantity.
  change (map _ (Billing.cart st))
    with (map (Stage.requantify id (fun q => Z.max 0 (q + change)))
            (Billing.cart st)).
  rewrite E, (positive_kept _ Hq). apply setCart_same.
Qed.

(** X5. Adding an item that is not in the cart makes the subtotal the old
    subtotal plus the price of the item times 1, the operations in that
    order. *)
Theorem subtotal_after_adding (item : Billing.MenuItem) (st : Billing.State) :
  ~ In (Billing.mi_id item) (map Billing.ci_id (Billing.cart st)) ->
  Billing.subtotal (Billing.calculateTotals (Billing.addToCart item st))
  = add (Billing.subtotal (Billing.calculateTotals st))
        (mul (Billing.mi_price item) (of_Z 1)).
Proof.
  intros H. unfold Billing.calculateTotals. simpl.
  rewrite (addToCart_absent item st H), fold_left_app. reflexivity.
Qed.
End CartExtras.

Section ReceiptExtras.
Context {N : JsNumber} {L : Locale}.

(** X6. [line left right width], the same function on both pages, is
    [left], at least one space and [right]. When the two texts leave a gap
    of at least one character the spaces fill it and the line is exactly
    [width] characters long; otherwise there is exactly one space (and the
    line is longer than [width]). *)
Theorem line_layout (left right : string) (width : Z) :
  let gap := width - Z.of_nat (String.length left)
             - Z.of_nat (String.length right) in
  exists n : nat,
    Billing.line left right width = left ++ Str.spaces n ++ right
    /\ PreviousBills.line left right width = Billing.line left right width
    /\ (1 <= n)%nat
    /\ (1 <= gap -> Z.of_nat n = gap
                    /\ Z.of_nat (String.length (Billing.line left right width))
                       = width)
    /\ (gap < 1 -> n = 1%nat).
Proof.
  cbv zeta. exists (Z.to_nat (Z.max 1 (width - Z.of_nat (String.length left)
                                       - Z.of_nat (String.length right)))).
  split; [reflexivity|]. split; [reflexivity|]. split; [lia|]. split.
  - intros H. split; [lia|]. unfold Billing.line.
    rewrite !length_append, length_spaces. lia.
  - intros H. lia.
Qed.

Lemma append_assoc (a b c : string) : (a ++ b) ++ c = a ++ (b ++ c).
Proof. induction a as [|x a IH]; simpl; [reflexivity|now rewrite IH]. Qed.

Lemma append_nil_r (a : string) : a ++ "" = a.
Proof. induction a as [|x a IH]; simpl; [reflexivity|now rewrite IH]. Qed.

Lemma fold_append {A} (f : A -> string) (rows : list A) (r : string) :
  fold_left (fun r x => r ++ f x) rows r = r ++ String.concat "" (map f rows).
Proof.
  revert r. induction rows as [|x rows IH]; intros r; simpl.
  - now rewrite append_nil_r.
  - rewrite IH, append_assoc. f_equal. destruct rows as [|y rows]; simpl.
    + now rewrite append_nil_r.
    + reflexivity.
Qed.

(** X7. On both pages the receipt is a heading and a footing that do not
    depend on the items, with the item lines in between, one per item and
    in the order of the items. *)
Theorem receipt_item_block (st : Billing.State) (settings : option Store.Settings)
    (bill : Store.Bill) :
  (exists head tail, forall items,
      Billing.receiptText st bill items
      = head ++ String.concat "" (map Billing.itemLine items) ++ tail)
  /\ (exists head tail, forall items,
        PreviousBills.receiptText settings bill items
        = head ++ String.concat "" (map PreviousBills.itemLine items) ++ tail).
Proof.
  split.
  - unfold Billing.receiptText. cbv zeta.
    destruct (gtb (Store.bill_discount bill) (of_Z 0));
      eexists; eexists; intros items; rewrite fold_append;
      match goal with
      | |- context [?h ++ String.concat "" ?m] =>
          set (hd := h); set (body := String.concat "" m)
      end;
      match goal with |- _ = ?rhs => set (target := rhs) end;
      rewrite !append_assoc; subst hd body target; reflexivity.
  - unfold PreviousBills.receiptText. cbv zeta.
    destruct (gtb (Store.bill_discount bill) (of_Z 0));
      eexists; eexists; intros items; rewrite fold_append;
      match goal with
      | |- context [?h ++ String.concat "" ?m] =>
          set (hd := h); set (body := String.concat "" m)
      end;
      match goal with |- _ = ?rhs => set (target := rhs) end;
      rewrite !append_assoc; subst hd body target; reflexivity.
Qed.

(** X8. With the settings of the session, a non-empty shop name and a tax
    percentage that is not zero, the reprint of the history page is,
    character by character, the receipt the billing page prints. *)
Theorem receipts_agree (st : Billing.State) (bill : Store.Bill)
    (items : list Store.BillItem) :
  Str.truthy (Store.shop_name (Billing.settings st)) = true ->
  truthy (Store.tax_percentage (Billing.settings st)) = true ->
  PreviousBills.receiptText (Some (Billing.settings st)) bill items
  = Billing.receiptText st bill items.
Proof.
  intros Hn Ht. unfold PreviousBills.receiptText, Billing.receiptText.
  rewrite Hn, Ht. destruct (Billing.settings st) as [nm [ph|] tx]; reflexivity.
Qed.

End ReceiptExtras.

Section SaveExtras.
Context {N : JsNumber} {DB : Columns} {L : Locale}.

Lemma insert_items_unchecked (rows : list Store.ItemData) (s : Store.t)
    (msg : string) :
  Store.checked_items rows = Err msg ->
  fst (Store.insert_items rows s) = Err msg.
Proof. intros H. unfold Store.insert_items. now rewrite H. Qed.

(** X9. A new bill whose items are refused (the request fails, or the
    database refuses a row) stays in the store as a bill row without
    items: the session is kept, a destructive toast is shown, [bill_items]
    is as before and [bills] has one more row, with the new id and the
    total as its column holds it. *)
Theorem saveBill_items_refused (p : bool) (st : Billing.State) (e : Env)
    (msg : string) :
  Billing.cart st <> [] ->
  Billing.currentBillId st = None ->
  nth 0 (faults e) None = None ->
  Stage.accepted (Billing.billDataOf p st) = true ->
  nth 1 (faults e) None = Some msg
  \/ Store.checked_items
       (Billing.itemsOf (Store.next_id (store e)) (Billing.cart st))
     = Err msg ->
  let r := Billing.saveBill p st e in
  stateOf r = st
  /\ Stage.failed e (envOf r)
  /\ Store.bill_items (store (envOf r)) = Store.bill_items (store e)
  /\ exists row,
       Store.bills (store (envOf r)) = (Store.bills (store e) ++ [row])%list
       /\ Store.bill_id row = Store.next_id (store e)
       /\ decimal_10_2 (Billing.total (Billing.calculateTotals st))
          = Some (Store.bill_total row).
Proof.
  intros Hc Hcur H0 Ha H1. cbv zeta.
  destruct (saveBill_run p st e Hc) as (_ & _ & H).
  rewrite H0, Ha, Hcur in H.
  cbn [Stage.writeRequests Stage.writtenId] in H.
  assert (Hstop : stateOf (Billing.saveBill p st e) = st
                  /\ store (envOf (Billing.saveBill p st e))
                     = Stage.afterWrite None (Billing.billDataOf p st)
                         (faults e) (store e)
                  /\ Stage.failed e (envOf (Billing.saveBill p st e))).
  { destruct H1 as [H1|H1].
    - rewrite H1 in H. exact H.
    - rewrite (insert_items_unchecked _ _ msg H1) in H.
      destruct (nth 1 (faults e) None); exact H. }
  destruct Hstop as (S1 & S2 & S3). split; [exact S1|]. split; [exact S3|].
  rewrite S2. unfold Stage.afterWrite, Store.insert_bill.
  unfold Stage.accepted, Store.checked_bill in Ha.
  unfold Store.checked_bill.
  cbn [Billing.billDataOf Store.d_subtotal Store.d_tax_amount
       Store.d_discount Store.d_total Store.d_status] in *.
  destruct (decimal_10_2 (Billing.subtotal _)); [|discriminate Ha].
  destruct (decimal_10_2 (Billing.taxAmount _)); [|discriminate Ha].
  destruct (decimal_10_2 (Billing.discount st)); [|discriminate Ha].
  destruct (decimal_10_2 (Billing.total _)); [|discriminate Ha].
  destruct (Store.status_ok _); [|discriminate Ha].
  cbn. split; [reflexivity|]. eexists. repeat split.
Qed.

Lemma saveBill_store (p : bool) (st : Billing.State) (e : Env) :
  let cur := Billing.currentBillId st in
  let d := Billing.billDataOf p st in
  let s1 := Stage.afterWrite cur d (faults e) (store e) in
  let items :=
    Billing.itemsOf (Stage.writtenId cur (store e)) (Billing.cart st) in
  store (envOf (Billing.saveBill p st e)) = store e
  \/ store (envOf (Billing.saveBill p st e)) = s1
  \/ store (envOf (Billing.saveBill p st e)) = snd (Store.insert_items items s1).
Proof.
  cbv zeta. destruct (Billing.cart st) as [|c0 c] eqn:Hc.
  - left. now rewrite (saveBill_rejects_empty p st e Hc).
  - assert (Hne : Billing.cart st <> []) by (rewrite Hc; discriminate).
    destruct (saveBill_run p st e Hne) as (_ & _ & H). rewrite Hc in H.
    destruct (nth 0 (faults e) None); [left; apply H|].
    destruct (Stage.accepted _); [|left; apply H].
    destruct (nth (Stage.writeRequests _) (faults e) None);
      [right; left; apply H|].
    destruct (fst (Store.insert_items _ _));
      [right; right; apply H|right; left; apply H].
Qed.

Lemma afterWrite_rows cur d fs (s : Store.t) :
  let key := fun r => (Store.bill_id r, Store.bill_number r, Store.bill_date r) in
  map key (Store.bills (Stage.afterWrite cur d fs s))
  = (map key (Store.bills s)
     ++ match cur, Stage.accepted d with
        | None, true =>
            [(Store.next_id s, Store.next_bill_number s, Store.clock s)]
        | _, _ => []
        end)%list.
Proof.
  cbv zeta. rewrite afterWrite_bills.
  unfold Stage.written, Stage.accepted, Store.update_bill, Store.insert_bill.
  destruct (Store.checked_bill d) as [v|]; destruct cur as [b|]; cbn;
    rewrite ?app_nil_r; try reflexivity.
  - rewrite map_map. apply map_ext. intros r.
    now destruct (Nat.eqb (Store.bill_id r) b).
  - now rewrite map_app.
Qed.

(** X10. Whatever fails, [saveBill] never changes the id, the number or
    the date of a bill: the bills have the same ids, numbers and dates as
    before, in the same order, or, with no bill bound, exactly one row is
    added at the end, with the next id, the next bill number and the date
    of the store clock. *)
Theorem saveBill_keeps_numbers_and_dates (p : bool) (st : Billing.State)
    (e : Env) :
  let key := fun r => (Store.bill_id r, Store.bill_number r, Store.bill_date r) in
  let s := store e in
  let s' := store (envOf (Billing.saveBill p st e)) in
  map key (Store.bills s') = map key (Store.bills s)
  \/ (Billing.currentBillId st = None
      /\ map key (Store.bills s')
         = (map key (Store.bills s)
            ++ [(Store.next_id s, Store.next_bill_number s, Store.clock s)])%list).
Proof.
  cbv zeta.
  destruct (saveBill_store p st e) as [-> |[-> | ->]]; [now left| |];
    rewrite ?insert_items_bills;
    pose proof (afterWrite_rows (Billing.currentBillId st)
                  (Billing.billDataOf p st) (faults e) (store e)) as H;
    cbv zeta in H; rewrite H;
    (destruct (Billing.currentBillId st);
     [left; now rewrite app_nil_r|];
     destruct (Stage.accepted _);
     [right; split; reflexivity|left; now rewrite app_nil_r]).
Qed.

Lemma afterWrite_other cur d fs (s : Store.t) (b' : Id) :
  b' <> Stage.writtenId cur s ->
  filter (fun r => Nat.eqb (Store.bill_id r) b')
    (Store.bills (Stage.afterWrite cur d fs s))
  = filter (fun r => Nat.eqb (Store.bill_id r) b') (Store.bills s)
  /\ filter (fun i => Nat.eqb (Store.item_bill_id i) b')
       (Store.bill_items (Stage.afterWrite cur d fs s))
     = filter (fun i => Nat.eqb (Store.item_bill_id i) b') (Store.bill_items s).
Proof.
  intros Hb. unfold Stage.afterWrite, Stage.accepted, Store.update_bill,
    Store.insert_bill.
  destruct (Store.checked_bill d) as [v|]; destruct cur as [b|]; cbn in Hb;
    try (split; reflexivity).
  - assert (Hrows : filter (fun r => Nat.eqb (Store.bill_id r) b')
                      (map (fun r => if Nat.eqb (Store.bill_id r) b
                                     then Store.write_bill v r else r)
                         (Store.bills s))
                    = filter (fun r => Nat.eqb (Store.bill_id r) b')
                        (Store.bills s)).
    { induction (Store.bills s) as [|r l IH]; [reflexivity|]. cbn.
      destruct (Nat.eqb (Store.bill_id r) b) eqn:E; cbn.
      - apply Nat.eqb_eq in E. rewrite E.
        assert (E' : Nat.eqb b b' = false) by (apply Nat.eqb_neq; congruence).
        now rewrite E'.
      - now rewrite IH. }
    assert (Hitems : filter (fun i => Nat.eqb (Store.item_bill_id i) b')
                       (filter (fun i => negb (Nat.eqb (Store.item_bill_id i) b))
                          (Store.bill_items s))
                     = filter (fun i => Nat.eqb (Store.item_bill_id i) b')
                         (Store.bill_items s)).
    { induction (Store.bill_items s) as [|i l IH]; [reflexivity|]. cbn.
      destruct (Nat.eqb (Store.item_bill_id i) b) eqn:E; cbn.
      - apply Nat.eqb_eq in E. rewrite E.
        assert (E' : Nat.eqb b b' = false) by (apply Nat.eqb_neq; congruence).
        now rewrite E'.
      - now rewrite IH. }
    destruct (nth 1 fs None); (split; [exact Hrows|]);
      [reflexivity|exact Hitems].
  - cbn. split; [|reflexivity]. rewrite filter_app. cbn.
    assert (E' : Nat.eqb (Store.next_id s) b' = false)
      by (apply Nat.eqb_neq; congruence).
    rewrite E'. now rewrite app_nil_r.
Qed.

Lemma insert_items_other (b b' : Id) (c : list Billing.CartItem) (s : Store.t) :
  b' <> b ->
  filter (fun i => Nat.eqb (Store.item_bill_id i) b')
    (Store.bill_items (snd (Store.insert_items (Billing.itemsOf b c) s)))
  = filter (fun i => Nat.eqb (Store.item_bill_id i) b') (Store.bill_items s).
Proof.
  intros Hb. unfold Store.insert_items.
  destruct (Store.checked_items _) as [vs|] eqn:V; [|reflexivity].
  destruct (forallb _ _); [|reflexivity]. cbn. rewrite filter_app.
  rewrite (filter_none _ (Store.new_items _ _)); [now rewrite app_nil_r|].
  intros i Hi.
  destruct (checked_lines b c vs (Store.next_id s) V) as (_ & _ & _ & H4).
  rewrite (proj1 (Forall_forall _ _) H4 i Hi).
  apply Nat.eqb_neq. congruence.
Qed.

(** X11. Whatever fails, [saveBill] touches only the bill it writes: the
    rows and the items of every other bill id are as before. *)
Theorem saveBill_leaves_other_bills (p : bool) (st : Billing.State) (e : Env)
    (b' : Id) :
  b' <> Stage.writtenId (Billing.currentBillId st) (store e) ->
  let s' := store (envOf (Billing.saveBill p st e)) in
  filter (fun r => Nat.eqb (Store.bill_id r) b') (Store.bills s')
  = filter (fun r => Nat.eqb (Store.bill_id r) b') (Store.bills (store e))
  /\ filter (fun i => Nat.eqb (Store.item_bill_id i) b') (Store.bill_items s')
     = filter (fun i => Nat.eqb (Store.item_bill_id i) b')
         (Store.bill_items (store e)).
Proof.
  intros Hb. cbv zeta.
  destruct (afterWrite_other (Billing.currentBillId st)
              (Billing.billDataOf p st) (faults e) (store e) b' Hb) as [A1 A2].
  destruct (saveBill_store p st e) as [-> |[-> | ->]].
  - split; reflexivity.
  - split; assumption.
  - rewrite insert_items_bills, insert_items_other by exact Hb.
    split; assumption.
Qed.
End SaveExtras.

Section Sorting.
Context {A : Type} (key : A -> Z).

Lemma insert_by_perm (x : A) (rows : list A) :
  Permutation (Store.insert_by key x rows) (x :: rows).
Proof.
  induction rows as [|y rows IH]; simpl; [apply Permutation_refl|].
  destruct (key x <? key y); [apply Permutation_refl|].
  eapply perm_trans; [apply perm_skip, IH|apply perm_swap].
Qed.

Lemma insert_by_sorted (x : A) (rows : list A) :
  StronglySorted (fun a b => key a <= key b) rows ->
  StronglySorted (fun a b => key a <= key b) (Store.insert_by key x rows).
Proof.
  induction 1 as [|y rows Hs IH Hy]; simpl.
  - constructor; constructor.
  - destruct (Z.ltb_spec (key x) (key y)) as [Hlt|Hge].
    + constructor; [now constructor|].
      constructor; [lia|]. eapply Forall_impl; [|exact Hy].
      intros a Ha. simpl in Ha. lia.
    + constructor; [exact IH|].
      eapply Permutation_Forall; [apply Permutation_sym, insert_by_perm|].
      constructor; [exact Hge|exact Hy].
Qed.

Lemma fold_insert_perm (rows acc : list A) :
  Permutation (fold_left (fun acc x => Store.insert_by key x acc) rows acc)
    (rows ++ acc).
Proof.
  revert acc. induction rows as [|x rows IH]; intros acc; simpl;
    [apply Permutation_refl|].
  eapply perm_trans; [apply IH|].
  eapply perm_trans; [apply Permutation_app_head, insert_by_perm|].
  apply Permutation_sym, Permutation_middle.
Qed.

Lemma fold_insert_sorted (rows acc : list A) :
  StronglySorted (fun a b => key a <= key b) acc ->
  StronglySorted (fun a b => key a <= key b)
    (fold_left (fun acc x => Store.insert_by key x acc) rows acc).
Proof.
  revert acc. induction rows as [|x rows IH]; intros acc H; simpl;
    [exact H|].
  apply IH. now apply insert_by_sorted.
Qed.
End Sorting.

Lemma order_by_perm {A} (key : A -> Z) (asc : bool) (rows : list A) :
  Permutation (Store.order_by key asc rows) rows.
Proof.
  unfold Store.order_by. eapply perm_trans; [apply fold_insert_perm|].
  now rewrite app_nil_r.
Qed.

Lemma order_by_in {A} (key : A -> Z) (asc : bool) (rows : list A) (x : A) :
  In x (Store.order_by key asc rows) <-> In x rows.
Proof.
  split; apply Permutation_in;
    [apply order_by_perm|apply Permutation_sym, order_by_perm].
Qed.

Lemma order_by_descending {A} (key : A -> Z) (rows : list A) :
  StronglySorted (fun a b => key b <= key a) (Store.order_by key false rows).
Proof.
  unfold Store.order_by.
  assert (H : StronglySorted (fun a b => - key a <= - key b)
                (fold_left (fun acc x => Store.insert_by (fun a => - key a) x acc)
                   rows []))
    by (apply fold_insert_sorted; constructor).
  induction H as [|x l Hs IH Hx]; constructor; [assumption|].
  eapply Forall_impl; [|exact Hx]. intros a Ha. simpl in Ha. lia.
Qed.

Lemma order_by_ascending {A} (key : A -> Z) (rows : list A) :
  StronglySorted (fun a b => key a <= key b) (Store.order_by key true rows).
Proof.
  unfold Store.order_by. apply fold_insert_sorted. constructor.
Qed.

Section Refresh.
Context {N : JsNumber} {DB : Columns} {L : Locale}.

Lemma request_env {S A} (r : Request) (exec : Store.t -> Response A * Store.t)
    (st : S) (e : Env) :
  now (envOf (request r exec st e)) = now e
  /\ popups_blocked (envOf (request r exec st e)) = popups_blocked e
  /\ printed (envOf (request r exec st e)) = printed e.
Proof.
  unfold request, envOf. destruct (next_fault (faults e)) as [f rest].
  destruct (match f with Some msg => (Err msg, store e) | None => exec (store e) end).
  repeat split.
Qed.

(** What a read answers. *)
Lemma read_run {S A} (r : Request) (q : Store.t -> Response A) (st : S) (e : Env) :
  request r (Store.read q) st e
  = (match nth 0 (faults e) None with
     | Some msg => Err msg
     | None => q (store e)
     end, st,
     {| store := store e; faults := skipn 1 (faults e);
        log := (log e ++ [r])%list; toasts := toasts e;
        printed := printed e; popups_blocked := popups_blocked e;
        now := now e |}).
Proof.
  unfold request, Store.read. destruct e as [s fs lg ts pr pb nw]. cbn.
  destruct fs as [|[m|] fs]; reflexivity.
Qed.

Lemma fetchSavedBills_run (st : Billing.State) (e : Env) :
  Billing.fetchSavedBills st e
  = (tt,
     Billing.setSavedBills
       match nth 0 (faults e) None with
       | Some _ => []
       | None => View.draftsOf (store e)
       end st,
     {| store := store e; faults := skipn 1 (faults e);
        log := (log e ++ [SelectDrafts])%list; toasts := toasts e;
        printed := printed e; popups_blocked := popups_blocked e;
        now := now e |}).
Proof.
  unfold Billing.fetchSavedBills, bind. rewrite read_run. unfold modify.
  destruct (nth 0 (faults e) None); reflexivity.
Qed.

Lemma fetchTodayRevenue_run (st : Billing.State) (e : Env) :
  Billing.fetchTodayRevenue st e
  = (tt,
     Billing.setTodayRevenue
       match nth 0 (faults e) None with
       | Some _ => of_Z 0
       | None => View.orZero (View.totalSince (startOfDay (now e)) (store e))
       end st,
     {| store := store e; faults := skipn 1 (faults e);
        log := (log e ++ [SelectFinalizedSince (startOfDay (now e))])%list;
        toasts := toasts e;
        printed := printed e; popups_blocked := popups_blocked e;
        now := now e |}).
Proof.
  unfold Billing.fetchTodayRevenue, bind, env. rewrite read_run. unfold modify.
  destruct (nth 0 (faults e) None); reflexivity.
Qed.

Lemma printBill_env (b : Id) (st : Billing.State) (e : Env) :
  stateOf (Billing.printBill b st e) = st
  /\ store (envOf (Billing.printBill b st e)) = store e
  /\ now (envOf (Billing.printBill b st e)) = now e
  /\ faults (envOf (Billing.printBill b st e)) = skipn 2 (faults e).
Proof.
  assert (Hsk : skipn 1 (skipn 1 (faults e)) = skipn 2 (faults e))
    by (now rewrite skipn_skipn).
  unfold Billing.printBill, bind. rewrite !read_run. cbn [faults store].
  unfold env, get, print, ret, stateOf, envOf.
  destruct (nth 0 (faults e) None);
    [|destruct (Store.bill_by_id b (store e))];
    destruct (nth 0 (skipn 1 (faults e)) None); cbn;
    try destruct (Store.items_of b (store e)); cbn;
    try destruct (popups_blocked e); cbn; repeat split;
    try (destruct (faults e) as [|? [|? ?]]; reflexivity).
Qed.

Lemma request_ok {S A} (r : Request) (exec : Store.t -> Response A * Store.t)
    (st : S) (e : Env) :
  nth 0 (faults e) None = None ->
  request r exec st e
  = (fst (exec (store e)), st,
     {| store := snd (exec (store e)); faults := skipn 1 (faults e);
        log := (log e ++ [r])%list; toasts := toasts e;
        printed := printed e; popups_blocked := popups_blocked e;
        now := now e |}).
Proof.
  unfold request. destruct e as [s fs lg ts pr pb nw]. cbn.
  destruct fs as [|[m|] fs]; cbn; intros H; try discriminate H;
    destruct (exec s); reflexivity.
Qed.

Lemma nth_skipn_none (fs : list (option string)) (j k : nat) :
  Forall (fun f => f = None) fs -> nth k (skipn j fs) None = None.
Proof.
  intros H.
  destruct (nth_in_or_default k (skipn j fs) None) as [Hin|E]; [|exact E].
  rewrite Forall_forall in H. apply H.
  revert Hin. generalize (nth k (skipn j fs) None). revert fs H.
  induction j as [|j IH]; intros [|x fs] H o; simpl; auto.
  intros Hin. right. eapply IH; [|exact Hin].
  intros y Hy. apply H. now right.
Qed.

Lemma printed_or_not_env (p : bool) (b : Id) (st : Billing.State) (e : Env) :
  stateOf ((if p then Billing.printBill b else ret tt) st e) = st
  /\ store (envOf ((if p then Billing.printBill b else ret tt) st e)) = store e
  /\ now (envOf ((if p then Billing.printBill b else ret tt) st e)) = now e
  /\ exists j, faults (envOf ((if p then Billing.printBill b else ret tt) st e))
               = skipn j (faults e).
Proof.
  destruct p.
  - destruct (printBill_env b st e) as (P1 & P2 & P3 & P4).
    repeat split; try assumption. exists 2%nat. exact P4.
  - repeat split. exists 0%nat. reflexivity.
Qed.

Lemma none_pending_skipn (fs : list (option string)) (j : nat) :
  Forall (fun f => f = None) fs -> Forall (fun f => f = None) (skipn j fs).
Proof.
  revert fs. induction j as [|j IH]; intros [|x fs] H; simpl; auto.
  apply IH. now inversion H.
Qed.

Lemma finish_state (p : bool) (b : Id) (st : Billing.State) (e : Env) :
  Forall (fun f => f = None) (faults e) ->
  stateOf (Stage.finish p b st e)
  = Billing.setTodayRevenue
      (View.orZero (View.totalSince (startOfDay (now e)) (store e)))
      (Billing.setSavedBills (View.draftsOf (store e)) (Billing.clearCart st)).
Proof.
  intros Hf. unfold Stage.finish, bind, toast, modify. cbv beta iota zeta.
  match goal with
  | |- context [(if p then _ else _) st ?e0] =>
      pose proof (printed_or_not_env p b st e0) as H;
      destruct ((if p then Billing.printBill b else ret tt) st e0)
         as [[u st1] e1]
  end.
  unfold stateOf, envOf in H. cbn [fst snd store now faults] in H.
  destruct H as (-> & S1 & N1 & [j F1]).
  rewrite fetchSavedBills_run, fetchTodayRevenue_run. unfold stateOf.
  cbn [fst snd faults store now]. rewrite F1, skipn_skipn.
  rewrite !nth_skipn_none by exact Hf. now rewrite S1, N1.
Qed.

Lemma writeBill_now (d : Store.BillData) (cur : option Id)
    (st : Billing.State) (e : Env) :
  now (envOf (Stage.writeBill d cur st e)) = now e.
Proof.
  unfold Stage.writeBill, bind, request, toast, ret, envOf,
    Store.update_bill, Store.insert_bill.
  destruct e as [s fs lg ts pr pb nw].
  destruct (Store.checked_bill d) as [v|m]; destruct cur as [b|];
    destruct fs as [|[m0|] [|[m1|] fs]]; reflexivity.
Qed.

(** A save on which nothing is refused reaches its last stage. *)
Lemma saveBill_finishes (p : bool) (st : Billing.State) (e : Env) :
  Billing.cart st <> [] ->
  Spec.no_faults e ->
  (forall b, Billing.currentBillId st = Some b ->
             Store.has_bill b (store e) = true) ->
  Spec.storable st ->
  exists e2,
    Billing.saveBill p st e
    = Stage.finish p (Stage.writtenId (Billing.currentBillId st) (store e))
        st e2
    /\ now e2 = now e
    /\ Forall (fun f => f = None) (faults e2).
Proof.
  intros Hc Hf Hb Hs.
  pose proof (storable_accepted p st Hs) as Ha.
  destruct Hs as (_ & _ & _ & _ & Hl).
  destruct (storable_items
              (Stage.writtenId (Billing.currentBillId st) (store e))
              (Billing.cart st) Hl) as [vs Hvs].
  pose proof (has_bill_written (Billing.currentBillId st)
                (Billing.billDataOf p st) (faults e) (store e) Hb Ha) as Hw.
  rewrite saveBill_stages.
  destruct (Billing.cart st) as [|c0 c] eqn:C; [contradiction|]. clear Hc.
  unfold bind.
  pose proof (writeBill_run (Billing.billDataOf p st)
                (Billing.currentBillId st) st e) as W.
  pose proof (writeBill_now (Billing.billDataOf p st)
                (Billing.currentBillId st) st e) as Nw.
  cbv zeta in W.
  destruct (Stage.writeBill _ _ st e) as [[w st1] e1].
  unfold stateOf, envOf in W, Nw. cbn [fst snd] in W, Nw.
  rewrite (no_faults_nth _ 0 Hf), Ha in W.
  destruct W as (-> & _ & -> & S1 & _ & F1).
  assert (F : Forall (fun f => f = None) (faults e1))
    by (rewrite F1; apply none_pending_skipn; exact Hf).
  unfold Stage.insertItems, bind.
  rewrite request_ok by exact (nth_skipn_none (faults e1) 0 0 F).
  rewrite S1, (insert_items_accepted _ (c0 :: c) vs _ Hw Hvs).
  cbn [fst snd]. eexists. split; [reflexivity|].
  split; [exact Nw|]. cbn [faults]. apply none_pending_skipn. exact F.
Qed.

(** What the page shows after a save on which nothing is refused: the
    drafts and today's revenue of the store as the save left it. *)
Lemma saveBill_refreshed (p : bool) (st : Billing.State) (e : Env) :
  Billing.cart st <> [] ->
  Spec.no_faults e ->
  (forall b, Billing.currentBillId st = Some b ->
             Store.has_bill b (store e) = true) ->
  Spec.storable st ->
  stateOf (Billing.saveBill p st e)
  = Billing.setTodayRevenue
      (View.orZero
         (View.totalSince (startOfDay (now e))
            (store (envOf (Billing.saveBill p st e)))))
      (Billing.setSavedBills
         (View.draftsOf (store (envOf (Billing.saveBill p st e))))
         (Billing.clearCart st)).
Proof.
  intros Hc Hf Hb Hs.
  destruct (saveBill_finishes p st e Hc Hf Hb Hs) as (e2 & -> & Hn & F).
  rewrite (finish_state p _ st e2 F).
  destruct (finish_run p (Stage.writtenId (Billing.currentBillId st) (store e))
              st e2) as (_ & -> & _).
  now rewrite Hn.
Qed.
End Refresh.

Section PrintExtras.
Context {N : JsNumber} {DB : Columns} {L : Locale}.

Lemma nth_1_skipn {A} (l : list A) (d : A) : nth 0 (skipn 1 l) d = nth 1 l d.
Proof. destruct l as [|x [|y l]]; reflexivity. Qed.

(** X12. [printBill] of the billing page changes neither the session nor
    the store and shows no toast. It writes one document, titled with the
    number of the bill and holding the receipt of the bill row and its
    items as the store has them, exactly when both reads are answered, the
    bill row is found and the pop-up is not blocked; otherwise it writes
    nothing. *)
Theorem printBill_prints (b : Id) (st : Billing.State) (e : Env) :
  let r := Billing.printBill b st e in
  stateOf r = st
  /\ store (envOf r) = store e
  /\ toasts (envOf r) = toasts e
  /\ printed (envOf r)
     = match nth 0 (faults e) None, nth 1 (faults e) None,
             Store.bill_by_id b (store e), popups_blocked e with
       | None, None, Ok bill, false =>
           (printed e
            ++ [ {| doc_title := "Bill #" ++ Str.ofZ (Store.bill_number bill);
                    doc_receipt :=
                      Billing.receiptText st bill
                        (filter (fun i => Nat.eqb (Store.item_bill_id i) b)
                           (Store.bill_items (store e))) |} ])%list
       | _, _, _, _ => printed e
       end.
Proof.
  cbv zeta. unfold Billing.printBill, bind. rewrite !read_run.
  cbn [faults store]. rewrite nth_1_skipn.
  unfold env, get, print, ret, stateOf, envOf, Store.items_of.
  destruct (nth 0 (faults e) None);
    [|destruct (Store.bill_by_id b (store e))];
    destruct (nth 1 (faults e) None); cbn;
    try destruct (popups_blocked e); cbn; repeat split.
Qed.

(** X13. When the settings cannot be read (the request fails, or the table
    does not hold exactly one row), the history page still prints the
    selected bill and shows no toast: the receipt is the one built without
    settings, and it starts with the default shop name "My Shop", centred. *)
Theorem reprint_without_settings (st : PreviousBills.State) (e : Env)
    (bill : Store.Bill) :
  PreviousBills.selectedBill st = Some bill ->
  popups_blocked e = false ->
  (forall s, Store.the_settings (store e) <> Ok s)
  \/ (exists msg, nth 0 (faults e) None = Some msg) ->
  let r := PreviousBills.printBill st e in
  toasts (envOf r) = toasts e
  /\ printed (envOf r)
     = (printed e
        ++ [ {| doc_title := "Bill #" ++ Str.ofZ (Store.bill_number bill);
                doc_receipt :=
                  PreviousBills.receiptText None bill
                    (PreviousBills.billItems st) |} ])%list
  /\ exists rest,
       PreviousBills.receiptText None bill (PreviousBills.billItems st)
       = PreviousBills.center "My Shop" 32 ++ newline ++ rest.
Proof.
  intros Hsel Hpop Hset. cbv zeta.
  assert (Hrec : exists rest,
             PreviousBills.receiptText None bill (PreviousBills.billItems st)
             = PreviousBills.center "My Shop" 32 ++ newline ++ rest).
  { unfold PreviousBills.receiptText. cbv zeta.
    destruct (Store.bill_payment_method bill) as [m|];
      [destruct (Str.truthy m)|];
      destruct (gtb (Store.bill_discount bill) (of_Z 0));
      eexists; rewrite fold_append;
      change ("" ++ PreviousBills.center "My Shop" 32 ++ newline)
        with (PreviousBills.center "My Shop" 32 ++ newline);
      match goal with |- _ = ?rhs => set (target := rhs) end;
      rewrite !append_assoc; subst target; reflexivity. }
  assert (Hnone : data_of (match nth 0 (faults e) None with
                           | Some msg => Err msg
                           | None => Store.the_settings (store e)
                           end) = None).
  { destruct (nth 0 (faults e) None); [reflexivity|].
    destruct Hset as [H|[msg H]]; [|discriminate].
    destruct (Store.the_settings (store e)) as [s0|];
      [now contradiction (H s0)|reflexivity]. }
  assert (Hrun : envOf (PreviousBills.printBill st e)
                 = {| store := store e; faults := skipn 1 (faults e);
                      log := (log e ++ [SelectSettings])%list;
                      toasts := toasts e;
                      printed :=
                        (printed e
                         ++ [ {| doc_title :=
                                   "Bill #" ++ Str.ofZ (Store.bill_number bill);
                                 doc_receipt :=
                                   PreviousBills.receiptText None bill
                                     (PreviousBills.billItems st) |} ])%list;
                      popups_blocked := popups_blocked e; now := now e |}).
  { unfold PreviousBills.printBill, bind, get. cbv beta iota. rewrite Hsel.
    rewrite read_run. unfold env. cbv beta iota. cbn [popups_blocked].
    rewrite Hpop. unfold print, envOf.
    cbn [snd store faults log toasts printed popups_blocked now].
    rewrite Hnone. reflexivity. }
  rewrite Hrun. cbn [toasts printed].
  split; [reflexivity|]. split; [reflexivity|exact Hrec].
Qed.
End PrintExtras.

Section AfterSave.
Context {N : JsNumber} {DB : Columns} {L : Locale}.

Lemma draft_written (p : bool) (st : Billing.State) (v : Store.BillData)
    (r : Store.Bill) :
  Store.d_status v = Store.d_status (Billing.billDataOf p st) ->
  Store.is_draft (Store.write_bill v r) = negb p.
Proof.
  unfold Store.is_draft. cbn [Store.write_bill Store.bill_status].
  intros ->. now destruct p.
Qed.

Lemma written_row_drafted (p : bool) (st : Billing.State) (s : Store.t) :
  Spec.store_ok s ->
  (forall b, Billing.currentBillId st = Some b -> Store.has_bill b s = true) ->
  Stage.accepted (Billing.billDataOf p st) = true ->
  (exists row,
     In row (filter Store.is_draft
               (Store.bills (Stage.written (Billing.currentBillId st)
                               (Billing.billDataOf p st) s)))
     /\ Store.bill_id row = Stage.writtenId (Billing.currentBillId st) s)
  <-> p = false.
Proof.
  intros (Hnd & Hlt & _) Hb Ha.
  destruct (accepted_checked _ Ha) as (v & Hv & Hst & _).
  unfold Stage.written, Store.update_bill, Store.insert_bill. rewrite Hv.
  destruct (Billing.currentBillId st) as [b|];
    cbn [Stage.writtenId snd Store.bills].
  - specialize (Hb b eq_refl). apply has_bill_iff in Hb as (r0 & Hin0 & Hid0).
    split.
    + intros (row & Hin & Hid). apply filter_In in Hin as [Hin Hd].
      apply in_map_iff in Hin as (r & <- & Hr).
      destruct (Nat.eqb_spec (Store.bill_id r) b) as [E|E];
        [|contradiction].
      rewrite (draft_written p st v r Hst) in Hd. now destruct p.
    + intros ->. exists (Store.write_bill v r0).
      split; [|exact Hid0]. apply filter_In.
      split; [|exact (draft_written false st v r0 Hst)].
      apply in_map_iff. exists r0. split; [|exact Hin0].
      rewrite Hid0, Nat.eqb_refl. reflexivity.
  - split.
    + intros (row & Hin & Hid). apply filter_In in Hin as [Hin Hd].
      apply in_app_iff in Hin as [Hin|[<-|[]]].
      * apply Hlt in Hin. lia.
      * unfold Store.is_draft in Hd. cbn [Store.bill_status] in Hd.
        rewrite Hst in Hd. now destruct p.
    + intros ->. eexists. split.
      * apply filter_In. split.
        -- apply in_app_iff. right. left. reflexivity.
        -- unfold Store.is_draft. cbn [Store.bill_status]. now rewrite Hst.
      * reflexivity.
Qed.

(** X14. After a save on which nothing is refused, the "Saved Bills" panel
    lists exactly the drafts of the store as the save left it, newest
    first, and it lists the bill just saved exactly when it was saved
    without printing. *)
Theorem savedBills_after_save (p : bool) (st : Billing.State) (e : Env) :
  Billing.cart st <> [] ->
  Spec.no_faults e ->
  Spec.store_ok (store e) ->
  (forall b, Billing.currentBillId st = Some b ->
             Store.has_bill b (store e) = true) ->
  Spec.storable st ->
  let listed := Billing.savedBills (stateOf (Billing.saveBill p st e)) in
  Permutation listed
    (filter Store.is_draft (Store.bills (store (envOf (Billing.saveBill p st e)))))
  /\ StronglySorted
       (fun a b => Store.bill_created_at b <= Store.bill_created_at a) listed
  /\ ((exists row,
         In row listed
         /\ Store.bill_id row
            = Stage.writtenId (Billing.currentBillId st) (store e))
      <-> p = false).
Proof.
  intros Hc Hf Hok Hb Hs. cbv zeta.
  rewrite (saveBill_refreshed p st e Hc Hf Hb Hs).
  cbn [Billing.savedBills Billing.setTodayRevenue Billing.setSavedBills].
  unfold View.draftsOf.
  split; [apply order_by_perm|]. split; [apply order_by_descending|].
  rewrite <- (written_row_drafted p st (store e) Hok Hb
                (storable_accepted p st Hs)).
  rewrite (saveBill_bills p st e Hc (no_faults_nth e 0 Hf)).
  split; intros (row & Hin & Hid); exists row; (split; [|exact Hid]).
  + now apply order_by_in in Hin.
  + now apply order_by_in.
Qed.

(** X15. After the save of a new bill on which nothing is refused, today's
    revenue is [sum || 0], where "Save" leaves the sum over the store as
    it was before and "Save & Print" adds to it the total of the bill as
    its column holds it (the start of the browser's day being no later
    than the date the store gives the bill). *)
Theorem revenue_after_new_bill (p : bool) (st : Billing.State) (e : Env) :
  Billing.cart st <> [] ->
  Spec.no_faults e ->
  Billing.currentBillId st = None ->
  Spec.storable st ->
  (p = true -> startOfDay (now e) <= Store.clock (store e)) ->
  exists total,
    decimal_10_2 (Billing.total (Billing.calculateTotals st)) = Some total
    /\ Billing.todayRevenue (stateOf (Billing.saveBill p st e))
       = View.orZero
           (if p
            then add (View.totalSince (startOfDay (now e)) (store e)) total
            else View.totalSince (startOfDay (now e)) (store e)).
Proof.
  intros Hc Hf Hcur Hs Hday.
  assert (Hb : forall b, Billing.currentBillId st = Some b ->
                         Store.has_bill b (store e) = true)
    by (intros b Hb; rewrite Hcur in Hb; discriminate Hb).
  rewrite (saveBill_refreshed p st e Hc Hf Hb Hs).
  cbn [Billing.todayRevenue Billing.setTodayRevenue].
  unfold View.totalSince.
  rewrite (saveBill_bills p st e Hc (no_faults_nth e 0 Hf)), Hcur.
  pose proof (storable_accepted p st Hs) as Ha.
  unfold Stage.accepted in Ha.
  unfold Stage.written, Store.insert_bill, Store.checked_bill in *.
  cbn [Billing.billDataOf Store.d_subtotal Store.d_tax_amount
       Store.d_discount Store.d_total Store.d_status] in *.
  destruct (decimal_10_2 (Billing.subtotal _)); [|discriminate Ha].
  destruct (decimal_10_2 (Billing.taxAmount _)); [|discriminate Ha].
  destruct (decimal_10_2 (Billing.discount st)); [|discriminate Ha].
  destruct (decimal_10_2 (Billing.total _)) as [total|]; [|discriminate Ha].
  destruct (Store.status_ok _); [|discriminate Ha].
  exists total. split; [reflexivity|]. f_equal.
  cbn [snd Store.bills]. rewrite filter_app, fold_left_app.
  cbn [filter Store.bill_date Store.bill_total Store.d_total].
  unfold Store.is_draft at 2. cbn [Store.bill_status Store.d_status].
  destruct p.
  - apply Z.leb_le in Hday; [|reflexivity]. rewrite Hday. reflexivity.
  - reflexivity.
Qed.
End AfterSave.

Section LoadExtras.
Context {N : JsNumber} {DB : Columns} {L : Locale}.

(** X16. When the items of a bill are read but its row is not (the request
    fails, or no single row has the id), [loadBill] still replaces the
    cart by the stored lines, and keeps the discount, the payment method
    and the bound bill of the session. *)
Theorem loadBill_without_bill_row (b : Id) (st : Billing.State) (e : Env) :
  nth 0 (faults e) None = None ->
  (exists msg, nth 1 (faults e) None = Some msg)
  \/ (exists msg, Store.bill_by_id b (store e) = Err msg) ->
  let st' := stateOf (Billing.loadBill b st e) in
  Billing.cart st'
  = map Stage.cartLineOf
      (filter (fun i => Nat.eqb (Store.item_bill_id i) b)
         (Store.bill_items (store e)))
  /\ Billing.discount st' = Billing.discount st
  /\ Billing.paymentMethod st' = Billing.paymentMethod st
  /\ Billing.currentBillId st' = Billing.currentBillId st.
Proof.
  intros H0 H1. cbv zeta.
  destruct (loadBill_run b st e) as [_ H]. rewrite H0 in H.
  assert (E : stateOf (Billing.loadBill b st e)
              = Billing.setCart
                  (map Stage.cartLineOf
                     (filter (fun i => Nat.eqb (Store.item_bill_id i) b)
                        (Store.bill_items (store e)))) st).
  { destruct H1 as [[msg H1]|[msg H1]]; rewrite H1 in H.
    - exact H.
    - destruct (nth 1 (faults e) None); exact H. }
  rewrite E. repeat split.
Qed.

(** X17. The lines of a loaded bill carry the ids of their [bill_items]
    rows, not of menu items: adding a menu item whose id is none of these
    appends a new line with quantity 1 after the loaded ones. *)
Theorem loaded_lines_carry_row_ids (b : Id) (item : Billing.MenuItem)
    (st : Billing.State) (e : Env) :
  nth 0 (faults e) None = None ->
  let rows := filter (fun i => Nat.eqb (Store.item_bill_id i) b)
                (Store.bill_items (store e)) in
  ~ In (Billing.mi_id item) (map Store.item_id rows) ->
  Billing.cart (Billing.addToCart item (stateOf (Billing.loadBill b st e)))
  = (map Stage.cartLineOf rows
     ++ [ {| Billing.ci_id := Billing.mi_id item;
             Billing.ci_name := Billing.mi_name item;
             Billing.ci_price := Billing.mi_price item;
             Billing.ci_quantity := 1;
             Billing.ci_category := Billing.mi_category item |} ])%list.
Proof.
  intros H0 rows Hnew.
  assert (E : Billing.cart (stateOf (Billing.loadBill b st e))
              = map Stage.cartLineOf rows).
  { destruct (loadBill_run b st e) as [_ H]. rewrite H0 in H.
    destruct (nth 1 (faults e) None);
      [|destruct (Store.bill_by_id b (store e))]; rewrite H; reflexivity. }
  rewrite addToCart_absent; rewrite E; [reflexivity|].
  rewrite map_map. exact Hnew.
Qed.
End LoadExtras.




Section Reads.
Context {N : JsNumber} {DB : Columns} {L : Locale}.

Lemma keeps_ret {S A} (a : A) : Frame.keepsStore (@ret _ S A a).
Proof. intros st e. reflexivity. Qed.

Lemma keeps_get {S} : Frame.keepsStore (@get _ S).
Proof. intros st e. reflexivity. Qed.

Lemma keeps_env {S} : Frame.keepsStore (@env _ S).
Proof. intros st e. reflexivity. Qed.

Lemma keeps_modify {S} (f : S -> S) : Frame.keepsStore (modify f).
Proof. intros st e. reflexivity. Qed.

Lemma keeps_toast {S} (t : string) (d : option string) (v : bool) :
  Frame.keepsStore (@toast _ S t d v).
Proof. intros st e. reflexivity. Qed.

Lemma keeps_print {S} (t r : string) : Frame.keepsStore (@print _ S t r).
Proof. intros st e. reflexivity. Qed.

Lemma keeps_read {S A} (r : Request) (q : Store.t -> Response A) :
  Frame.keepsStore (@request _ S A r (Store.read q)).
Proof. intros st e. rewrite read_run. reflexivity. Qed.

Lemma keeps_bind {S A B} (c : M S A) (k : A -> M S B) :
  Frame.keepsStore c -> (forall a, Frame.keepsStore (k a)) ->
  Frame.keepsStore (bind c k).
Proof.
  intros Hc Hk st e. unfold bind. specialize (Hc st e).
  destruct (c st e) as [[a st1] e1]. unfold envOf in Hc. cbn [snd] in Hc.
  rewrite <- Hc. apply Hk.
Qed.

Ltac keeps :=
  repeat first
    [ apply keeps_ret | apply keeps_get | apply keeps_env | apply keeps_modify
    | apply keeps_toast | apply keeps_print | apply keeps_read
    | apply keeps_bind; [|intros ?]
    | match goal with
      | |- Frame.keepsStore (match ?x with _ => _ end) => destruct x
      | |- Frame.keepsStore (if ?x then _ else _) => destruct x
      end ].

Lemma keeps_loadBill (b : Id) : Frame.keepsStore (Billing.loadBill b).
Proof. unfold Billing.loadBill. keeps. Qed.

(** X18. The handlers that only read never change the store, whatever
    fails and whatever the session: [fetchSettings], [fetchTodayRevenue],
    [fetchSavedBills], [printBill], [loadBill] and [loadBillById] of the
    billing page, [fetchBills], [viewBill] and [printBill] of the history
    page, [fetchRevenueData] of the report page. *)
Theorem reads_leave_store :
  Frame.keepsStore Billing.fetchSettings
  /\ Frame.keepsStore Billing.fetchTodayRevenue
  /\ Frame.keepsStore Billing.fetchSavedBills
  /\ (forall b, Frame.keepsStore (Billing.printBill b))
  /\ (forall b, Frame.keepsStore (Billing.loadBill b))
  /\ (forall b, Frame.keepsStore (Billing.loadBillById b))
  /\ Frame.keepsStore PreviousBills.fetchBills
  /\ (forall bill, Frame.keepsStore (PreviousBills.viewBill bill))
  /\ Frame.keepsStore PreviousBills.printBill
  /\ Frame.keepsStore Reports.fetchRevenueData.
Proof.
  repeat split; try intros b.
  - unfold Billing.fetchSettings. keeps.
  - unfold Billing.fetchTodayRevenue. keeps.
  - unfold Billing.fetchSavedBills. keeps.
  - unfold Billing.printBill. keeps.
  - apply keeps_loadBill.
  - unfold Billing.loadBillById. apply keeps_bind; [apply keeps_loadBill|].
    intros _. keeps.
  - unfold PreviousBills.fetchBills. keeps.
  - unfold PreviousBills.viewBill. keeps.
  - unfold PreviousBills.printBill. keeps.
  - unfold Reports.fetchRevenueData. keeps.
Qed.
End Reads.

Section Lists.
Context {N : JsNumber} {DB : Columns} {L : Locale}.

Lemma request_eq {S A} (r : Request) (exec : Store.t -> Response A * Store.t)
    (st : S) (e : Env) :
  request r exec st e
  = (match nth 0 (faults e) None with
     | Some msg => Err msg
     | None => fst (exec (store e))
     end, st,
     {| store := match nth 0 (faults e) None with
                 | Some _ => store e
                 | None => snd (exec (store e))
                 end;
        faults := skipn 1 (faults e);
        log := (log e ++ [r])%list; toasts := toasts e;
        printed := printed e; popups_blocked := popups_blocked e;
        now := now e |}).
Proof.
  unfold request. destruct e as [s fs lg ts pr pb nw]. cbn.
  destruct fs as [|[m|] fs]; cbn; try destruct (exec s); reflexivity.
Qed.

Lemma fetchBills_run (st : PreviousBills.State) (e : Env) :
  PreviousBills.fetchBills st e
  = (tt,
     match nth 0 (faults e) None with
     | Some _ => st
     | None => PreviousBills.setBills (View.historyOf (store e)) st
     end,
     {| store := store e; faults := skipn 1 (faults e);
        log := (log e ++ [SelectHistory])%list;
        toasts := match nth 0 (faults e) None with
                  | Some msg =>
                      (toasts e ++ [ {| toast_title := "Error";
                                        toast_description := Some msg;
                                        toast_destructive := true |} ])%list
                  | None => toasts e
                  end;
        printed := printed e; popups_blocked := popups_blocked e;
        now := now e |}).
Proof.
  unfold PreviousBills.fetchBills, bind. rewrite read_run.
  destruct (nth 0 (faults e) None); reflexivity.
Qed.

(** X19. [fetchBills] lists exactly the bills that are no drafts, the
    latest date first, and shows no toast; when the request fails the page
    is left as it was and the error is shown. *)
Theorem fetchBills_lists_history (st : PreviousBills.State) (e : Env) :
  let r := PreviousBills.fetchBills st e in
  match nth 0 (faults e) None with
  | None =>
      Permutation (PreviousBills.bills (stateOf r))
        (filter (fun row => negb (Store.is_draft row)) (Store.bills (store e)))
      /\ StronglySorted
           (fun a b => Store.bill_date b <= Store.bill_date a)
           (PreviousBills.bills (stateOf r))
      /\ toasts (envOf r) = toasts e
  | Some msg =>
      stateOf r = st
      /\ toasts (envOf r)
         = (toasts e ++ [ {| toast_title := "Error";
                             toast_description := Some msg;
                             toast_destructive := true |} ])%list
  end.
Proof.
  cbv zeta. rewrite fetchBills_run. unfold stateOf, envOf. cbn [fst snd toasts].
  destruct (nth 0 (faults e) None) as [msg|].
  - split; reflexivity.
  - cbn [PreviousBills.bills PreviousBills.setBills]. unfold View.historyOf.
    split; [apply order_by_perm|]. split; [apply order_by_descending|reflexivity].
Qed.

(** X20. The refresh of the billing page never shows a toast.
    [fetchSavedBills] lists exactly the drafts, newest first; when its
    request fails the list is emptied, and when the request of
    [fetchTodayRevenue] fails today's revenue is set to 0. *)
Theorem refresh_of_the_billing_page (st : Billing.State) (e : Env) :
  let r := Billing.fetchSavedBills st e in
  let v := Billing.fetchTodayRevenue st e in
  toasts (envOf r) = toasts e
  /\ toasts (envOf v) = toasts e
  /\ match nth 0 (faults e) None with
     | None =>
         Permutation (Billing.savedBills (stateOf r))
           (filter Store.is_draft (Store.bills (store e)))
         /\ StronglySorted
              (fun a b => Store.bill_created_at b <= Store.bill_created_at a)
              (Billing.savedBills (stateOf r))
     | Some _ =>
         Billing.savedBills (stateOf r) = []
         /\ Billing.todayRevenue (stateOf v) = of_Z 0
     end.
Proof.
  cbv zeta. rewrite fetchSavedBills_run, fetchTodayRevenue_run.
  unfold stateOf, envOf. cbn [fst snd toasts].
  split; [reflexivity|]. split; [reflexivity|].
  destruct (nth 0 (faults e) None) as [msg|];
    cbn [Billing.savedBills Billing.setSavedBills Billing.todayRevenue
         Billing.setTodayRevenue].
  - split; reflexivity.
  - unfold View.draftsOf. split; [apply order_by_perm|apply order_by_descending].
Qed.
End Lists.

Section DeleteExtras.
Context {N : JsNumber} {DB : Columns} {L : Locale}.

Lemma deleteBill_eq (st : PreviousBills.State) (e : Env) (bill : Store.Bill) :
  PreviousBills.billToDelete st = Some bill ->
  let b := Store.bill_id bill in
  let f0 := nth 0 (faults e) None in
  let f1 := nth 1 (faults e) None in
  let f2 := nth 2 (faults e) None in
  let s1 := match f0 with
            | Some _ => store e
            | None => snd (Store.delete_items_of b (store e))
            end in
  let s2 := match f1 with
            | Some _ => s1
            | None => snd (Store.delete_bill b s1)
            end in
  let error := fun msg => {| toast_title := "Error";
                             toast_description := Some msg;
                             toast_destructive := true |} in
  PreviousBills.deleteBill st e
  = (tt,
     PreviousBills.setBillToDelete None
       (PreviousBills.setDeleteDialogOpen false
          match f1, f2 with
          | None, None => PreviousBills.setBills (View.historyOf s2) st
          | _, _ => st
          end),
     {| store := s2;
        faults := match f1 with
                  | Some _ => skipn 2 (faults e)
                  | None => skipn 3 (faults e)
                  end;
        log := (log e ++ [DeleteItemsOf b; DeleteBill b]
                ++ match f1 with Some _ => [] | None => [SelectHistory] end)%list;
        toasts :=
          (toasts e
           ++ match f1 with
              | Some msg => [error msg]
              | None =>
                  {| toast_title := "Bill deleted";
                     toast_description :=
                       Some ("Bill #" ++ Str.ofZ (Store.bill_number bill)
                               ++ " has been deleted.")%string;
                     toast_destructive := false |}
                  :: match f2 with Some msg => [error msg] | None => [] end
              end)%list;
        printed := printed e; popups_blocked := popups_blocked e;
        now := now e |}).
Proof.
  intros Hb. cbv zeta.
  unfold PreviousBills.deleteBill, bind, get. cbv beta iota zeta. rewrite Hb.
  destruct e as [s fs lg ts pr pb nw]. cbn [faults store log toasts printed
    popups_blocked now].
  destruct fs as [|[m0|] [|[m1|] [|[m2|] fs]]]; cbn;
    rewrite <- ?app_assoc; reflexivity.
Qed.

Lemma filter_within {A} (want keep : A -> bool) (rows : list A) :
  (forall x, want x = true -> keep x = true) ->
  filter want (filter keep rows) = filter want rows.
Proof.
  intros H. induction rows as [|x rows IH]; [reflexivity|]. simpl.
  destruct (keep x) eqn:K; simpl.
  - now rewrite IH.
  - destruct (want x) eqn:W; [|exact IH].
    apply H in W. congruence.
Qed.

Lemma filter_twice {A} (want keep : A -> bool) (rows : list A) :
  filter want (filter keep rows) = filter (fun x => want x && keep x) rows.
Proof.
  induction rows as [|x rows IH]; [reflexivity|]. simpl.
  destruct (keep x); simpl; destruct (want x); simpl; now rewrite IH.
Qed.

Lemma other_key (b b' : Id) (k : Id) :
  b' <> b -> Nat.eqb k b' = true -> negb (Nat.eqb k b) = true.
Proof.
  intros Hne E. apply Nat.eqb_eq in E. subst k.
  apply negb_true_iff. now apply Nat.eqb_neq.
Qed.

(** X21. Whatever fails, [deleteBill] touches only the bill to delete: the
    rows and the items of every other bill id are as before. *)
Theorem deleteBill_leaves_other_bills (st : PreviousBills.State) (e : Env)
    (bill : Store.Bill) (b' : Id) :
  PreviousBills.billToDelete st = Some bill ->
  b' <> Store.bill_id bill ->
  let s' := store (envOf (PreviousBills.deleteBill st e)) in
  filter (fun r => Nat.eqb (Store.bill_id r) b') (Store.bills s')
  = filter (fun r => Nat.eqb (Store.bill_id r) b') (Store.bills (store e))
  /\ filter (fun i => Nat.eqb (Store.item_bill_id i) b') (Store.bill_items s')
     = filter (fun i => Nat.eqb (Store.item_bill_id i) b')
         (Store.bill_items (store e)).
Proof.
  intros Hb Hne. cbv zeta. rewrite (deleteBill_eq st e bill Hb).
  unfold envOf. cbn [snd store].
  destruct (nth 0 (faults e) None), (nth 1 (faults e) None);
    cbn [Store.delete_bill Store.delete_items_of snd Store.bills
         Store.bill_items];
    rewrite ?filter_within
      by (intros x; apply (other_key (Store.bill_id bill) b'); exact Hne);
    split; reflexivity.
Qed.

(** X22. When the items are deleted and the deletion of the bill row then
    fails, the bill stays in the store without items: the error is shown,
    the list of the page is not refreshed, and the dialog is closed. *)
Theorem deleteBill_half_done (st : PreviousBills.State) (e : Env)
    (bill : Store.Bill) (msg : string) :
  PreviousBills.billToDelete st = Some bill ->
  nth 0 (faults e) None = None ->
  nth 1 (faults e) None = Some msg ->
  let r := PreviousBills.deleteBill st e in
  Store.bills (store (envOf r)) = Store.bills (store e)
  /\ filter (fun i => Nat.eqb (Store.item_bill_id i) (Store.bill_id bill))
       (Store.bill_items (store (envOf r))) = []
  /\ toasts (envOf r)
     = (toasts e ++ [ {| toast_title := "Error";
                         toast_description := Some msg;
                         toast_destructive := true |} ])%list
  /\ PreviousBills.bills (stateOf r) = PreviousBills.bills st
  /\ PreviousBills.deleteDialogOpen (stateOf r) = false
  /\ PreviousBills.billToDelete (stateOf r) = None.
Proof.
  intros Hb H0 H1. cbv zeta. rewrite (deleteBill_eq st e bill Hb).
  rewrite H0, H1. unfold envOf, stateOf. cbn [fst snd store toasts].
  split; [reflexivity|]. split; [|repeat split].
  cbn [Store.delete_items_of snd Store.bill_items].
  apply filter_none. intros i Hi. apply filter_In in Hi as [_ Hi].
  now apply negb_true_iff in Hi.
Qed.

(** X23. After a deletion that was not refused, the deleted bill is no
    longer in the list: when the refresh is answered the list holds
    exactly the other bills that are no drafts; when the refresh fails the
    list is the one shown before. *)
Theorem deleted_bill_not_listed (st : PreviousBills.State) (e : Env)
    (bill : Store.Bill) :
  PreviousBills.billToDelete st = Some bill ->
  nth 1 (faults e) None = None ->
  let r := PreviousBills.deleteBill st e in
  match nth 2 (faults e) None with
  | None =>
      (forall row, In row (PreviousBills.bills (stateOf r)) ->
                   Store.bill_id row <> Store.bill_id bill)
      /\ Permutation (PreviousBills.bills (stateOf r))
           (filter (fun row => negb (Store.is_draft row)
                               && negb (Nat.eqb (Store.bill_id row)
                                          (Store.bill_id bill)))
              (Store.bills (store e)))
  | Some _ => PreviousBills.bills (stateOf r) = PreviousBills.bills st
  end.
Proof.
  intros Hb H1. cbv zeta. rewrite (deleteBill_eq st e bill Hb).
  rewrite H1. unfold stateOf. cbn [fst snd].
  destruct (nth 2 (faults e) None) as [msg|]; [reflexivity|].
  cbn [PreviousBills.bills PreviousBills.setBillToDelete
       PreviousBills.setDeleteDialogOpen PreviousBills.setBills].
  assert (Hrows : Store.bills
                    (snd (Store.delete_bill (Store.bill_id bill)
                            match nth 0 (faults e) None with
                            | Some _ => store e
                            | None =>
                                snd (Store.delete_items_of (Store.bill_id bill)
                                       (store e))
                            end))
                  = filter (fun r => negb (Nat.eqb (Store.bill_id r)
                                             (Store.bill_id bill)))
                      (Store.bills (store e)))
    by (destruct (nth 0 (faults e) None); reflexivity).
  unfold View.historyOf. rewrite Hrows. split.
  - intros row Hin. apply order_by_in in Hin.
    apply filter_In in Hin as [Hin _]. apply filter_In in Hin as [_ Hin].
    apply negb_true_iff in Hin. now apply Nat.eqb_neq.
  - eapply perm_trans; [apply order_by_perm|].
    rewrite filter_twice. apply Permutation_refl.
Qed.
End DeleteExtras.



Section ReportExtras.
Context {N : JsNumber} {DB : Columns} {L : Locale}.

Lemma entry_accumulate (k key : string) (x : num) (g : Reports.Groups) :
  Chart.entry k (Reports.accumulate key x g)
  = if String.eqb key k
    then Some match Chart.entry key g with
              | Some (amount, count) => (add amount x, count + 1)
              | None => (add (of_Z 0) x, 0 + 1)
              end
    else Chart.entry k g.
Proof.
  induction g as [|[k0 [amount count]] g IH]; simpl.
  - reflexivity.
  - destruct (String.eqb_spec k0 key) as [->|Hne]; simpl.
    + destruct (String.eqb key k); reflexivity.
    + rewrite IH. destruct (String.eqb_spec key k) as [->|Hk].
      * apply String.eqb_neq in Hne. now rewrite Hne.
      * reflexivity.
Qed.

Lemma keys_accumulate (key : string) (x : num) (g : Reports.Groups) :
  map fst (Reports.accumulate key x g)
  = if existsb (fun k => String.eqb k key) (map fst g)
    then map fst g else (map fst g ++ [key])%list.
Proof.
  induction g as [|[k0 [amount count]] g IH]; simpl; [reflexivity|].
  destruct (String.eqb k0 key); simpl; [reflexivity|].
  rewrite IH. now destruct (existsb _ (map fst g)).
Qed.

Lemma keys_distinct_accumulate (key : string) (x : num) (g : Reports.Groups) :
  NoDup (map fst g) -> NoDup (map fst (Reports.accumulate key x g)).
Proof.
  intros H. rewrite keys_accumulate.
  destruct (existsb (fun k => String.eqb k key) (map fst g)) eqn:E;
    [exact H|].
  apply NoDup_snoc; [exact H|].
  intros Hin. assert (T : existsb (fun k => String.eqb k key) (map fst g) = true)
    by (apply existsb_exists; exists key; split;
        [exact Hin|apply String.eqb_refl]).
  congruence.
Qed.

Lemma keys_distinct_grouped (label : Store.Bill -> string)
    (rows : list Store.Bill) (g : Reports.Groups) :
  NoDup (map fst g) -> NoDup (map fst (Chart.grouped label rows g)).
Proof.
  revert g. induction rows as [|x rows IH]; intros g H; [exact H|].
  apply IH. now apply keys_distinct_accumulate.
Qed.

Lemma entry_in (k : string) (v : num * Z) (g : Reports.Groups) :
  NoDup (map fst g) -> In (k, v) g -> Chart.entry k g = Some v.
Proof.
  induction g as [|[k0 v0] g IH]; simpl; intros Hnd Hin; [contradiction|].
  inversion Hnd as [|? ? Hout Hrest]; subst.
  destruct Hin as [E|Hin].
  - inversion E; subst. now rewrite String.eqb_refl.
  - destruct (String.eqb_spec k0 k) as [->|Hne].
    + exfalso. apply Hout. apply in_map_iff. exists (k, v). now split.
    + now apply IH.
Qed.

Lemma in_entry (k : string) (v : num * Z) (g : Reports.Groups) :
  Chart.entry k g = Some v -> In (k, v) g.
Proof.
  induction g as [|[k0 v0] g IH]; simpl; intros H; [discriminate H|].
  destruct (String.eqb_spec k0 k) as [->|Hne].
  - left. congruence.
  - right. now apply IH.
Qed.

(** What [g[k]] holds once [rows] are added to [g]. *)
Lemma entry_grouped (label : Store.Bill -> string) (k : string)
    (rows : list Store.Bill) (g : Reports.Groups) :
  Chart.entry k (Chart.grouped label rows g)
  = match Chart.labelled label k rows, Chart.entry k g with
    | [], found => found
    | day, Some (amount, count) =>
        Some (Chart.totalFrom amount day, count + Z.of_nat (List.length day))
    | day, None =>
        Some (Chart.totalFrom (of_Z 0) day, Z.of_nat (List.length day))
    end.
Proof.
  revert g. induction rows as [|x rows IH]; intros g.
  - simpl. now destruct (Chart.entry k g) as [[amount count]|].
  - change (Chart.grouped label (x :: rows) g)
      with (Chart.grouped label rows
              (Reports.accumulate (label x) (Store.bill_total x) g)).
    rewrite IH, entry_accumulate. unfold Chart.labelled. cbn [filter].
    destruct (String.eqb_spec (label x) k) as [E|E].
    + subst k.
      destruct (filter (fun bill => String.eqb (label bill) (label x)) rows)
        as [|y day];
        destruct (Chart.entry (label x) g) as [[amount count]|];
        cbn [Chart.totalFrom fold_left List.length]; f_equal; f_equal; lia.
    + reflexivity.
Qed.

Lemma counts_accumulate (key : string) (x : num) (g : Reports.Groups) :
  View.sumZ (map (fun kv => snd (snd kv)) (Reports.accumulate key x g))
  = View.sumZ (map (fun kv => snd (snd kv)) g) + 1.
Proof.
  induction g as [|[k0 [amount count]] g IH]; simpl; [reflexivity|].
  destruct (String.eqb k0 key); simpl; [lia|]. simpl in IH. rewrite IH. lia.
Qed.

Lemma counts_grouped (label : Store.Bill -> string) (rows : list Store.Bill)
    (g : Reports.Groups) :
  View.sumZ (map (fun kv => snd (snd kv)) (Chart.grouped label rows g))
  = View.sumZ (map (fun kv => snd (snd kv)) g) + Z.of_nat (List.length rows).
Proof.
  revert g. induction rows as [|x rows IH]; intros g.
  - simpl. lia.
  - change (Chart.grouped label (x :: rows) g)
      with (Chart.grouped label rows
              (Reports.accumulate (label x) (Store.bill_total x) g)).
    rewrite IH, counts_accumulate. cbn [List.length]. lia.
Qed.

Lemma fetchRevenueData_charts (st : Reports.State) (e : Env) :
  nth 0 (faults e) None = None ->
  let st' := stateOf (Reports.fetchRevenueData st e) in
  let rows := Chart.between (Reports.startDate st) (Reports.endDate st)
                (store e) in
  Reports.revenueData st'
  = map (fun kv => {| Reports.rd_date := fst kv;
                      Reports.rd_revenue := round2 (fst (snd kv));
                      Reports.rd_bills := snd (snd kv) |})
      (Chart.grouped (fun bill => formatDay (Store.bill_date bill)) rows [])
  /\ Reports.paymentData st'
     = map (fun kv => {| Reports.pm_method := Str.capitalize (fst kv);
                         Reports.pm_amount := round2 (fst (snd kv));
                         Reports.pm_count := snd (snd kv) |})
         (Chart.grouped Reports.methodOf rows [])
  /\ Reports.totalBills st' = Z.of_nat (List.length rows)
  /\ Reports.totalRevenue st' = Chart.totalFrom (of_Z 0) rows.
Proof.
  intros H0. cbv zeta.
  unfold Reports.fetchRevenueData, bind, get. cbv beta iota zeta.
  rewrite read_run, H0. unfold Store.finalized_between.
  fold (Chart.between (Reports.startDate st) (Reports.endDate st) (store e)).
  destruct (Chart.between (Reports.startDate st) (Reports.endDate st) (store e))
    as [|x rows]; unfold modify, stateOf; cbn [fst snd];
    cbn [Reports.revenueData Reports.paymentData Reports.totalBills
         Reports.totalRevenue Reports.setAggregates].
  - repeat split.
  - unfold Reports.groupedByDate, Reports.paymentMethods, Chart.grouped,
      Chart.totalFrom.
    repeat split; apply map_ext; intros [k [amount count]]; reflexivity.
Qed.

(** X24. When the request of the report is answered, the bill count is the
    number of the bills that are no drafts and are dated within the range,
    and the counts of the day points, like the counts of the payment rows,
    add up to it (the labels being no property names that every JavaScript
    object inherits). When the request fails the report is left as it was
    and the error is shown. *)
Theorem report_counts_add_up (st : Reports.State) (e : Env) :
  let r := Reports.fetchRevenueData st e in
  let rows := Chart.between (Reports.startDate st) (Reports.endDate st)
                (store e) in
  match nth 0 (faults e) None with
  | None =>
      Reports.totalBills (stateOf r) = Z.of_nat (List.length rows)
      /\ (Chart.ownLabels (fun bill => formatDay (Store.bill_date bill)) rows ->
          View.sumZ (map Reports.rd_bills (Reports.revenueData (stateOf r)))
          = Reports.totalBills (stateOf r))
      /\ (Chart.ownLabels Reports.methodOf rows ->
          View.sumZ (map Reports.pm_count (Reports.paymentData (stateOf r)))
          = Reports.totalBills (stateOf r))
  | Some msg =>
      stateOf r = st
      /\ toasts (envOf r)
         = (toasts e ++ [ {| toast_title := "Error";
                             toast_description := Some msg;
                             toast_destructive := true |} ])%list
  end.
Proof.
  cbv zeta. destruct (nth 0 (faults e) None) as [msg|] eqn:H0.
  - unfold Reports.fetchRevenueData, bind, get. cbv beta iota zeta.
    rewrite read_run, H0. split; reflexivity.
  - destruct (fetchRevenueData_charts st e H0) as (-> & -> & -> & _).
    rewrite !map_map. cbn [Reports.rd_bills Reports.pm_count].
    rewrite !counts_grouped. repeat split.
Qed.

(** X25. When the request is answered and no day label is a property name
    that every JavaScript object inherits, the chart has one point per day
    label of the bills in range, with distinct labels; each point holds
    the number of the bills with its label and their total, added up from
    0 in the order of the bills and rounded to two decimals. *)
Theorem report_day_points (st : Reports.State) (e : Env) :
  nth 0 (faults e) None = None ->
  Chart.ownLabels (fun bill => formatDay (Store.bill_date bill))
    (Chart.between (Reports.startDate st) (Reports.endDate st) (store e)) ->
  let points := Reports.revenueData (stateOf (Reports.fetchRevenueData st e)) in
  let rows := Chart.between (Reports.startDate st) (Reports.endDate st)
                (store e) in
  NoDup (map Reports.rd_date points)
  /\ (forall bill, In bill rows ->
                   In (formatDay (Store.bill_date bill))
                      (map Reports.rd_date points))
  /\ forall pt, In pt points ->
       let day := Chart.labelled (fun bill => formatDay (Store.bill_date bill))
                    (Reports.rd_date pt) rows in
       day <> []
       /\ Reports.rd_bills pt = Z.of_nat (List.length day)
       /\ Reports.rd_revenue pt = round2 (Chart.totalFrom (of_Z 0) day).
Proof.
  intros H0 _. cbv zeta.
  destruct (fetchRevenueData_charts st e H0) as (-> & _).
  set (rows := Chart.between (Reports.startDate st) (Reports.endDate st)
                 (store e)).
  set (label := fun bill => formatDay (Store.bill_date bill)).
  assert (Hnd : NoDup (map fst (Chart.grouped label rows [])))
    by (apply keys_distinct_grouped; constructor).
  rewrite map_map. cbn [Reports.rd_date].
  split; [exact Hnd|]. split.
  - intros bill Hin.
    pose proof (entry_grouped label (label bill) rows []) as E.
    destruct (Chart.labelled label (label bill) rows) as [|y day] eqn:D.
    + exfalso.
      assert (Hb : In bill (Chart.labelled label (label bill) rows))
        by (apply filter_In; split; [exact Hin|apply String.eqb_refl]).
      rewrite D in Hb. exact Hb.
    + cbn [Chart.entry] in E. apply in_entry in E.
      apply in_map_iff. eexists. split; [|exact E]. reflexivity.
  - intros pt Hin. apply in_map_iff in Hin as ([k [amount count]] & <- & Hin).
    cbn [Reports.rd_date Reports.rd_bills Reports.rd_revenue fst snd].
    apply (entry_in k (amount, count) _ Hnd) in Hin.
    rewrite entry_grouped in Hin. cbn [Chart.entry] in Hin.
    destruct (Chart.labelled label k rows) as [|y day]; [discriminate Hin|].
    inversion Hin; subst. repeat split. discriminate.
Qed.

End ReportExtras.

Section SearchExtras.
Context {N : JsNumber}.
Variable formatDate : Z -> string.

Lemma includes_empty (s : string) : Text.includes s "" = true.
Proof. destruct s; reflexivity. Qed.

Lemma prefix_same (s : string) : String.prefix s s = true.
Proof.
  induction s as [|c s IH]; [reflexivity|]. simpl.
  destruct (ascii_dec c c) as [_|Hne]; [exact IH|now contradiction Hne].
Qed.

Lemma includes_same (s : string) : Text.includes s s = true.
Proof.
  destruct s as [|c s]; [reflexivity|]. cbn [Text.includes].
  now rewrite prefix_same.
Qed.

Lemma lower_upper (c : ascii) : Text.lower (Str.upper c) = Text.lower c.
Proof.
  destruct c as [[] [] [] [] [] [] [] []]; vm_compute; reflexivity.
Qed.

Lemma toLowerCase_inCapitals (s : string) :
  Text.toLowerCase (Text.inCapitals s) = Text.toLowerCase s.
Proof.
  induction s as [|c s IH]; [reflexivity|]. simpl. now rewrite lower_upper, IH.
Qed.

Lemma truthy_inCapitals (s : string) :
  Str.truthy (Text.inCapitals s) = Str.truthy s.
Proof. destruct s; reflexivity. Qed.

Lemma lower_digits (d : Decimal.uint) :
  Text.toLowerCase (NilEmpty.string_of_uint d)
  = NilEmpty.string_of_uint d.
Proof. induction d; simpl; try rewrite IHd; reflexivity. Qed.

Lemma lower_ofZ (z : Z) : Text.toLowerCase (Str.ofZ z) = Str.ofZ z.
Proof.
  unfold Str.ofZ. destruct (Z.to_int z) as [d|d];
    unfold NilZero.string_of_int, NilZero.string_of_uint;
    destruct d; try reflexivity; simpl; now rewrite lower_digits.
Qed.

Lemma truthy_ofZ (z : Z) : Str.truthy (Str.ofZ z) = true.
Proof.
  unfold Str.ofZ. destruct (Z.to_int z) as [d|d];
    unfold NilZero.string_of_int, NilZero.string_of_uint;
    destruct d; reflexivity.
Qed.

(** X27. With an empty search box the billing page shows the whole menu
    and the history page all its bills. *)
Theorem empty_query_lists_all (menuItems : list Billing.MenuItem)
    (bills : list Store.Bill) :
  Search.filteredMenuItems menuItems "" = menuItems
  /\ Search.filterBills formatDate bills "" = bills.
Proof.
  split; [|reflexivity]. unfold Search.filteredMenuItems.
  apply filter_all. intros item _.
  change (Text.toLowerCase "") with "". now rewrite includes_empty.
Qed.

(** X28. Typing the number of a listed bill into the search box of the
    history page keeps that bill in the filtered list. *)
Theorem number_finds_the_bill (bills : list Store.Bill) (bill : Store.Bill) :
  In bill bills ->
  In bill (Search.filterBills formatDate bills (Str.ofZ (Store.bill_number bill))).
Proof.
  intros Hin. unfold Search.filterBills. rewrite truthy_ofZ. cbn [negb].
  cbv zeta. apply filter_In. split; [exact Hin|].
  now rewrite lower_ofZ, includes_same.
Qed.

(** X29. Both search boxes ignore the case of the query: the query in
    capitals selects what the query selects. *)
Theorem search_ignores_case (menuItems : list Billing.MenuItem)
    (bills : list Store.Bill) (searchQuery : string) :
  Search.filteredMenuItems menuItems (Text.inCapitals searchQuery)
  = Search.filteredMenuItems menuItems searchQuery
  /\ Search.filterBills formatDate bills (Text.inCapitals searchQuery)
     = Search.filterBills formatDate bills searchQuery.
Proof.
  unfold Search.filteredMenuItems, Search.filterBills.
  now rewrite truthy_inCapitals, toLowerCase_inCapitals.
Qed.
End SearchExtras.

(** ** The further properties at work on the example shop *)

Lemma composing_storable : Spec.storable Example.composing.
Proof.
  unfold Spec.storable, Spec.fits.
  split; [vm_compute; discriminate|]. split; [vm_compute; discriminate|].
  split; [vm_compute; discriminate|]. split; [vm_compute; discriminate|].
  constructor; [|constructor].
  split; [vm_compute; discriminate|]. split; [vm_compute; discriminate|].
  unfold Store.max_integer. simpl. lia.
Defined.

Lemma editing_storable : Spec.storable Example.editing.
Proof.
  unfold Spec.storable, Spec.fits.
  split; [vm_compute; discriminate|]. split; [vm_compute; discriminate|].
  split; [vm_compute; discriminate|]. split; [vm_compute; discriminate|].
  constructor; [|constructor; [|constructor]];
    (split; [vm_compute; discriminate|]; split; [vm_compute; discriminate|];
     unfold Store.max_integer; simpl; lia).
Defined.

Lemma composing_quantities :
  Forall (fun l => 1 <= Billing.ci_quantity l) (Billing.cart Example.composing).
Proof. constructor; [simpl; lia|constructor]. Defined.

Lemma addToCart_then_removeItem_witness :
  ~ In (Billing.mi_id Example.samosa)
       (map Billing.ci_id (Billing.cart Example.composing))
  /\ Billing.removeItem 9%nat
       (Billing.addToCart Example.samosa Example.composing)
     = Example.composing.
Proof.
  assert (H : ~ In (Billing.mi_id Example.samosa)
                   (map Billing.ci_id (Billing.cart Example.composing)))
    by (intros [E|[]]; discriminate E).
  split; [exact H|].
  exact (addToCart_then_removeItem Example.samosa Example.composing H).
Defined.

Lemma plus_button_is_addToCart_witness :
  In (Billing.mi_id Example.tea)
     (map Billing.ci_id (Billing.cart Example.composing))
  /\ Billing.updateQuantity 7%nat 1 Example.composing
     = Billing.addToCart Example.tea Example.composing.
Proof.
  assert (H : In (Billing.mi_id Example.tea)
                 (map Billing.ci_id (Billing.cart Example.composing)))
    by (left; reflexivity).
  split; [exact H|].
  exact (plus_button_is_addToCart Example.tea Example.composing H
           composing_quantities).
Defined.

Lemma updateQuantity_twice_witness :
  Spec.cart_ok (Billing.cart Example.composing)
  /\ Billing.updateQuantity 7%nat (-2)
       (Billing.updateQuantity 7%nat 1 Example.composing)
     = Billing.updateQuantity 7%nat (1 + -2) Example.composing.
Proof.
  assert (H : Spec.cart_ok (Billing.cart Example.composing)).
  { split; repeat constructor; simpl; [intuition|lia]. }
  assert (H' : forall l, In l (Billing.cart Example.composing) ->
                         Billing.ci_id l = 7%nat ->
                         0 < Billing.ci_quantity l + 1)
    by (intros l [<-|[]] _; simpl; lia).
  split; [exact H|].
  exact (updateQuantity_twice 7%nat 1 (-2) Example.composing H H').
Defined.

Lemma updateQuantity_no_effect_witness :
  ~ In 9%nat (map Billing.ci_id (Billing.cart Example.composing))
  /\ Billing.updateQuantity 9%nat 5 Example.composing = Example.composing.
Proof.
  assert (H : ~ In 9%nat (map Billing.ci_id (Billing.cart Example.composing)))
    by (intros [E|[]]; discriminate E).
  split; [exact H|].
  exact (updateQuantity_no_effect 9%nat 5 Example.composing
           composing_quantities (or_introl H)).
Defined.

Lemma subtotal_after_adding_witness :
  ~ In (Billing.mi_id Example.samosa)
       (map Billing.ci_id (Billing.cart Example.composing))
  /\ Billing.subtotal
       (Billing.calculateTotals
          (Billing.addToCart Example.samosa Example.composing))
     = add (Billing.subtotal (Billing.calculateTotals Example.composing))
           (mul (Billing.mi_price Example.samosa) (of_Z 1)).
Proof.
  assert (H : ~ In (Billing.mi_id Example.samosa)
                   (map Billing.ci_id (Billing.cart Example.composing)))
    by (intros [E|[]]; discriminate E).
  split; [exact H|].
  exact (subtotal_after_adding Example.samosa Example.composing H).
Defined.

Lemma receipts_agree_witness :
  Str.truthy (Store.shop_name (Billing.settings Example.composing)) = true
  /\ truthy (Store.tax_percentage (Billing.settings Example.composing)) = true
  /\ PreviousBills.receiptText (Some (Billing.settings Example.composing))
       Example.bill2 (Store.bill_items Example.store1)
     = Billing.receiptText Example.composing Example.bill2
         (Store.bill_items Example.store1).
Proof.
  split; [reflexivity|]. split; [reflexivity|].
  exact (receipts_agree Example.composing Example.bill2
           (Store.bill_items Example.store1) eq_refl eq_refl).
Defined.

Lemma reprint_without_settings_witness :
  PreviousBills.selectedBill Example.viewing = Some Example.bill2
  /\ popups_blocked Example.offline = false
  /\ (exists msg, nth 0 (faults Example.offline) None = Some msg)
  /\ toasts (envOf (PreviousBills.printBill Example.viewing Example.offline))
     = toasts Example.offline.
Proof.
  assert (H : exists msg, nth 0 (faults Example.offline) None = Some msg)
    by (eexists; reflexivity).
  split; [reflexivity|]. split; [reflexivity|]. split; [exact H|].
  exact (proj1 (reprint_without_settings Example.viewing Example.offline
                  Example.bill2 eq_refl eq_refl (or_intror H))).
Defined.

Lemma saveBill_items_refused_witness :
  Billing.cart Example.composing <> []
  /\ Billing.currentBillId Example.composing = None
  /\ nth 0 (faults Example.dropped) None = None
  /\ Stage.accepted (Billing.billDataOf false Example.composing) = true
  /\ nth 1 (faults Example.dropped) None = Some "Failed to fetch"
  /\ stateOf (Billing.saveBill false Example.composing Example.dropped)
     = Example.composing.
Proof.
  assert (H : Billing.cart Example.composing <> []) by discriminate.
  assert (A : Stage.accepted (Billing.billDataOf false Example.composing)
              = true) by (vm_compute; reflexivity).
  split; [exact H|]. split; [reflexivity|]. split; [reflexivity|].
  split; [exact A|]. split; [reflexivity|].
  exact (proj1 (saveBill_items_refused false Example.composing Example.dropped
                  "Failed to fetch" H eq_refl eq_refl A (or_introl eq_refl))).
Defined.

Lemma saveBill_leaves_other_bills_witness :
  2%nat <> Stage.writtenId (Billing.currentBillId Example.editing)
             (store Example.flaky)
  /\ filter (fun r => Nat.eqb (Store.bill_id r) 2)
       (Store.bills
          (store (envOf (Billing.saveBill true Example.editing Example.flaky))))
     = filter (fun r => Nat.eqb (Store.bill_id r) 2)
         (Store.bills (store Example.flaky)).
Proof.
  assert (H : 2%nat <> Stage.writtenId (Billing.currentBillId Example.editing)
                         (store Example.flaky)) by discriminate.
  split; [exact H|].
  exact (proj1 (saveBill_leaves_other_bills true Example.editing Example.flaky
                  2%nat H)).
Defined.

Lemma savedBills_after_save_witness :
  Billing.cart Example.editing <> []
  /\ Spec.no_faults Example.env1
  /\ Spec.store_ok (store Example.env1)
  /\ (forall b, Billing.currentBillId Example.editing = Some b ->
                Store.has_bill b (store Example.env1) = true)
  /\ Spec.storable Example.editing
  /\ StronglySorted
       (fun a b => Store.bill_created_at b <= Store.bill_created_at a)
       (Billing.savedBills
          (stateOf (Billing.saveBill false Example.editing Example.env1))).
Proof.
  assert (H1 : Billing.cart Example.editing <> []) by discriminate.
  assert (H2 : Spec.no_faults Example.env1) by (repeat constructor).
  assert (H4 : forall b, Billing.currentBillId Example.editing = Some b ->
                         Store.has_bill b (store Example.env1) = true).
  { intros b E. inversion E; subst. reflexivity. }
  split; [exact H1|]. split; [exact H2|]. split; [exact store1_ok|].
  split; [exact H4|]. split; [exact editing_storable|].
  exact (proj1 (proj2 (savedBills_after_save false Example.editing
                         Example.env1 H1 H2 store1_ok H4 editing_storable))).
Defined.

Lemma revenue_after_new_bill_witness :
  Billing.cart Example.composing <> []
  /\ Spec.no_faults Example.env0
  /\ Billing.currentBillId Example.composing = None
  /\ Spec.storable Example.composing
  /\ startOfDay (now Example.env0) <= Store.clock (store Example.env0)
  /\ exists total,
       decimal_10_2 (Billing.total (Billing.calculateTotals Example.composing))
       = Some total.
Proof.
  assert (H1 : Billing.cart Example.composing <> []) by discriminate.
  assert (H2 : Spec.no_faults Example.env0) by constructor.
  assert (H5 : startOfDay (now Example.env0) <= Store.clock (store Example.env0))
    by (vm_compute; discriminate).
  split; [exact H1|]. split; [exact H2|]. split; [reflexivity|].
  split; [exact composing_storable|]. split; [exact H5|].
  destruct (revenue_after_new_bill true Example.composing Example.env0 H1 H2
              eq_refl composing_storable (fun _ => H5)) as (total & Ht & _).
  exists total. exact Ht.
Defined.

Lemma loadBill_without_bill_row_witness :
  nth 0 (faults Example.flaky) None = None
  /\ (exists msg, nth 1 (faults Example.flaky) None = Some msg)
  /\ Billing.discount
       (stateOf (Billing.loadBill 0%nat Example.composing Example.flaky))
     = Billing.discount Example.composing.
Proof.
  assert (H : exists msg, nth 1 (faults Example.flaky) None = Some msg)
    by (eexists; reflexivity).
  split; [reflexivity|]. split; [exact H|].
  exact (proj1 (proj2 (loadBill_without_bill_row 0%nat Example.composing
                         Example.flaky eq_refl (or_introl H)))).
Defined.

Lemma loaded_lines_carry_row_ids_witness :
  nth 0 (faults Example.env1) None = None
  /\ ~ In (Billing.mi_id Example.tea)
          (map Store.item_id
             (filter (fun i => Nat.eqb (Store.item_bill_id i) 0)
                (Store.bill_items (store Example.env1))))
  /\ map Billing.ci_name
       (Billing.cart
          (Billing.addToCart Example.tea
             (stateOf (Billing.loadBill 0%nat Billing.initial Example.env1))))
     = ["Masala tea"; "Masala tea"].
Proof.
  assert (H : ~ In (Billing.mi_id Example.tea)
                   (map Store.item_id
                      (filter (fun i => Nat.eqb (Store.item_bill_id i) 0)
                         (Store.bill_items (store Example.env1)))))
    by (intros [E|[]]; discriminate E).
  split; [reflexivity|]. split; [exact H|].
  rewrite (loaded_lines_carry_row_ids 0%nat Example.tea Billing.initial
             Example.env1 eq_refl H).
  reflexivity.
Defined.

Lemma deleteBill_leaves_other_bills_witness :
  PreviousBills.billToDelete Example.deleting = Some Example.bill2
  /\ 0%nat <> Store.bill_id Example.bill2
  /\ filter (fun r => Nat.eqb (Store.bill_id r) 0)
       (Store.bills
          (store (envOf (PreviousBills.deleteBill Example.deleting
                           Example.env1))))
     = filter (fun r => Nat.eqb (Store.bill_id r) 0)
         (Store.bills (store Example.env1)).
Proof.
  assert (H : 0%nat <> Store.bill_id Example.bill2) by discriminate.
  split; [reflexivity|]. split; [exact H|].
  exact (proj1 (deleteBill_leaves_other_bills Example.deleting Example.env1
                  Example.bill2 0%nat eq_refl H)).
Defined.

Lemma deleteBill_half_done_witness :
  PreviousBills.billToDelete Example.deleting = Some Example.bill2
  /\ nth 0 (faults Example.flaky) None = None
  /\ nth 1 (faults Example.flaky) None = Some "Failed to fetch"
  /\ Store.bills
       (store (envOf (PreviousBills.deleteBill Example.deleting
                        Example.flaky)))
     = Store.bills (store Example.flaky).
Proof.
  split; [reflexivity|]. split; [reflexivity|]. split; [reflexivity|].
  exact (proj1 (deleteBill_half_done Example.deleting Example.flaky
                  Example.bill2 "Failed to fetch" eq_refl eq_refl eq_refl)).
Defined.

Lemma deleted_bill_not_listed_witness :
  PreviousBills.billToDelete Example.deleting = Some Example.bill2
  /\ nth 1 (faults Example.env1) None = None
  /\ forall row,
       In row (PreviousBills.bills
                 (stateOf (PreviousBills.deleteBill Example.deleting
                             Example.env1))) ->
       Store.bill_id row <> Store.bill_id Example.bill2.
Proof.
  split; [reflexivity|]. split; [reflexivity|].
  exact (proj1 (deleted_bill_not_listed Example.deleting Example.env1
                  Example.bill2 eq_refl eq_refl)).
Defined.

Lemma report2_day_labels :
  Chart.ownLabels (fun bill => formatDay (Store.bill_date bill))
    (Chart.between (Reports.startDate Example.report2)
       (Reports.endDate Example.report2) (store Example.env1)).
Proof. unfold Chart.ownLabels. vm_compute. repeat constructor. Defined.


Lemma report_day_points_witness :
  nth 0 (faults Example.env1) None = None
  /\ NoDup (map Reports.rd_date
              (Reports.revenueData
                 (stateOf (Reports.fetchRevenueData Example.report2
                             Example.env1)))).
Proof.
  split; [reflexivity|].
  exact (proj1 (report_day_points Example.report2 Example.env1 eq_refl
                  report2_day_labels)).
Defined.


Lemma number_finds_the_bill_witness :
  In Example.bill2 (Store.bills Example.store1)
  /\ In Example.bill2
       (Search.filterBills UTC.day (Store.bills Example.store1)
          (Str.ofZ (Store.bill_number Example.bill2))).
Proof.
  assert (H : In Example.bill2 (Store.bills Example.store1))
    by (right; left; reflexivity).
  split; [exact H|].
  exact (number_finds_the_bill UTC.day (Store.bills Example.store1)
           Example.bill2 H).
Defined.
